(** * cromulent.extract: dimension and monetary-amount extraction

    A shallow embedding of [cromulent/extract.py].  Python [str] values are
    Rocq strings whose characters are read as code points 0..255; Python
    [float] is IEEE-754 binary64 as specified by [SpecFloat]; the
    [warnings.warn] side channel and raised exceptions are threaded
    explicitly through a small writer/error monad. *)

From Stdlib Require Import ZArith Ascii String List Bool Lia DecimalString.
From Stdlib Require Import Floats.SpecFloat.
From stdpp Require Import base option gmap strings.

Local Open Scope string_scope.
Local Open Scope Z_scope.
Local Open Scope list_scope.

(** ** Python strings *)

Module Py.

Definition code (c : ascii) : N := N_of_ascii c.

(** [str.isspace] and the regular-expression class [\s] on code points
    below 256. *)
Definition isspace (c : ascii) : bool :=
  let n := code c in
  (((9 <=? n) && (n <=? 13)) || ((28 <=? n) && (n <=? 32))
   || (n =? 133) || (n =? 160))%N.

(** The class [\d]: below 256 only the ASCII digits are decimal. *)
Definition isdigit (c : ascii) : bool :=
  let n := code c in ((48 <=? n) && (n <=? 57))%N.

(** The class [\w]: alphanumeric code points and the underscore. *)
Definition isword (c : ascii) : bool :=
  let n := code c in
  (isdigit c
   || ((65 <=? n) && (n <=? 90)) || (n =? 95) || ((97 <=? n) && (n <=? 122))
   || (n =? 170) || (n =? 178) || (n =? 179) || (n =? 181) || (n =? 185)
   || (n =? 186) || ((188 <=? n) && (n <=? 190))
   || ((192 <=? n) && (n <=? 214)) || ((216 <=? n) && (n <=? 246))
   || (248 <=? n))%N.

Definition lower_char (c : ascii) : ascii :=
  let n := code c in
  if (((65 <=? n) && (n <=? 90))
      || ((192 <=? n) && (n <=? 222) && negb (n =? 215)))%N
  then ascii_of_N (n + 32) else c.

(** [s.lower()] *)
Fixpoint lower (s : string) : string :=
  match s with
  | EmptyString => EmptyString
  | String c t => String (lower_char c) (lower t)
  end.

Fixpoint drop (n : nat) (s : string) : string :=
  match n, s with
  | O, _ => s
  | S n', String _ t => drop n' t
  | S _, EmptyString => EmptyString
  end.

Fixpoint take (n : nat) (s : string) : string :=
  match n, s with
  | S n', String c t => String c (take n' t)
  | _, _ => EmptyString
  end.

(** [s.startswith(p)] *)
Definition startswith (s p : string) : bool := String.prefix p s.

(** [sub in s] *)
Fixpoint contains (sub s : string) : bool :=
  String.prefix sub s
  || match s with
     | EmptyString => false
     | String _ t => contains sub t
     end.

(** [s.replace(old, new)] for a non-empty [old]: occurrences are replaced
    left to right without overlap.  [skip] counts the characters of an
    occurrence still to be dropped. *)
Fixpoint replace_from (old new : string) (skip : nat) (s : string) : string :=
  match s with
  | EmptyString => EmptyString
  | String c t =>
      match skip with
      | S k => replace_from old new k t
      | O =>
          if String.prefix old s
          then String.append new (replace_from old new (Nat.pred (String.length old)) t)
          else String c (replace_from old new O t)
      end
  end.

Definition replace (old new s : string) : string := replace_from old new O s.

Fixpoint lstrip_by (p : ascii -> bool) (s : string) : string :=
  match s with
  | String c t => if p c then lstrip_by p t else s
  | EmptyString => EmptyString
  end.

Fixpoint rstrip_by (p : ascii -> bool) (s : string) : string :=
  match s with
  | EmptyString => EmptyString
  | String c t =>
      match rstrip_by p t with
      | EmptyString => if p c then EmptyString else String c EmptyString
      | t' => String c t'
      end
  end.

(** [s.strip()] *)
Definition strip (s : string) : string := rstrip_by isspace (lstrip_by isspace s).

(** [sep.join(parts)] *)
Definition join (sep : string) (parts : list string) : string :=
  String.concat sep parts.

(** Truth value of a string. *)
Definition nonempty (s : string) : bool :=
  match s with EmptyString => false | _ => true end.

(** [o == s] for a value [o] that is either [None] or a string. *)
Definition is_str (o : option string) (s : string) : bool :=
  match o with
  | Some t => String.eqb t s
  | None => false
  end.

End Py.

(** ** Python floats *)

Module PyFloat.

Definition prec : Z := 53.
Definition emax : Z := 1024.

Abbreviation float := spec_float.

(** [float(z)] for an integer [z] (exact below 2^53, rounded to nearest
    even above). *)
Definition of_Z (z : Z) : float := binary_normalize prec emax z 0 false.

Definition add : float -> float -> float := SFadd prec emax.
Definition mul : float -> float -> float := SFmul prec emax.

(** Truth value: everything but the two zeros. *)
Definition nonzero (x : float) : bool :=
  match x with S754_zero _ => false | _ => true end.

(** The double nearest to [m * 10^e10] (round half to even), negated when
    [neg]. *)
Definition of_decimal (neg : bool) (m : Z) (e10 : Z) : float :=
  match m with
  | Zpos p =>
      if 0 <=? e10
      then binary_round prec emax neg (p * Z.to_pos (10 ^ e10))%positive 0
      else
        let '(q, e, l) :=
          SFdiv_core_binary prec emax (Zpos p) 0 (10 ^ (- e10)) 0 in
        binary_round_aux prec emax neg q e l
  | _ => S754_zero neg
  end.

(** *** [float(s)] *)

(** Characters stripped around the literal. *)
Definition isspace (c : ascii) : bool :=
  let n := Py.code c in
  (((9 <=? n) && (n <=? 13)) || (n =? 32) || (n =? 133) || (n =? 160))%N.

Definition digit_val (c : ascii) : Z := Z.of_N (Py.code c) - 48.

(** A digit run with single underscores between digits: returns the
    accumulated number, how many digits were read, and the remainder.
    [prev_digit] tells whether the previous character was a digit, which
    is what an underscore needs on its left. *)
Fixpoint digits (acc : Z) (n : Z) (prev_digit : bool) (s : string)
  : option (Z * Z * string) :=
  match s with
  | String c t =>
      if Py.isdigit c then digits (10 * acc + digit_val c) (n + 1) true t
      else if Ascii.eqb c "_" then
        if prev_digit then
          match t with
          | String c' _ =>
              if Py.isdigit c' then digits acc n false t else None
          | EmptyString => None
          end
        else None
      else Some (acc, n, s)
  | EmptyString => Some (acc, n, s)
  end.

Definition exponent (s : string) : option Z :=
  match s with
  | EmptyString => Some 0
  | String c t =>
      if Ascii.eqb (Py.lower_char c) "e" then
        let '(neg, t') :=
          match t with
          | String "+" u => (false, u)
          | String "-" u => (true, u)
          | _ => (false, t)
          end in
        match digits 0 0 false t' with
        | Some (e, n, EmptyString) =>
            if 0 <? n then Some (if neg then - e else e) else None
        | _ => None
        end
      else None
  end.

Definition unsigned (neg : bool) (s : string) : option float :=
  let l := Py.lower s in
  if String.eqb l "inf" || String.eqb l "infinity" then Some (S754_infinity neg)
  else if String.eqb l "nan" then Some S754_nan
  else
    match digits 0 0 false s with
    | Some (ip, ni, rest) =>
        let frac :=
          match rest with
          | String "." t =>
              match t with
              | String "_" _ => None
              | _ => digits ip 0 false t
              end
          | _ => Some (ip, 0, rest)
          end in
        match frac with
        | Some (m, nf, rest') =>
            if 0 <? ni + nf then
              match exponent rest' with
              | Some e => Some (of_decimal neg m (e - nf))
              | None => None
              end
            else None
        | None => None
        end
    | None => None
    end.

(** [float(s)]; [None] stands for [ValueError]. *)
Definition of_string (s : string) : option float :=
  match Py.rstrip_by isspace (Py.lstrip_by isspace s) with
  | String "+" t => unsigned false t
  | String "-" t => unsigned true t
  | t => unsigned false t
  end.

End PyFloat.

(** *** [repr(x)], which is also [str(x)] and ['%s' % x] *)

Module PyRepr.
Import PyFloat.

(** Decimal numeral of a non-negative integer. *)
Definition dec (z : Z) : string := NilZero.string_of_uint (N.to_uint (Z.to_N z)).

Fixpoint zeros (n : nat) : string :=
  match n with O => EmptyString | S k => String "0" (zeros k) end.

(** Number of decimal digits of a positive integer, by search. *)
Fixpoint ndigits_from (fuel : nat) (k : Z) (m : Z) : Z :=
  match fuel with
  | O => k
  | S f => if m <? 10 ^ k then k else ndigits_from f (k + 1) m
  end.

Definition ndigits (m : Z) : Z := ndigits_from (Z.to_nat (Z.log2 m) + 1) 1 m.

Fixpoint strip_zeros (fuel : nat) (d : Z) : Z :=
  match fuel with
  | O => d
  | S f => if (d mod 10 =? 0) && (0 <? d) then strip_zeros f (d / 10) else d
  end.

(** The shortest digit string that reads back as [x = m * 2^e], and among
    those of that length the one nearest to [x]: the result is [(d, p)]
    with [x] printed as [0.d * 10^p].  [x] is written exactly as
    [big * 10^q]; for n = 1, 2, ... its n-digit truncation and the next
    n-digit number up are tried. *)
Fixpoint shortest_from (fuel : nat) (n : Z) (x : float) (big len q : Z)
  : Z * Z :=
  let p := 10 ^ (len - n) in
  let lo := big / p in
  let r := big mod p in
  let e10 := q + len - n in
  let lo_ok := match of_decimal false lo e10, x with
               | S754_finite _ a b, S754_finite _ a' b' =>
                   Pos.eqb a a' && (b =? b')
               | _, _ => false
               end in
  let hi_ok := match of_decimal false (lo + 1) e10, x with
               | S754_finite _ a b, S754_finite _ a' b' =>
                   Pos.eqb a a' && (b =? b')
               | _, _ => false
               end in
  let pick_hi := match 2 * r ?= p with
                 | Lt => false
                 | Gt => true
                 | Eq => Z.odd lo
                 end in
  match fuel with
  | O => (lo, len + q)
  | S f =>
      if (r =? 0) || (n =? len) then (lo, len + q)
      else if lo_ok && hi_ok then
        if pick_hi then (lo + 1, if lo + 1 =? 10 ^ n then len + q + 1 else len + q)
        else (lo, len + q)
      else if lo_ok then (lo, len + q)
      else if hi_ok then (lo + 1, if lo + 1 =? 10 ^ n then len + q + 1 else len + q)
      else shortest_from f (n + 1) x big len q
  end.

Definition shortest (m : positive) (e : Z) : Z * Z :=
  let big := if 0 <=? e then Zpos m * 2 ^ e else Zpos m * 5 ^ (- e) in
  let q := if 0 <=? e then 0 else e in
  let len := ndigits big in
  let '(d, p) := shortest_from 17 1 (S754_finite false m e) big len q in
  (strip_zeros 17 d, p).

(** Layout of the digits: exponent notation when the decimal point falls
    outside (-4, 16], otherwise positional with at least one digit on
    each side of the point. *)
Definition layout (d : Z) (p : Z) : string :=
  let ds := dec d in
  let n := Z.of_nat (String.length ds) in
  if (p <=? -4) || (16 <? p) then
    let e := p - 1 in
    let mant := match ds with
                | String c EmptyString => ds
                | String c t => String c (String "." t)
                | EmptyString => ds
                end in
    let ex := dec (Z.abs e) in
    let sign := if e <? 0 then "-" else "+" in
    let pad := if Z.abs e <? 10 then "0" else "" in
    String.append mant (String.append "e" (String.append sign (String.append pad ex)))
  else if p <=? 0 then
    String.append "0." (String.append (zeros (Z.to_nat (- p))) ds)
  else if n <=? p then
    String.append ds (String.append (zeros (Z.to_nat (p - n))) ".0")
  else
    String.append (Py.take (Z.to_nat p) ds)
      (String.append "." (Py.drop (Z.to_nat p) ds)).

Definition repr (x : float) : string :=
  match x with
  | S754_nan => "nan"
  | S754_infinity s => if s then "-inf" else "inf"
  | S754_zero s => if s then "-0.0" else "0.0"
  | S754_finite s m e =>
      let '(d, p) := shortest m e in
      String.append (if s then "-" else "") (layout d p)
  end.

End PyRepr.

(** ** Regular expressions ([re])

    The patterns of the module are written as syntax trees and run by a
    backtracking matcher with the priorities of Python's engine: a
    sequence tries its left part first, an alternation its left branch
    first, and a repetition takes as many iterations as it can before it
    gives them back one at a time. *)

Module Re.

Inductive re : Type :=
| Eps                                  (* the empty pattern *)
| Lit (w : string)                     (* literal text *)
| Cls (p : ascii -> bool)              (* one character of a class *)
| Seq (r1 r2 : re)                     (* r1 r2 *)
| Alt (r1 r2 : re)                     (* r1|r2 *)
| Star (r : re)                        (* r* *)
| Grp (n : nat) (r : re)               (* the n-th capturing group (r) *)
| NotBehind (p : ascii -> bool).       (* (?<!c) for a class c *)

Definition Plus (r : re) : re := Seq r (Star r).       (* r+ *)
Definition Opt (r : re) : re := Alt r Eps.             (* r? *)

Fixpoint seq (rs : list re) : re :=
  match rs with
  | nil => Eps
  | r :: nil => r
  | r :: rs' => Seq r (seq rs')
  end.

Fixpoint alt (rs : list re) : re :=
  match rs with
  | nil => Eps
  | r :: nil => r
  | r :: rs' => Alt r (alt rs')
  end.

(** A position in the subject: the number of characters before it, the
    character just before it, the text after it, and the groups captured
    so far. *)
Record mstate : Type := MState {
  pos : nat;
  prev : option ascii;
  rest : string;
  caps : nat -> option string
}.

Definition step (s : mstate) : mstate :=
  match rest s with
  | String c t => MState (S (pos s)) (Some c) t (caps s)
  | EmptyString => s
  end.

Fixpoint advance (n : nat) (s : mstate) : mstate :=
  match n with
  | O => s
  | S k => advance k (step s)
  end.

(** Text between an earlier position [s] and a later one [s']. *)
Definition between (s s' : mstate) : string :=
  Py.take (pos s' - pos s) (rest s).

Definition set_cap (n : nat) (text : string) (s : mstate) : mstate :=
  MState (pos s) (prev s) (rest s)
    (fun k => if Nat.eqb k n then Some text else caps s k).

(** [rmatch r k s] matches [r] at [s] and hands every way of doing so, in
    priority order, to the continuation [k] until one succeeds.  An
    iteration of a repetition has to consume text; none of the repeated
    patterns below can match the empty string. *)
Fixpoint rmatch (r : re) (k : mstate -> option mstate) (s : mstate)
  {struct r} : option mstate :=
  match r with
  | Eps => k s
  | Lit w =>
      if String.prefix w (rest s) then k (advance (String.length w) s)
      else None
  | Cls p =>
      match rest s with
      | String c _ => if p c then k (step s) else None
      | EmptyString => None
      end
  | Seq r1 r2 => rmatch r1 (rmatch r2 k) s
  | Alt r1 r2 =>
      match rmatch r1 k s with
      | Some x => Some x
      | None => rmatch r2 k s
      end
  | Star r1 =>
      (fix loop (fuel : nat) (s : mstate) {struct fuel} : option mstate :=
         match fuel with
         | O => k s
         | S fuel' =>
             match rmatch r1
                     (fun s' => if Nat.ltb (pos s) (pos s')
                                then loop fuel' s' else None) s with
             | Some x => Some x
             | None => k s
             end
         end) (String.length (rest s)) s
  | Grp n r1 => rmatch r1 (fun s' => k (set_cap n (between s s') s')) s
  | NotBehind p =>
      match prev s with
      | Some c => if p c then None else k s
      | None => k s
      end
  end.

(** A match object: its span and its groups; group 0 is the whole
    match. *)
Record pymatch : Type := PyMatch {
  m_start : nat;
  m_end : nat;
  groups : nat -> option string
}.

(** [m.group(i)] *)
Definition group (m : pymatch) (i : nat) : option string := groups m i.

Definition match_at (r : re) (s : mstate) : option pymatch :=
  match rmatch r Some (MState (pos s) (prev s) (rest s) (fun _ => None)) with
  | Some s' =>
      Some (PyMatch (pos s) (pos s')
              (fun i => match i with
                        | O => Some (between s s')
                        | _ => caps s' i
                        end))
  | None => None
  end.

Definition start_of (subject : string) : mstate :=
  MState O None subject (fun _ => None).

(** [pattern.match(subject)]: a match anchored at the start. *)
Definition match_ (r : re) (subject : string) : option pymatch :=
  match_at r (start_of subject).

(** [re.finditer(pattern, subject)]: the non-overlapping matches from left
    to right.  After a match the scan resumes at its end; [skip] counts
    the characters of the last match still to be passed over. *)
Fixpoint finditer_from (r : re) (fuel : nat) (skip : nat) (s : mstate)
  : list pymatch :=
  match fuel with
  | O => nil
  | S fuel' =>
      match skip with
      | S k => finditer_from r fuel' k (step s)
      | O =>
          match match_at r s with
          | Some m =>
              m :: match rest s with
                   | EmptyString => nil
                   | _ => finditer_from r fuel' (Nat.pred (m_end m - m_start m)) (step s)
                   end
          | None =>
              match rest s with
              | EmptyString => nil
              | _ => finditer_from r fuel' O (step s)
              end
          end
      end
  end.

Definition finditer (r : re) (subject : string) : list pymatch :=
  finditer_from r (S (String.length subject)) O (start_of subject).

(** A compiled pattern with named groups: [groupindex] is the table from
    group names to group numbers. *)
Record pattern : Type := Pattern {
  tree : re;
  groupindex : list (string * nat)
}.

(** [m.groupdict()] *)
Definition groupdict (p : pattern) (m : pymatch) : gmap string (option string) :=
  list_to_map (List.map (fun '(name, i) => (name, group m i)) (groupindex p)).

(** The declarative reading of the patterns: [Matches r s s'] when [r] can
    take the matcher from [s] to [s']. *)
Inductive Matches : re -> mstate -> mstate -> Prop :=
| M_Eps s : Matches Eps s s
| M_Lit w s :
    String.prefix w (rest s) = true ->
    Matches (Lit w) s (advance (String.length w) s)
| M_Cls p s c t :
    rest s = String c t -> p c = true -> Matches (Cls p) s (step s)
| M_Seq r1 r2 s s1 s2 :
    Matches r1 s s1 -> Matches r2 s1 s2 -> Matches (Seq r1 r2) s s2
| M_AltL r1 r2 s s1 : Matches r1 s s1 -> Matches (Alt r1 r2) s s1
| M_AltR r1 r2 s s1 : Matches r2 s s1 -> Matches (Alt r1 r2) s s1
| M_StarO r s : Matches (Star r) s s
| M_StarS r s s1 s2 :
    Matches r s s1 -> Matches (Star r) s1 s2 -> Matches (Star r) s s2
| M_Grp n r s s1 :
    Matches r s s1 -> Matches (Grp n r) s (set_cap n (between s s1) s1)
| M_NotBehind p s :
    match prev s with Some c => p c = false | None => True end ->
    Matches (NotBehind p) s s.

End Re.

(** ** Data model *)

(** The named tuple [Dimension]. *)
Module Dimension.
Record t : Type := make {
  value : string;          (* numeric value *)
  unit : option string;    (* unit *)
  which : option string    (* e.g. width, height, ... *)
}.
End Dimension.

(** A call of [warnings.warn], recorded as the message template it uses
    and the values formatted into it. *)
Inductive warning : Type :=
| Unknown_which (value : string)
    (* '*** Unknown which dimension: %s' *)
| Failed_to_canonicalize (text : string)
    (* '*** failed to canonicalize dimension value: %s' *)
| Not_a_recognized_unit (unit_value : string)
    (* '*** not a recognized unit: %s' *)
| Unrecognized_unit_label
    (* '*** unrecognized unit: {d.unit}', in normalized_dimension_object *)
| Unrecognized_unit (u : string)
    (* '*** unrecognized unit: %s', in normalize_dimension *)
| Mixed_unit_systems (dimensions : list Dimension.t)
    (* '*** dimension used a mix of unit systems (...): %r' *)
| Cleaner_group (name : string) (parsed : option (list Dimension.t))
    (text : option string) (marker : option string)
    (* 'd1: %s %s %s' and 'd2: %s %s %s'; also 'd1: %s %s h' and
       'd2: %s %s w', whose last letter is recorded as the marker *)
| Failed_to_parse (value : string)
    (* '*** Failed to parse dimensions: %s' *)
| No_currency_instance (price_currency : string).
    (* '*** No currency instance defined for %s' *)

Inductive exn : Type :=
| ValueError (text : string)       (* float() of a non-numeric string *)
| AttributeError                   (* a str method called on None *)
| KeyError (key : string).

Inductive outcome (A : Type) : Type :=
| Return (a : A)
| Raise (e : exn).
Arguments Return {A} a.
Arguments Raise {A} e.

(** A computation: the warnings it emits, in order, and how it ends. *)
Definition W (A : Type) : Type := list warning * outcome A.

Definition ret {A} (a : A) : W A := (nil, Return a).
Definition raise {A} (e : exn) : W A := (nil, Raise e).
Definition warn (w : warning) : W Datatypes.unit := (w :: nil, Return tt).

Definition bind {A B} (m : W A) (f : A -> W B) : W B :=
  match m with
  | (ws, Return a) => let '(ws', r) := f a in (ws ++ ws', r)
  | (ws, Raise e) => (ws, Raise e)
  end.

#[global] Instance W_ret : MRet W := @ret.
#[global] Instance W_bind : MBind W := fun A B f m => bind m f.

Definition warnings_of {A} (m : W A) : list warning := fst m.
Definition result_of {A} (m : W A) : outcome A := snd m.

(** ** Dimensions: the token grammar

    The source patterns are quoted in verbose form: the blanks are not
    part of them, and a literal blank is written [[ ]]. *)

Definition digit : Re.re := Re.Cls Py.isdigit.                  (* \d *)
Definition space : Re.re := Re.Cls Py.isspace.                  (* \s *)
Definition dot_or_comma (c : ascii) : bool :=                   (* [.,] *)
  Ascii.eqb c "." || Ascii.eqb c ",".
Definition one_of (cs : string) : Re.re :=                      (* [...] *)
  Re.Cls (fun c => Py.contains (String c EmptyString) cs).

Definition dquote : string := String (ascii_of_nat 34) EmptyString.

(** [(?:\d+\s+\d+/\d+)|(?:\d+(?:[.,]\d+)?)]: the two forms of a number *)
Definition number_forms : Re.re :=
  Re.Alt
    (Re.seq [Re.Plus digit; Re.Plus space; Re.Plus digit; Re.Lit "/"; Re.Plus digit])
    (Re.Seq (Re.Plus digit) (Re.Opt (Re.Seq (Re.Cls dot_or_comma) (Re.Plus digit)))).

(** [number_pattern]: the two forms in a group, numbered [g] *)
Definition number_pattern (g : nat) : Re.re := Re.Grp g number_forms.

(** ['|DQ|d[.]?|duymen|pouces?|inches|inch|in[.]?|pieds?|v[.]?|voeten|feet|foot|ft[.]?|cm]:
    the unit names, where DQ is the double-quote character *)
Definition unit_names : Re.re :=
  Re.alt
    [Re.Lit "'"; Re.Lit dquote;
     Re.Seq (Re.Lit "d") (Re.Opt (Re.Lit "."));
     Re.Lit "duymen";
     Re.Seq (Re.Lit "pouce") (Re.Opt (Re.Lit "s"));
     Re.Lit "inches"; Re.Lit "inch";
     Re.Seq (Re.Lit "in") (Re.Opt (Re.Lit "."));
     Re.Seq (Re.Lit "pied") (Re.Opt (Re.Lit "s"));
     Re.Seq (Re.Lit "v") (Re.Opt (Re.Lit "."));
     Re.Lit "voeten"; Re.Lit "feet"; Re.Lit "foot";
     Re.Seq (Re.Lit "ft") (Re.Opt (Re.Lit "."));
     Re.Lit "cm"].

(** [unit_pattern]: the unit names in a group, numbered [g] *)
Definition unit_pattern (g : nat) : Re.re := Re.Grp g unit_names.

(** ['( %s \s* (?: %s )? )' % (number_pattern, unit_pattern)]: three groups,
    numbered from [g]. *)
Definition dimension_pattern (g : nat) : Re.re :=
  Re.Grp g
    (Re.seq [number_pattern (g + 1); Re.Star space; Re.Opt (unit_pattern (g + 2))]).

(** [\s* %s] *)
Definition dimension_re : Re.re :=
  Re.Seq (Re.Star space) (dimension_pattern 1).

(** [(?: \s* ( (?<!\w)[wh] | width | height ) )?], its group numbered [g] *)
Definition simple_width_height_pattern (g : nat) : Re.re :=
  Re.Opt
    (Re.Seq (Re.Star space)
       (Re.Grp g
          (Re.alt [Re.Seq (Re.NotBehind Py.isword) (one_of "wh");
                   Re.Lit "width"; Re.Lit "height"]))).

(** [(?P<d1> (?: %s \s* )+ ) (?P<d1w> %s )] *)
Definition simple_dimensions_re_x1 : Re.pattern :=
  Re.Pattern
    (Re.seq
       [Re.Grp 1 (Re.Plus (Re.Seq (dimension_pattern 2) (Re.Star space)));
        Re.Grp 5 (simple_width_height_pattern 6)])
    [("d1", 1%nat); ("d1w", 5%nat)].

(** [(?P<d1> (?: %s \s* )+ ) (?P<d1w> %s ) (?:,)? \s* (x|by) (?P<d2> (?: \s* %s )+ ) (?P<d2w> %s )] *)
Definition simple_dimensions_re_x2 : Re.pattern :=
  Re.Pattern
    (Re.seq
       [Re.Grp 1 (Re.Plus (Re.Seq (dimension_pattern 2) (Re.Star space)));
        Re.Grp 5 (simple_width_height_pattern 6);
        Re.Opt (Re.Lit ",");
        Re.Star space;
        Re.Grp 7 (Re.Alt (Re.Lit "x") (Re.Lit "by"));
        Re.Grp 8 (Re.Plus (Re.Seq (Re.Star space) (dimension_pattern 9)));
        Re.Grp 12 (simple_width_height_pattern 13)])
    [("d1", 1%nat); ("d1w", 5%nat); ("d2", 8%nat); ("d2w", 12%nat)].

(** [[Hh]aut(?:eur)? [ ] (?P<d1> (?: %s \s* )+ ) , [ ] [Ll]arge(?:ur)? [ ] (?P<d2> (?: %s \s* )+ )] *)
Definition french_dimensions_re : Re.pattern :=
  Re.Pattern
    (Re.seq
       [one_of "Hh"; Re.Lit "aut"; Re.Opt (Re.Lit "eur"); Re.Lit " ";
        Re.Grp 1 (Re.Plus (Re.Seq (dimension_pattern 2) (Re.Star space)));
        Re.Lit ", ";
        one_of "Ll"; Re.Lit "arge"; Re.Opt (Re.Lit "ur"); Re.Lit " ";
        Re.Grp 5 (Re.Plus (Re.Seq (dimension_pattern 6) (Re.Star space)))])
    [("d1", 1%nat); ("d2", 5%nat)].

(** [[Hh]oogh?[.]?|[Bb]reedt?] *)
Definition dutch_marker : Re.re :=
  Re.Alt
    (Re.seq [one_of "Hh"; Re.Lit "oog"; Re.Opt (Re.Lit "h"); Re.Opt (Re.Lit ".")])
    (Re.seq [one_of "Bb"; Re.Lit "reed"; Re.Opt (Re.Lit "t")]).

(** [(?P<d1w> [Hh]oogh?[.]? | [Bb]reedt? ) [ ] (?P<d1> (?: %s \s* )+ ) , [ ] (?P<d2w> [Hh]oogh?[.]? | [Bb]reedt? ) [ ] (?P<d2> (?: %s \s* )+ )] *)
Definition dutch_dimensions_re : Re.pattern :=
  Re.Pattern
    (Re.seq
       [Re.Grp 1 dutch_marker; Re.Lit " ";
        Re.Grp 2 (Re.Plus (Re.Seq (dimension_pattern 3) (Re.Star space)));
        Re.Lit ", ";
        Re.Grp 6 dutch_marker; Re.Lit " ";
        Re.Grp 7 (Re.Plus (Re.Seq (dimension_pattern 8) (Re.Star space)))])
    [("d1w", 1%nat); ("d1", 2%nat); ("d2w", 6%nat); ("d2", 7%nat)].

(** ** Dimensions: the measurement parser *)

Definition _canonical_value (value : string) : option string :=
  let value := Py.replace "," "." value in
  let value := Py.replace " 1/4" ".25" value in
  let value := Py.replace " 1/2" ".5" value in
  let value := Py.replace " 3/4" ".75" value in
  if Py.contains "/" value then None
  else if Py.startswith value "." then Some (String.append "0" value)
  else Some value.

Definition _canonical_unit (value : option string) : option string :=
  match value with
  | None => None
  | Some value =>
      let value := Py.lower value in
      if Py.contains "in" value
         || bool_decide (value ∈ ["pouces"; "pouce"; "duymen"; "d."; "d"])
         || String.eqb value dquote
      then Some "inches"
      else if Py.contains "ft" value
              || bool_decide (value ∈ ["pieds"; "pied"; "feet"; "foot"; "voeten"; "v."; "v"])
              || String.eqb value "'"
      then Some "feet"
      else if Py.contains "cm" value then Some "cm"
      else None
  end.

(** Truth value of something that is [None] or a string. *)
Definition truthy (o : option string) : bool :=
  match o with
  | Some s => Py.nonempty s
  | None => false
  end.

Definition _canonical_which (value : option string) : W (option string) :=
  match value with
  | Some (String _ _ as value) =>
      let value := Py.lower (Py.strip value) in
      if Py.startswith value "w" then mret (Some "width")
      else if Py.startswith value "h" then mret (Some "height")
      else warn (Unknown_which value);; mret None
  | _ => mret None
  end.

(** The body of the [for m in re.finditer(dimension_re, value)] loop of
    [parse_simple_dimensions], run over the remaining matches, followed by
    the statements after the loop.  [which] and [dims] are the loop's
    variables. *)
Fixpoint parse_loop (ms : list Re.pymatch) (which : option string)
  (dims : list Dimension.t) : W (option (list Dimension.t)) :=
  match ms with
  | m :: ms' =>
      match Re.group m 2 with
      | None => raise AttributeError
      | Some text =>
          match _canonical_value text with
          | Some (String _ _ as v) =>
              let unit_value := Re.group m 3 in
              let u := _canonical_unit unit_value in
              (match unit_value, u with
               | Some (String _ _ as uv), None => warn (Not_a_recognized_unit uv)
               | _, _ => mret tt
               end);;
              which ← _canonical_which which;
              let d := Dimension.make v u which in
              parse_loop ms' which (dims ++ [d])
          | _ =>
              warn (Failed_to_canonicalize text);; mret None
          end
      end
  | [] =>
      match dims with
      | [] => mret None
      | _ => mret (Some dims)
      end
  end.

Definition parse_simple_dimensions (value : option string) (which : option string)
  : W (option (list Dimension.t)) :=
  match value with
  | None => mret None
  | Some value =>
      let value := Py.strip value in
      parse_loop (Re.finditer dimension_re value) which []
  end.

(** ** Dimensions: the normalizer *)

(** The numbers held by the accumulators: the integer they start from, or
    a float once something was added. *)
Module PyNum.
Inductive t : Type :=
| Int (z : Z)
| Float (x : PyFloat.float).

Definition to_float (n : t) : PyFloat.float :=
  match n with
  | Int z => PyFloat.of_Z z
  | Float x => x
  end.

(** [n += x] for a float [x] *)
Definition iadd (n : t) (x : PyFloat.float) : t :=
  Float (PyFloat.add (to_float n) x).

(** [if n:] *)
Definition nonzero (n : t) : bool :=
  match n with
  | Int z => negb (z =? 0)
  | Float x => PyFloat.nonzero x
  end.

(** [str(n)] *)
Definition str (n : t) : string :=
  match n with
  | Int z => if z <? 0 then String.append "-" (PyRepr.dec (- z)) else PyRepr.dec z
  | Float x => PyRepr.repr x
  end.
End PyNum.

(** [float(text)] *)
Definition float (text : string) : W PyFloat.float :=
  match PyFloat.of_string text with
  | Some x => mret x
  | None => raise (ValueError text)
  end.

(** The local variables of [normalize_dimension]. *)
Record locals : Type := Locals {
  unknown : PyNum.t;
  inches : PyNum.t;
  cm : PyNum.t;
  which : option string
}.

Definition initial : locals := Locals (PyNum.Int 0) (PyNum.Int 0) (PyNum.Int 0) None.

(** How the [for d in dimensions] loop is left: it runs to its end, or its
    last branch returns [None] from the function. *)
Inductive loop_exit : Type :=
| Completed
| Returned_None.

Fixpoint normalize_loop (dimensions : list Dimension.t) (l : locals)
  : W (loop_exit * locals) :=
  match dimensions with
  | [] => mret (Completed, l)
  | d :: rest =>
      let l := Locals (unknown l) (inches l) (cm l) (Dimension.which d) in
      if Py.is_str (Dimension.unit d) "inches" then
        x ← float (Dimension.value d);
        normalize_loop rest
          (Locals (unknown l) (PyNum.iadd (inches l) x) (cm l) (which l))
      else if Py.is_str (Dimension.unit d) "feet" then
        x ← float (Dimension.value d);
        normalize_loop rest
          (Locals (unknown l)
             (PyNum.iadd (inches l) (PyFloat.mul (PyFloat.of_Z 12) x))
             (cm l) (which l))
      else if Py.is_str (Dimension.unit d) "cm" then
        x ← float (Dimension.value d);
        normalize_loop rest
          (Locals (unknown l) (inches l) (PyNum.iadd (cm l) x) (which l))
      else
        match Dimension.unit d with
        | None =>
            x ← float (Dimension.value d);
            normalize_loop rest
              (Locals (PyNum.iadd (unknown l) x) (inches l) (cm l) (which l))
        | Some u =>
            warn (Unrecognized_unit u);; mret (Returned_None, l)
        end
  end.

(** The count made by [for v in (inches, cm, unknown): if v: used_systems += 1]. *)
Definition used_systems (l : locals) : nat :=
  length (List.filter PyNum.nonzero [inches l; cm l; unknown l]).

Definition normalize_dimension (dimensions : list Dimension.t)
  : W (option Dimension.t) :=
  '(exit, l) ← normalize_loop dimensions initial;
  match exit with
  | Returned_None => mret None
  | Completed =>
      if negb (Nat.eqb (used_systems l) 1) then
        warn (Mixed_unit_systems dimensions);; mret None
      else if PyNum.nonzero (inches l) then
        mret (Some (Dimension.make (PyNum.str (inches l)) (Some "inches") (which l)))
      else if PyNum.nonzero (cm l) then
        mret (Some (Dimension.make (PyNum.str (cm l)) (Some "cm") (which l)))
      else
        mret (Some (Dimension.make (PyNum.str (cm l)) None (which l)))
  end.

(** The [for d in dimensions] loop of [normalized_dimension_object];
    [None] is its early [return None]. *)
Fixpoint labels_loop (dimensions : list Dimension.t) (labels : list string)
  : W (option (list string)) :=
  match dimensions with
  | [] => mret (Some labels)
  | d :: rest =>
      if Py.is_str (Dimension.unit d) "inches" then
        labels_loop rest (labels ++ [String.append (Dimension.value d) " inches"])
      else if Py.is_str (Dimension.unit d) "feet" then
        labels_loop rest (labels ++ [String.append (Dimension.value d) " feet"])
      else if Py.is_str (Dimension.unit d) "cm" then
        labels_loop rest (labels ++ [String.append (Dimension.value d) " cm"])
      else
        match Dimension.unit d with
        | None => labels_loop rest (labels ++ [Dimension.value d])
        | Some _ => warn Unrecognized_unit_label;; mret None
        end
  end.

Definition normalized_dimension_object (dimensions : list Dimension.t)
  : W (option (Dimension.t * string)) :=
  nd ← normalize_dimension dimensions;
  match nd with
  | None => mret None
  | Some nd =>
      labels ← labels_loop dimensions [];
      match labels with
      | None => mret None
      | Some labels => mret (Some (nd, Py.join ", " labels))
      end
  end.

(** ** Dimensions: the pattern matchers *)

(** [d[key]] on the dictionary of a match. *)
Definition getitem (d : gmap string (option string)) (key : string)
  : W (option string) :=
  match d !! key with
  | Some v => mret v
  | None => raise (KeyError key)
  end.

(** Truth value of a parsed group: [None] and the empty list are false. *)
Definition parsed (d : option (list Dimension.t)) : bool :=
  match d with
  | Some (_ :: _) => true
  | _ => false
  end.

(** A returned tuple of groups is modelled as the list of its members. *)
Definition french_dimensions_cleaner_x2 (value : string)
  : W (option (list (list Dimension.t))) :=
  match Re.match_ (Re.tree french_dimensions_re) value with
  | Some m =>
      let d := Re.groupdict french_dimensions_re m in
      t1 ← getitem d "d1";
      d1 ← parse_simple_dimensions t1 (Some "h");
      t2 ← getitem d "d2";
      d2 ← parse_simple_dimensions t2 (Some "w");
      match d1, d2 with
      | Some ((_ :: _) as g1), Some ((_ :: _) as g2) => mret (Some [g1; g2])
      | _, _ =>
          warn (Cleaner_group "d1" d1 t1 (Some "h"));;
          warn (Cleaner_group "d2" d2 t2 (Some "w"));;
          warn (Failed_to_parse value);;
          mret None
      end
  | None => mret None
  end.

Definition dutch_dimensions_cleaner_x2 (value : string)
  : W (option (list (list Dimension.t))) :=
  match Re.match_ (Re.tree dutch_dimensions_re) value with
  | Some m =>
      let d := Re.groupdict dutch_dimensions_re m in
      let h := "h" in
      let w := "w" in
      d1w ← getitem d "d1w";
      '(h, w) ← match d1w with
                | None => raise AttributeError
                | Some d1w =>
                    if Py.contains "breed" (Py.lower d1w)
                    then mret (w, h) else mret (h, w)
                end;
      t1 ← getitem d "d1";
      d1 ← parse_simple_dimensions t1 (Some h);
      t2 ← getitem d "d2";
      d2 ← parse_simple_dimensions t2 (Some w);
      match d1, d2 with
      | Some ((_ :: _) as g1), Some ((_ :: _) as g2) => mret (Some [g1; g2])
      | _, _ =>
          warn (Cleaner_group "d1" d1 t1 (Some "h"));;
          warn (Cleaner_group "d2" d2 t2 (Some "w"));;
          warn (Failed_to_parse value);;
          mret None
      end
  | None => mret None
  end.

Definition simple_dimensions_cleaner_x1 (value : string)
  : W (option (list (list Dimension.t))) :=
  match Re.match_ (Re.tree simple_dimensions_re_x1) value with
  | Some m =>
      let d := Re.groupdict simple_dimensions_re_x1 m in
      t1 ← getitem d "d1";
      w1 ← getitem d "d1w";
      d1 ← parse_simple_dimensions t1 w1;
      match d1 with
      | Some ((_ :: _) as g1) => mret (Some [g1])
      | _ => mret None
      end
  | None => mret None
  end.

Definition simple_dimensions_cleaner_x2 (value : string)
  : W (option (list (list Dimension.t))) :=
  match Re.match_ (Re.tree simple_dimensions_re_x2) value with
  | Some m =>
      let d := Re.groupdict simple_dimensions_re_x2 m in
      t1 ← getitem d "d1";
      w1 ← getitem d "d1w";
      d1 ← parse_simple_dimensions t1 w1;
      t2 ← getitem d "d2";
      w2 ← getitem d "d2w";
      d2 ← parse_simple_dimensions t2 w2;
      match d1, d2 with
      | Some ((_ :: _) as g1), Some ((_ :: _) as g2) => mret (Some [g1; g2])
      | _, _ =>
          warn (Cleaner_group "d1" d1 t1 w1);;
          warn (Cleaner_group "d2" d2 t2 w2);;
          warn (Failed_to_parse value);;
          mret None
      end
  | None => mret None
  end.

Definition cleaners : list (string -> W (option (list (list Dimension.t)))) :=
  [simple_dimensions_cleaner_x2;
   french_dimensions_cleaner_x2;
   dutch_dimensions_cleaner_x2;
   simple_dimensions_cleaner_x1].

(** [for f in cleaners: d = f(value); if d: return d] and the final
    [return None]. *)
Fixpoint first_cleaner (fs : list (string -> W (option (list (list Dimension.t)))))
  (value : string) : W (option (list (list Dimension.t))) :=
  match fs with
  | f :: fs' =>
      d ← f value;
      match d with
      | Some ((_ :: _) as groups) => mret (Some groups)
      | _ => first_cleaner fs' value
      end
  | [] => mret None
  end.

Definition dimensions_cleaner (value : option string)
  : W (option (list (list Dimension.t))) :=
  match value with
  | None => mret None
  | Some value => first_cleaner cleaners value
  end.

(** ** Emission to the vocabulary model

    [cromulent.model] and [cromulent.vocab] lie outside this module.  The
    objects built from them are records of the attributes the code sets;
    the registry [vocab.instances] is a finite map from names to instances
    of a type that stays abstract.  An instance found in the registry
    counts as true where the code tests it. *)

Inductive dimension_class : Type :=
| Height                 (* vocab.Height() *)
| Width                  (* vocab.Width() *)
| PhysicalDimension.     (* vocab.PhysicalDimension() *)

Inductive amount_class : Type :=
| EstimatedPrice         (* vocab.EstimatedPrice() *)
| StartingPrice          (* vocab.StartingPrice() *)
| MonetaryAmount.        (* model.MonetaryAmount() *)

Inductive statement : Type :=
| BibliographyStatement (content : string)
| Note (content : string).

(** What a generator did: the warnings it emitted, the values it yielded,
    and whether it ran to its end or raised. *)
Record run (A : Type) : Type := Run {
  warned : list warning;
  yielded : list A;
  finished : outcome Datatypes.unit
}.
Arguments Run {A} _ _ _.
Arguments warned {A} _.
Arguments yielded {A} _.
Arguments finished {A} _.

(** The price while [extract_monetary_amount] works on it: absent, the text
    read from the record, or the float parsed from it. *)
Inductive price : Type :=
| No_price
| Price_text (s : string)
| Price_float (x : PyFloat.float).

Definition price_of (o : option string) : price :=
  match o with
  | Some s => Price_text s
  | None => No_price
  end.

Definition price_truthy (p : price) : bool :=
  match p with
  | No_price => false
  | Price_text s => Py.nonempty s
  | Price_float x => PyFloat.nonzero x
  end.

(** ['%s' % p] *)
Definition price_str (p : price) : string :=
  match p with
  | No_price => "None"
  | Price_text s => s
  | Price_float x => PyRepr.repr x
  end.

Definition o_umlaut : ascii := ascii_of_nat 246.

Definition MAPPING : gmap string string :=
  list_to_map
    [(String o_umlaut "sterreichische schilling", "at shillings");
     ("florins", "de florins");
     ("fl", "de florins");
     ("fl.", "de florins");
     ("pounds", "gb pounds");
     ("livres", "fr livres");
     ("guineas", "gb guineas");
     ("reichsmark", "de reichsmarks")].

(** [data.get(key, data.get(alternate))] *)
Definition get2 (data : gmap string string) (key alternate : string)
  : option string :=
  match data !! key with
  | Some v => Some v
  | None => data !! alternate
  end.

(** The variant and the fields read from the record: the
    [if 'est_price' in data: ... elif 'start_price' in data: ... else: ...]
    that opens [extract_monetary_amount].  The result is the class of the
    object created and [price_amount], [price_currency], [note], [cite]. *)
Definition fields (data : gmap string string)
  : amount_class * option string * option string * option string * option string :=
  if bool_decide (is_Some (data !! "est_price")) then
    (EstimatedPrice,
     get2 data "est_price_amount" "est_price",
     get2 data "est_price_currency" "est_price_curr",
     get2 data "est_price_note" "est_price_desc",
     data !! "est_price_citation")
  else if bool_decide (is_Some (data !! "start_price")) then
    (StartingPrice,
     get2 data "start_price_amount" "start_price",
     get2 data "start_price_currency" "start_price_curr",
     get2 data "start_price_note" "start_price_desc",
     data !! "start_price_citation")
  else
    (MonetaryAmount,
     get2 data "price_amount" "price",
     get2 data "price_currency" "price_curr",
     get2 data "price_note" "price_desc",
     data !! "price_citation").

(** The text handed to [float]:
    [v = price_amount; v = v.replace('[?]', ''); v = v.replace('?', ''); v = v.strip()] *)
Definition cleaned (price_amount : string) : string :=
  let v := price_amount in
  let v := Py.replace "[?]" "" v in
  let v := Py.replace "?" "" v in
  let v := Py.strip v in
  v.

Section Vocab.

Variable instance : Type.
Variable instances : gmap string instance.

Record dimension_record : Type := DimensionRecord {
  dim_class : dimension_class;
  dim_identified_by : string;        (* model.Name(content=label) *)
  dim_value : string;
  dim_unit : option instance
}.

(** The body of [for orig_d in dimensions] in
    [extract_physical_dimensions]. *)
Fixpoint emit (dimensions : list (list Dimension.t)) : run dimension_record :=
  match dimensions with
  | [] => Run [] [] (Return tt)
  | orig_d :: rest =>
      match normalized_dimension_object orig_d with
      | (ws, Raise e) => Run ws [] (Raise e)
      | (ws, Return None) =>
          let r := emit rest in
          Run (ws ++ warned r) (yielded r) (finished r)
      | (ws, Return (Some (d, label))) =>
          let cls :=
            if Py.is_str (Dimension.which d) "height" then Height
            else if Py.is_str (Dimension.which d) "width" then Width
            else PhysicalDimension in
          let unit := match Dimension.unit d with
                      | Some u => instances !! u
                      | None => None
                      end in
          let dim := DimensionRecord cls label (Dimension.value d) unit in
          let r := emit rest in
          Run (ws ++ warned r) (dim :: yielded r) (finished r)
      end
  end.

Definition extract_physical_dimensions (dimstr : option string)
  : run dimension_record :=
  match dimensions_cleaner dimstr with
  | (ws, Raise e) => Run ws [] (Raise e)
  | (ws, Return (Some ((_ :: _) as dimensions))) =>
      let r := emit dimensions in
      Run (ws ++ warned r) (yielded r) (finished r)
  | (ws, Return _) => Run ws [] (Return tt)
  end.

(** ** Monetary values *)

Record amount : Type := Amount {
  amount_class_of : amount_class;
  referred_to_by : list statement;
  value : option PyFloat.float;
  _label : option string;
  identified_by : list string;       (* model.Name(content=...) *)
  currency : option instance
}.

Definition extract_monetary_amount (data : gmap string string)
  : W (option amount) :=
  let '(cls, price_amount, price_currency, note, cite) := fields data in
  if truthy price_amount || truthy price_currency then
    (* the two assignments to referred_to_by add to it, in this order *)
    let refs :=
      (match cite with
       | Some (String _ _ as cite) => [BibliographyStatement cite]
       | _ => []
       end)
      ++ (match note with
          | Some (String _ _ as note) => [Note note]
          | _ => []
          end) in
    (* if price_amount: try ... except ValueError ... *)
    let '(price_amount, value, label, names) :=
      match price_amount with
      | Some (String _ _ as text) =>
          match PyFloat.of_string (cleaned text) with
          | Some x => (Price_float x, Some x, None, [])
          | None => (Price_text text, None, Some text, [text])
          end
      | _ => (price_of price_amount, None, None, [])
      end in
    (* if price_currency: ... *)
    '(price_currency, currency) ←
      match price_currency with
      | Some (String _ _ as c) =>
          let c :=
            if bool_decide (is_Some (MAPPING !! c)) then
              match MAPPING !! Py.lower c with
              | Some c' => c'
              | None => c          (* except KeyError: pass *)
              end
            else c in
          match instances !! c with
          | Some i => mret (Some c, Some i)
          | None => warn (No_currency_instance c);; mret (Some c, None)
          end
      | _ => mret (price_currency, None)
      end;
    let label :=
      if price_truthy price_amount && truthy price_currency then
        Some (String.append (price_str price_amount)
                (String.append " " (default "" price_currency)))
      else if price_truthy price_amount then Some (price_str price_amount)
      else label in
    mret (Some (Amount cls refs value label names currency))
  else mret None.

End Vocab.

Arguments dim_class {instance} _.
Arguments dim_identified_by {instance} _.
Arguments dim_value {instance} _.
Arguments dim_unit {instance} _.
Arguments DimensionRecord {instance} _ _ _ _.
Arguments amount_class_of {instance} _.
Arguments referred_to_by {instance} _.
Arguments value {instance} _.
Arguments _label {instance} _.
Arguments identified_by {instance} _.
Arguments currency {instance} _.
Arguments Amount {instance} _ _ _ _ _ _.
Arguments emit {instance} instances dimensions.
Arguments extract_physical_dimensions {instance} instances dimstr.
Arguments extract_monetary_amount {instance} instances data.

(** ** Vocabulary of the statements *)

(** One measurement of a label in the words of the specification:
    the value and the unit name separated by a blank, or the bare value
    when there is no unit. *)
Definition measurement_text (d : Dimension.t) : string :=
  match Dimension.unit d with
  | Some u => String.append (Dimension.value d) (String.append " " u)
  | None => Dimension.value d
  end.

(** The numeric text after the comma and quarter-fraction replacements of
    [_canonical_value]. *)
Definition substituted (text : string) : string :=
  Py.replace " 3/4" ".75"
    (Py.replace " 1/2" ".5" (Py.replace " 1/4" ".25" (Py.replace "," "." text))).

Definition canonical_units : list (option string) :=
  [Some "inches"; Some "feet"; Some "cm"; None].

Definition canonical_axes : list (option string) :=
  [Some "width"; Some "height"; None].

(** The finitely many texts of a pattern built from literals, sequences
    and alternations only. *)
Fixpoint words (r : Re.re) : option (list string) :=
  match r with
  | Re.Eps => Some [EmptyString]
  | Re.Lit w => Some [w]
  | Re.Seq r1 r2 =>
      match words r1, words r2 with
      | Some l1, Some l2 =>
          Some (List.flat_map (fun x => List.map (String.append x) l2) l1)
      | _, _ => None
      end
  | Re.Alt r1 r2 =>
      match words r1, words r2 with
      | Some l1, Some l2 => Some (l1 ++ l2)
      | _, _ => None
      end
  | _ => None
  end.

(** Patterns that capture nothing. *)
Fixpoint groupless (r : Re.re) : bool :=
  match r with
  | Re.Grp _ _ => false
  | Re.Seq r1 r2 | Re.Alt r1 r2 => groupless r1 && groupless r2
  | Re.Star r1 => groupless r1
  | _ => true
  end.

(** [w] is the text between the position [s] and the later position
    [s']. *)
Definition consumed (s s' : Re.mstate) (w : string) : Prop :=
  Re.rest s = String.append w (Re.rest s')
  /\ Re.pos s' = (Re.pos s + String.length w)%nat.

(** The texts admitted by [unit_names]. *)
Definition unit_aliases : list string :=
  ["'"; dquote; "d."; "d"; "duymen"; "pouces"; "pouce"; "inches"; "inch";
   "in."; "in"; "pieds"; "pied"; "v."; "v"; "voeten"; "feet"; "foot";
   "ft."; "ft"; "cm"].

(** What a match of [dimension_re] holds: group 2 is a text that starts
    with a digit, and group 3 is absent or one of the unit names. *)
Definition token (m : Re.pymatch) : Prop :=
  (exists c t, Re.group m 2 = Some (String c t) /\ Py.isdigit c = true)
  /\ (Re.group m 3 = None
      \/ exists w, Re.group m 3 = Some w /\ In w unit_aliases).

(** The numbers of the groups of a pattern. *)
Fixpoint captures (r : Re.re) : list nat :=
  match r with
  | Re.Grp n r1 => n :: captures r1
  | Re.Seq r1 r2 | Re.Alt r1 r2 => captures r1 ++ captures r2
  | Re.Star r1 => captures r1
  | _ => []
  end.

(** All characters, in the order of their codes. *)
Definition all_ascii : list ascii := List.map ascii_of_nat (List.seq 0 256).

(** [starts_in p r]: whatever [r] matches starts with a character of the
    class [p]. *)
Fixpoint starts_in (p : ascii -> bool) (r : Re.re) : bool :=
  match r with
  | Re.Lit (String a _) => p a
  | Re.Cls q => List.forallb (fun c => implb (q c) (p c)) all_ascii
  | Re.Seq r1 _ => starts_in p r1
  | Re.Alt r1 r2 => starts_in p r1 && starts_in p r2
  | Re.Grp _ r1 => starts_in p r1
  | _ => false
  end.

(** A group as the matchers return it: not empty, with units among
    inches, feet, cm and None, and with one axis among width, height and
    None for all of its measurements. *)
Definition group_ok (g : list Dimension.t) : Prop :=
  g <> []
  /\ Forall (fun d => In (Dimension.unit d) canonical_units) g
  /\ exists axis, In axis canonical_axes
                  /\ Forall (fun d => Dimension.which d = axis) g.

(** What a matcher may return: None, or one or two groups as above. *)
Definition groups_ok (r : option (list (list Dimension.t))) : Prop :=
  match r with
  | None => True
  | Some groups =>
      (length groups = 1%nat \/ length groups = 2%nat) /\ Forall group_ok groups
  end.

(** ** The accumulators as sums over the group

    The declarative reading of the loop of [normalize_dimension], to be
    compared with [normalize_loop]: a measurement is readable when its
    unit is one of inches, feet, cm and None and [float] accepts its
    value; the inches accumulator is the sum, from the integer 0 and in
    input order, of the values in inches and of twelve times the values in
    feet, the cm accumulator the sum of the values in cm, the unit-less
    accumulator the sum of the values without a unit; the axis is the one
    of the last measurement. *)
Definition readable (d : Dimension.t) : Prop :=
  In (Dimension.unit d) canonical_units
  /\ is_Some (PyFloat.of_string (Dimension.value d)).

Definition in_inches (d : Dimension.t) : option PyFloat.float :=
  if Py.is_str (Dimension.unit d) "inches" then
    PyFloat.of_string (Dimension.value d)
  else if Py.is_str (Dimension.unit d) "feet" then
    option_map (PyFloat.mul (PyFloat.of_Z 12)) (PyFloat.of_string (Dimension.value d))
  else None.

Definition in_cm (d : Dimension.t) : option PyFloat.float :=
  if Py.is_str (Dimension.unit d) "cm" then PyFloat.of_string (Dimension.value d)
  else None.

Definition unit_less (d : Dimension.t) : option PyFloat.float :=
  match Dimension.unit d with
  | None => PyFloat.of_string (Dimension.value d)
  | Some _ => None
  end.

Fixpoint sum_by (part : Dimension.t -> option PyFloat.float)
  (dims : list Dimension.t) (acc : PyNum.t) : PyNum.t :=
  match dims with
  | [] => acc
  | d :: rest =>
      sum_by part rest
        (match part d with
         | Some x => PyNum.iadd acc x
         | None => acc
         end)
  end.

Definition accumulated (dims : list Dimension.t) (l : locals) : locals :=
  Locals (sum_by unit_less dims (unknown l))
         (sum_by in_inches dims (inches l))
         (sum_by in_cm dims (cm l))
         (List.last (List.map Dimension.which dims) (which l)).

(** The warnings of the matchers and of the normalizer that an extraction
    can emit. *)
Definition cleaner_warning (w : warning) : Prop :=
  match w with
  | Failed_to_canonicalize _ | Cleaner_group _ _ _ _ | Failed_to_parse _ => True
  | _ => False
  end.

Definition extraction_warning (w : warning) : Prop :=
  match w with
  | Failed_to_canonicalize _ | Cleaner_group _ _ _ _ | Failed_to_parse _
  | Mixed_unit_systems _ => True
  | _ => False
  end.

(** The keys that [fields] reads for each variant. *)
Definition variant_keys (prefix : string) : list string :=
  List.map (String.append prefix)
    [""; "_amount"; "_currency"; "_curr"; "_note"; "_desc"; "_citation"].

(** * Properties *)

(** ** Examples of the primitives *)

Example float_examples :
  PyFloat.of_string "0.1" = Some (S754_finite false 7205759403792794 (-56))
  /\ PyFloat.of_string " 2.5e3 " = Some (PyFloat.of_Z 2500)
  /\ PyFloat.of_string "1_000" = Some (PyFloat.of_Z 1000)
  /\ PyFloat.of_string "-0" = Some (S754_zero true)
  /\ PyFloat.of_string "Infinity" = Some (S754_infinity false)
  /\ PyFloat.of_string "1e400" = Some (S754_infinity false)
  /\ PyFloat.of_string "1 .5" = None
  /\ PyFloat.of_string "abc" = None
  /\ PyFloat.of_string "" = None.
Proof. repeat split; vm_compute; reflexivity. Qed.

Example repr_examples :
  PyRepr.repr (PyFloat.of_Z 123) = "123.0"
  /\ PyRepr.repr (S754_finite false 7205759403792794 (-56)) = "0.1"
  /\ PyRepr.repr (PyFloat.add (S754_finite false 7205759403792794 (-56))
                    (S754_finite false 7205759403792794 (-55)))
     = "0.30000000000000004"
  /\ PyRepr.repr (PyFloat.of_Z (10 ^ 15)) = "1000000000000000.0"
  /\ PyRepr.repr (PyFloat.of_Z (10 ^ 16)) = "1e+16"
  /\ PyRepr.repr (PyFloat.of_decimal true 1 (-5)) = "-1e-05"
  /\ PyRepr.repr (PyFloat.of_decimal false 25 (-5)) = "0.00025"
  /\ PyNum.str (PyNum.Int 0) = "0"
  /\ PyNum.str (PyNum.iadd (PyNum.Int 0) (S754_zero false)) = "0.0".
Proof. repeat split; vm_compute; reflexivity. Qed.

Example string_examples :
  Py.replace "?" "" "a?b??" = "ab"
  /\ Py.replace " 1/2" ".5" "1 1/25" = "1.55"
  /\ Py.strip "  1 cm  " = "1 cm"
  /\ Py.lower "Breedt" = "breedt"
  /\ Py.contains "in" "pieds" = false
  /\ Py.join ", " ["a"; "b"; "c"] = "a, b, c".
Proof. repeat split; vm_compute; reflexivity. Qed.

Example finditer_example :
  List.map (fun m => (Re.m_start m, Re.m_end m, Re.group m 2, Re.group m 3))
    (Re.finditer dimension_re "1 ft. 2 1/2in x 3")
  = [(0, 5, Some "1", Some "ft.")%nat;
     (5, 13, Some "2 1/2", Some "in")%nat;
     (15, 17, Some "3", None)%nat].
Proof. vm_compute. reflexivity. Qed.

Example cleaner_examples :
  dimensions_cleaner (Some "1 ft. 2 in. h by 3 cm w")
  = ([], Return (Some [[Dimension.make "1" (Some "feet") (Some "height");
                        Dimension.make "2" (Some "inches") (Some "height")];
                       [Dimension.make "3" (Some "cm") (Some "width")]]))
  /\ dimensions_cleaner (Some "Haut 14 pouces, large 10 pouces")
     = ([], Return (Some [[Dimension.make "14" (Some "inches") (Some "height")];
                          [Dimension.make "10" (Some "inches") (Some "width")]]))
  /\ dimensions_cleaner (Some "2,5 cm")
     = ([], Return (Some [[Dimension.make "2.5" (Some "cm") None]]))
  /\ dimensions_cleaner (Some "no dimensions") = ([], Return None).
Proof. repeat split; vm_compute; reflexivity. Qed.

(** A mixed fraction written with two blanks keeps a blank in its
    canonical value, which [float] rejects: the extraction raises. *)
Example two_blanks_example :
  parse_simple_dimensions (Some "1  1/2 in") None
  = ([], Return (Some [Dimension.make "1 .5" (Some "inches") None]))
  /\ extract_physical_dimensions (∅ : gmap string nat) (Some "1  1/2 in")
     = Run [] [] (Raise (ValueError "1 .5")).
Proof. split; vm_compute; reflexivity. Qed.

(** ** The monad *)

Lemma bind_Return {A B} (m : W A) (f : A -> W B) ws b :
  bind m f = (ws, Return b) ->
  exists ws1 a ws2, m = (ws1, Return a) /\ f a = (ws2, Return b) /\ ws = ws1 ++ ws2.
Proof.
  destruct m as [ws1 [a|e]]; simpl; [|discriminate].
  destruct (f a) as [ws2 r] eqn:Hf. intros [= <- ->].
  exists ws1, a, ws2. auto.
Qed.

Lemma bind_eq {A B} (m : W A) (f : A -> W B) ws1 a :
  m = (ws1, Return a) -> bind m f = (ws1 ++ fst (f a), snd (f a)).
Proof. intros ->. simpl. destruct (f a); reflexivity. Qed.

Lemma bind_warnings {A B} (m : W A) (f : A -> W B) w :
  In w (warnings_of (bind m f)) ->
  In w (warnings_of m) \/ exists a, result_of m = Return a /\ In w (warnings_of (f a)).
Proof.
  destruct m as [ws1 [a|e]]; simpl; [|auto].
  destruct (f a) as [ws2 r] eqn:Hf. simpl. rewrite in_app_iff.
  intros [H|H]; [auto|]. right. exists a. rewrite Hf. auto.
Qed.

Ltac unmonad :=
  unfold mbind, W_bind, mret, W_ret, ret, raise, warn in *.

(** ** The normalizer *)

Lemma is_str_true o s : Py.is_str o s = true -> o = Some s.
Proof.
  destruct o as [t|]; simpl; [|discriminate].
  intros H. apply String.eqb_eq in H. congruence.
Qed.

Lemma float_Return text ws x :
  float text = (ws, Return x) -> ws = [] /\ PyFloat.of_string text = Some x.
Proof.
  unfold float. destruct (PyFloat.of_string text); unmonad; [|discriminate].
  intros [= <- ->]. auto.
Qed.

(** The labels collected by the loop are the measurement texts, in input
    order. *)
Lemma labels_loop_Some dims : forall acc ws labels,
  labels_loop dims acc = (ws, Return (Some labels)) ->
  labels = acc ++ List.map measurement_text dims.
Proof.
  induction dims as [|d dims IH]; intros acc ws labels; simpl.
  - unmonad. intros [= _ <-]. now rewrite app_nil_r.
  - unfold measurement_text at 1.
    destruct (Py.is_str (Dimension.unit d) "inches") eqn:Hi.
    { apply is_str_true in Hi. rewrite Hi. intros H. apply IH in H.
      now rewrite <- app_assoc in H. }
    destruct (Py.is_str (Dimension.unit d) "feet") eqn:Hf.
    { apply is_str_true in Hf. rewrite Hf. intros H. apply IH in H.
      now rewrite <- app_assoc in H. }
    destruct (Py.is_str (Dimension.unit d) "cm") eqn:Hc.
    { apply is_str_true in Hc. rewrite Hc. intros H. apply IH in H.
      now rewrite <- app_assoc in H. }
    destruct (Dimension.unit d) as [u|].
    + unmonad. simpl. discriminate.
    + intros H. apply IH in H. now rewrite <- app_assoc in H.
Qed.

Lemma normalized_dimension_object_label dims ws nd label :
  normalized_dimension_object dims = (ws, Return (Some (nd, label))) ->
  label = Py.join ", " (List.map measurement_text dims).
Proof.
  unfold normalized_dimension_object. unmonad. intros H.
  apply bind_Return in H as (ws1 & [nd'|] & ws2 & _ & H & _); [|discriminate].
  apply bind_Return in H as (ws3 & [labels|] & ws4 & Hl & H & _); [|discriminate].
  injection H as _ _ <-. apply labels_loop_Some in Hl. now subst.
Qed.

(** One step of the loop on a measurement in feet. *)
Lemma normalize_loop_feet v w x rest l :
  PyFloat.of_string v = Some x ->
  normalize_loop (Dimension.make v (Some "feet") w :: rest) l =
  normalize_loop rest
    (Locals (unknown l) (PyNum.iadd (inches l) (PyFloat.mul (PyFloat.of_Z 12) x))
       (cm l) w).
Proof.
  intros Hx. cbn [normalize_loop Dimension.unit Dimension.value Dimension.which].
  change (Py.is_str (Some "feet") "inches") with false.
  change (Py.is_str (Some "feet") "feet") with true.
  cbv iota. unfold float. rewrite Hx. unmonad. simpl.
  destruct (normalize_loop rest _) as [ws r]. reflexivity.
Qed.

(** [C1]  The group [10 feet, 3 inches] normalizes to the value "123.0" in
    inches with the label "10 feet, 3 inches": a measurement in feet adds
    twelve times its value to the inches accumulator, and the label of any
    normalized group is the comma-joined list of its measurements, each
    written as value and unit name, in input order. *)
Theorem C1_normalized_dimension_object_feet_inches :
  normalized_dimension_object
    [Dimension.make "10" (Some "feet") None;
     Dimension.make "3" (Some "inches") None]
  = ([], Return (Some (Dimension.make "123.0" (Some "inches") None,
                       "10 feet, 3 inches")))
  /\ (forall v w x rest l,
        PyFloat.of_string v = Some x ->
        normalize_loop (Dimension.make v (Some "feet") w :: rest) l =
        normalize_loop rest
          (Locals (unknown l)
             (PyNum.iadd (inches l) (PyFloat.mul (PyFloat.of_Z 12) x))
             (cm l) w))
  /\ (forall dims ws nd label,
        normalized_dimension_object dims = (ws, Return (Some (nd, label))) ->
        label = Py.join ", " (List.map measurement_text dims)).
Proof.
  split; [vm_compute; reflexivity|].
  split.
  - intros. now apply normalize_loop_feet.
  - intros. eapply normalized_dimension_object_label; eauto.
Qed.

Lemma C1_witness :
  normalize_loop
    (Dimension.make "10" (Some "feet") None
       :: [Dimension.make "3" (Some "inches") None]) initial =
  normalize_loop [Dimension.make "3" (Some "inches") None]
    (Locals (PyNum.Int 0)
       (PyNum.iadd (PyNum.Int 0)
          (PyFloat.mul (PyFloat.of_Z 12) (PyFloat.of_Z 10)))
       (PyNum.Int 0) None)
  /\ "10 feet, 3 inches" =
     Py.join ", "
       (List.map measurement_text
          [Dimension.make "10" (Some "feet") None;
           Dimension.make "3" (Some "inches") None]).
Proof.
  destruct C1_normalized_dimension_object_feet_inches as (H0 & H1 & H2).
  split.
  - apply (H1 "10" None (PyFloat.of_Z 10) _ initial). vm_compute. reflexivity.
  - apply (H2 _ _ _ _ H0).
Defined.

(** On a group without units the loop runs to its end and leaves the
    inches and cm accumulators as they were. *)
Lemma normalize_loop_unitless dims : forall l ws ex l',
  Forall (fun d => Dimension.unit d = None) dims ->
  normalize_loop dims l = (ws, Return (ex, l')) ->
  ex = Completed /\ inches l' = inches l /\ cm l' = cm l.
Proof.
  induction dims as [|d dims IH]; intros l ws ex l' Hall; simpl.
  - unmonad. intros [= _ <- <-]. auto.
  - inversion Hall as [|? ? Hd Hrest]; subst. rewrite Hd. simpl.
    unmonad. intros H.
    apply bind_Return in H as (ws1 & x & ws2 & _ & H & _).
    apply IH in H; auto.
Qed.

Lemma normalize_dimension_of_loop dims ws ex l :
  normalize_loop dims initial = (ws, Return (ex, l)) ->
  normalize_dimension dims =
  match ex with
  | Returned_None => (ws, Return None)
  | Completed =>
      if negb (Nat.eqb (used_systems l) 1) then
        (ws ++ [Mixed_unit_systems dims], Return None)
      else if PyNum.nonzero (inches l) then
        (ws, Return (Some (Dimension.make (PyNum.str (inches l)) (Some "inches") (which l))))
      else if PyNum.nonzero (cm l) then
        (ws, Return (Some (Dimension.make (PyNum.str (cm l)) (Some "cm") (which l))))
      else
        (ws, Return (Some (Dimension.make (PyNum.str (cm l)) None (which l))))
  end.
Proof.
  intros H. unfold normalize_dimension. unmonad.
  rewrite (bind_eq _ _ _ _ H).
  destruct ex; simpl; [|now rewrite app_nil_r].
  destruct (negb _); simpl; [reflexivity|].
  destruct (PyNum.nonzero (inches l)); simpl; [now rewrite app_nil_r|].
  destruct (PyNum.nonzero (cm l)); simpl; now rewrite app_nil_r.
Qed.

Lemma normalize_dimension_Some dims ws nd :
  normalize_dimension dims = (ws, Return (Some nd)) ->
  exists l, normalize_loop dims initial = (ws, Return (Completed, l))
            /\ used_systems l = 1%nat
            /\ Dimension.which nd = which l
            /\ nd = (if PyNum.nonzero (inches l)
                     then Dimension.make (PyNum.str (inches l)) (Some "inches") (which l)
                     else if PyNum.nonzero (cm l)
                     then Dimension.make (PyNum.str (cm l)) (Some "cm") (which l)
                     else Dimension.make (PyNum.str (cm l)) None (which l)).
Proof.
  destruct (normalize_loop dims initial) as [ws0 [[ex l]|e]] eqn:Hloop.
  - rewrite (normalize_dimension_of_loop _ _ _ _ Hloop).
    destruct ex; [|discriminate].
    destruct (Nat.eqb (used_systems l) 1) eqn:Hu; simpl; [|discriminate].
    apply Nat.eqb_eq in Hu. intros H. exists l.
    destruct (PyNum.nonzero (inches l)); [|destruct (PyNum.nonzero (cm l))];
      injection H as <- <-; auto.
  - unfold normalize_dimension. unmonad. rewrite Hloop. simpl. discriminate.
Qed.

(** [C2]  What the code does on a group whose measurements all lack a
    unit: whenever it returns a dimension, the value is the text of the cm
    accumulator, which such a group never touches (the string "0"), and the
    unit is None.  The sum of the group, held by the unit-less accumulator,
    is not what is returned. *)
Theorem C2_unitless_group_returns_cm_accumulator :
  forall dims ws nd,
    Forall (fun d => Dimension.unit d = None) dims ->
    normalize_dimension dims = (ws, Return (Some nd)) ->
    Dimension.value nd = "0" /\ Dimension.unit nd = None.
Proof.
  intros dims ws nd Hall H.
  apply normalize_dimension_Some in H as (l & Hloop & _ & _ & ->).
  apply normalize_loop_unitless in Hloop as (_ & Hi & Hc); auto.
  rewrite Hi, Hc. simpl. auto.
Qed.

Lemma C2_witness :
  normalize_dimension [Dimension.make "5" None None]
  = ([], Return (Some (Dimension.make "0" None None)))
  /\ Dimension.value (Dimension.make "0" None None) = "0"
  /\ Dimension.unit (Dimension.make "0" None None) = None.
Proof.
  assert (H : normalize_dimension [Dimension.make "5" None None]
              = ([], Return (Some (Dimension.make "0" None None))))
    by (vm_compute; reflexivity).
  split; [exact H|].
  apply (C2_unitless_group_returns_cm_accumulator
           [Dimension.make "5" None None] [] _).
  - repeat constructor.
  - exact H.
Defined.


Lemma last_cons {A} (x : A) xs b : List.last (x :: xs) b = List.last xs x.
Proof.
  revert x b. induction xs as [|y xs IH]; intros x b; [reflexivity|].
  change (List.last (x :: y :: xs) b) with (List.last (y :: xs) b).
  now rewrite !IH.
Qed.

(** On a readable group the loop runs to its end, silently, and leaves the
    sums of the group in the accumulators. *)
Lemma normalize_loop_readable dims : forall l,
  Forall readable dims ->
  normalize_loop dims l = ([], Return (Completed, accumulated dims l)).
Proof.
  induction dims as [|d dims IH]; intros l Hall.
  - destruct l. reflexivity.
  - inversion Hall as [|? ? [Hu [x Hx]] Hrest]; subst.
    cbn [normalize_loop]. unfold float. rewrite Hx. unmonad. cbn [bind].
    unfold canonical_units in Hu. simpl in Hu.
    destruct Hu as [E|[E|[E|[E|[]]]]]; rewrite <- E;
      cbn [Py.is_str String.eqb Ascii.eqb Bool.eqb];
      rewrite (IH _ Hrest); unfold accumulated;
      cbn [sum_by List.map unknown inches cm which];
      unfold in_inches, in_cm, unit_less; rewrite <- E, Hx;
      cbn [Py.is_str String.eqb Ascii.eqb Bool.eqb option_map];
      rewrite last_cons; reflexivity.
Qed.





Lemma normalize_dimension_readable dims :
  Forall readable dims ->
  normalize_dimension dims =
  let l := accumulated dims initial in
  if negb (Nat.eqb (used_systems l) 1) then
    ([Mixed_unit_systems dims], Return None)
  else if PyNum.nonzero (inches l) then
    ([], Return (Some (Dimension.make (PyNum.str (inches l)) (Some "inches") (which l))))
  else if PyNum.nonzero (cm l) then
    ([], Return (Some (Dimension.make (PyNum.str (cm l)) (Some "cm") (which l))))
  else
    ([], Return (Some (Dimension.make (PyNum.str (cm l)) None (which l)))).
Proof.
  intros Hall.
  rewrite (normalize_dimension_of_loop _ _ _ _ (normalize_loop_readable dims initial Hall)).
  reflexivity.
Qed.







(** ** The matcher against the declarative reading of the patterns *)

(** Whatever the matcher returns was handed to the continuation at a
    position the pattern can reach. *)
Lemma rmatch_sound r : forall k s x,
  Re.rmatch r k s = Some x ->
  exists s', Re.Matches r s s' /\ k s' = Some x.
Proof.
  induction r as [|w|p|r1 IH1 r2 IH2|r1 IH1 r2 IH2|r1 IH1|n r1 IH1|p];
    intros k s x H; simpl in H.
  - exists s. split; [constructor|assumption].
  - destruct (String.prefix w (Re.rest s)) eqn:Hp; [|discriminate].
    eexists. split; [constructor; exact Hp|assumption].
  - destruct (Re.rest s) as [|c t] eqn:Hr; [discriminate|].
    destruct (p c) eqn:Hc; [|discriminate].
    eexists. split; [econstructor; eauto|assumption].
  - apply IH1 in H as (s1 & H1 & H). apply IH2 in H as (s2 & H2 & H).
    exists s2. split; [econstructor; eauto|assumption].
  - destruct (Re.rmatch r1 k s) as [y|] eqn:E.
    + injection H as ->. apply IH1 in E as (s1 & H1 & E).
      exists s1. split; [now apply Re.M_AltL|assumption].
    + apply IH2 in H as (s1 & H1 & H).
      exists s1. split; [now apply Re.M_AltR|assumption].
  - revert H. generalize (String.length (Re.rest s)) as fuel. intros fuel.
    revert s. induction fuel as [|fuel IHf]; intros s H.
    + exists s. split; [constructor|assumption].
    + match type of H with
      | match ?m with _ => _ end = _ => destruct m as [y|] eqn:E
      end.
      * injection H as ->. apply IH1 in E as (s1 & H1 & E).
        destruct (Nat.ltb (Re.pos s) (Re.pos s1)); [|discriminate].
        apply IHf in E as (s2 & H2 & E).
        exists s2. split; [econstructor; eauto|assumption].
      * exists s. split; [constructor|assumption].
  - apply IH1 in H as (s1 & H1 & H).
    eexists. split; [constructor; exact H1|assumption].
  - exists s. split.
    + constructor. destruct (Re.prev s) as [c|]; [|exact I].
      destruct (p c); [discriminate|reflexivity].
    + destruct (Re.prev s) as [c|]; [|assumption].
      destruct (p c); [discriminate|assumption].
Qed.

(** The groups of a match object are the captures of a position reached
    from a start without captures. *)
Lemma match_at_sound r s m :
  Re.match_at r s = Some m ->
  exists s0 s',
    Re.caps s0 = (fun _ => None) /\ Re.Matches r s0 s'
    /\ forall i, Re.group m (S i) = Re.caps s' (S i).
Proof.
  unfold Re.match_at. intros H.
  match type of H with
  | match ?e with _ => _ end = _ => destruct e as [s'|] eqn:E
  end; [|discriminate].
  injection H as <-. apply rmatch_sound in E as (s1 & H1 & [= ->]).
  eexists. exists s'. split; [|split; [exact H1|]]; reflexivity.
Qed.

Lemma finditer_from_In r fuel : forall skip s m,
  In m (Re.finditer_from r fuel skip s) -> exists s1, Re.match_at r s1 = Some m.
Proof.
  induction fuel as [|fuel IH]; intros skip s m; simpl; [intros []|].
  destruct skip as [|k]; [|apply IH].
  destruct (Re.match_at r s) as [m0|] eqn:E.
  - intros [<-|H]; [eauto|].
    destruct (Re.rest s); [destruct H|]. eapply IH; eauto.
  - destruct (Re.rest s); [intros []|]. apply IH.
Qed.

Lemma finditer_In r subject m :
  In m (Re.finditer r subject) -> exists s1, Re.match_at r s1 = Some m.
Proof. apply finditer_from_In. Qed.

(** *** Text consumed between two positions *)

Lemma append_cons x (a b : string) :
  String.append (String x a) b = String x (String.append a b).
Proof. reflexivity. Qed.

Lemma append_assoc (a b c : string) :
  String.append (String.append a b) c = String.append a (String.append b c).
Proof.
  induction a as [|x a IH]; [reflexivity|].
  now rewrite !append_cons, IH.
Qed.

Lemma length_append (a b : string) :
  String.length (String.append a b) = (String.length a + String.length b)%nat.
Proof.
  induction a as [|x a IH]; [reflexivity|].
  rewrite append_cons. simpl. now rewrite IH.
Qed.

Lemma take_append (w r : string) : Py.take (String.length w) (String.append w r) = w.
Proof.
  induction w as [|x w IH]; [now destruct r|].
  rewrite append_cons. simpl. now rewrite IH.
Qed.

Lemma prefix_append (w r : string) :
  String.prefix w r = true -> exists t, r = String.append w t.
Proof.
  revert r. induction w as [|a w IH]; intros r.
  - exists r. reflexivity.
  - destruct r as [|b r]; simpl; [discriminate|].
    destruct (ascii_dec a b) as [->|]; [|discriminate].
    intros H. apply IH in H as [t ->]. exists t. reflexivity.
Qed.

Lemma consumed_refl s : consumed s s EmptyString.
Proof. split; simpl; [reflexivity|lia]. Qed.

Lemma consumed_trans s s1 s2 w1 w2 :
  consumed s s1 w1 -> consumed s1 s2 w2 -> consumed s s2 (String.append w1 w2).
Proof.
  intros [H1 H2] [H3 H4]. split.
  - rewrite H1, H3. now rewrite append_assoc.
  - rewrite H4, H2, length_append. lia.
Qed.

Lemma consumed_between s s' w : consumed s s' w -> Re.between s s' = w.
Proof.
  intros [H1 H2]. unfold Re.between. rewrite H1, H2.
  replace (Re.pos s + String.length w - Re.pos s)%nat with (String.length w) by lia.
  apply take_append.
Qed.

Lemma consumed_step s c t :
  Re.rest s = String c t -> consumed s (Re.step s) (String c EmptyString).
Proof.
  intros H. unfold Re.step. rewrite H. split; simpl; [assumption|lia].
Qed.

Lemma consumed_advance w : forall s t,
  Re.rest s = String.append w t ->
  consumed s (Re.advance (String.length w) s) w
  /\ Re.rest (Re.advance (String.length w) s) = t
  /\ Re.caps (Re.advance (String.length w) s) = Re.caps s.
Proof.
  induction w as [|a w IH]; intros s t H; simpl in *.
  - split; [apply consumed_refl|auto].
  - pose proof (consumed_step _ _ _ H) as Hs.
    assert (Hr : Re.rest (Re.step s) = String.append w t)
      by (unfold Re.step; rewrite H; reflexivity).
    assert (Hc : Re.caps (Re.step s) = Re.caps s)
      by (unfold Re.step; rewrite H; reflexivity).
    destruct (IH _ _ Hr) as (H1 & H2 & H3).
    split; [|split; [assumption|congruence]].
    apply (consumed_trans _ _ _ _ _ Hs H1).
Qed.

Lemma Matches_consumed r s s' :
  Re.Matches r s s' -> exists w, consumed s s' w.
Proof.
  induction 1 as [s|w s Hp|p s c t Hr Hc|r1 r2 s s1 s2 _ [w1 H1] _ [w2 H2]
                 |r1 r2 s s1 _ IH|r1 r2 s s1 _ IH|r s
                 |r s s1 s2 _ [w1 H1] _ [w2 H2]|n r s s1 _ [w H]|p s Hp].
  - exists EmptyString. apply consumed_refl.
  - apply prefix_append in Hp as [t Ht]. exists w.
    now apply (consumed_advance w s t).
  - eexists. eapply consumed_step; eauto.
  - eexists. eapply consumed_trans; eauto.
  - exact IH.
  - exact IH.
  - exists EmptyString. apply consumed_refl.
  - eexists. eapply consumed_trans; eauto.
  - exists w. exact H.
  - exists EmptyString. apply consumed_refl.
Qed.

(** A pattern without groups leaves the captures alone. *)
Lemma Matches_groupless r s s' :
  Re.Matches r s s' -> groupless r = true -> Re.caps s' = Re.caps s.
Proof.
  induction 1 as [s|w s Hp|p s c t Hr Hc|r1 r2 s s1 s2 _ IH1 _ IH2
                 |r1 r2 s s1 _ IH|r1 r2 s s1 _ IH|r s
                 |r s s1 s2 _ IH1 _ IH2|n r s s1 _ IH|p s Hp];
    simpl; intros Hg; try reflexivity; try discriminate.
  - apply prefix_append in Hp as [t Ht].
    now apply (consumed_advance w s t).
  - unfold Re.step. now rewrite Hr.
  - apply andb_prop in Hg as [Hg1 Hg2]. rewrite IH2, IH1; auto.
  - apply andb_prop in Hg as [Hg1 Hg2]. auto.
  - apply andb_prop in Hg as [Hg1 Hg2]. auto.
  - rewrite IH2, IH1; auto.
Qed.

(** The text matched by a pattern of finitely many words is one of them. *)
Lemma words_sound r : forall l s s',
  words r = Some l -> Re.Matches r s s' -> In (Re.between s s') l.
Proof.
  induction r as [|w|p|r1 IH1 r2 IH2|r1 IH1 r2 IH2|r1 IH1|n r1 IH1|p];
    intros l s s' Hw HM; simpl in Hw; try discriminate.
  - injection Hw as <-. inversion HM; subst.
    rewrite (consumed_between _ _ _ (consumed_refl s')). now left.
  - injection Hw as <-. inversion HM as [|? ? Hp| | | | | | | |]; subst.
    apply prefix_append in Hp as [t Ht].
    destruct (consumed_advance w s t Ht) as (Hc & _).
    rewrite (consumed_between _ _ _ Hc). now left.
  - destruct (words r1) as [l1|]; [|discriminate].
    destruct (words r2) as [l2|]; [|discriminate].
    injection Hw as <-. inversion HM as [| | |? ? ? s1 ? H1 H2| | | | | |]; subst.
    pose proof (IH1 _ _ _ eq_refl H1) as In1.
    pose proof (IH2 _ _ _ eq_refl H2) as In2.
    destruct (Matches_consumed _ _ _ H1) as [w1 C1].
    destruct (Matches_consumed _ _ _ H2) as [w2 C2].
    rewrite (consumed_between _ _ _ (consumed_trans _ _ _ _ _ C1 C2)).
    rewrite (consumed_between _ _ _ C1) in In1.
    rewrite (consumed_between _ _ _ C2) in In2.
    apply List.in_flat_map. exists w1. split; [assumption|].
    now apply List.in_map.
  - destruct (words r1) as [l1|]; [|discriminate].
    destruct (words r2) as [l2|]; [|discriminate].
    injection Hw as <-. apply List.in_app_iff.
    inversion HM; subst; [left|right]; eauto.
Qed.

(** ** The token grammar *)

Ltac invert H := inversion H; subst; clear H.

Lemma words_unit_names : words unit_names = Some unit_aliases.
Proof. reflexivity. Qed.

(** Every unit name is turned into inches, feet or cm. *)
Lemma unit_aliases_canonical w :
  In w unit_aliases ->
  In (_canonical_unit (Some w)) [Some "inches"; Some "feet"; Some "cm"]
  /\ w <> EmptyString.
Proof.
  unfold unit_aliases. simpl.
  intros H. repeat (destruct H as [<-|H]; [split; [vm_compute; tauto|discriminate]|]).
  destruct H.
Qed.

Lemma set_cap_caps n t s k :
  Re.caps (Re.set_cap n t s) k = if Nat.eqb k n then Some t else Re.caps s k.
Proof. reflexivity. Qed.

(** A number starts with a digit. *)
Lemma number_forms_digit s u :
  Re.Matches number_forms s u ->
  exists c t, Re.between s u = String c t /\ Py.isdigit c = true.
Proof.
  intros H.
  assert (Hd : exists sa r sb, Re.Matches digit s sa /\ Re.Matches r sa sb
                               /\ exists r', Re.Matches r' sb u).
  { cbv [number_forms Re.seq Re.Plus Re.Opt] in H.
    invert H.
    - match goal with M : Re.Matches (Re.Seq _ _) _ _ |- _ => invert M end.
      match goal with M : Re.Matches (Re.Seq digit _) _ _ |- _ => invert M end.
      eauto 8.
    - match goal with M : Re.Matches (Re.Seq _ _) _ _ |- _ => invert M end.
      match goal with M : Re.Matches (Re.Seq digit _) _ _ |- _ => invert M end.
      eauto 8. }
  destruct Hd as (sa & r & sb & Ha & Hb & r' & Hc).
  unfold digit in Ha. invert Ha.
  match goal with E : Re.rest s = String ?c ?t |- _ =>
    pose proof (consumed_step _ _ _ E) as C1; rename c into c0 end.
  destruct (Matches_consumed _ _ _ Hb) as [w2 C2].
  destruct (Matches_consumed _ _ _ Hc) as [w3 C3].
  pose proof (consumed_trans _ _ _ _ _ (consumed_trans _ _ _ _ _ C1 C2) C3) as C.
  rewrite (consumed_between _ _ _ C).
  exists c0. eexists. split; [reflexivity|assumption].
Qed.

Lemma Matches_star_space s s' :
  Re.Matches (Re.Star space) s s' -> Re.caps s' = Re.caps s.
Proof. intros H. now apply (Matches_groupless _ _ _ H). Qed.

(** The groups of a match of [dimension_re]. *)
Lemma dimension_re_token s m :
  Re.match_at dimension_re s = Some m -> token m.
Proof.
  intros H. apply match_at_sound in H as (s0 & s' & Hc & HM & Hg).
  unfold token. rewrite !Hg. clear Hg m.
  unfold dimension_re in HM. invert HM.
  match goal with M : Re.Matches (Re.Star space) _ _ |- _ =>
    apply Matches_star_space in M; rename M into C0 end.
  match goal with M : Re.Matches (dimension_pattern 1) _ _ |- _ =>
    cbv [dimension_pattern Re.seq Re.Opt number_pattern unit_pattern] in M;
    simpl Nat.add in M; invert M end.
  match goal with M : Re.Matches (Re.Seq _ _) _ _ |- _ => invert M end.
  match goal with M : Re.Matches (Re.Grp 2 _) _ _ |- _ => invert M end.
  match goal with M : Re.Matches (Re.Seq _ _) _ _ |- _ => invert M end.
  match goal with M : Re.Matches (Re.Star space) _ _ |- _ =>
    apply Matches_star_space in M; rename M into C1 end.
  match goal with M : Re.Matches number_forms _ _ |- _ =>
    pose proof (Matches_groupless _ _ _ M eq_refl) as C2;
    apply number_forms_digit in M as (c & t & Hb & Hd) end.
  match goal with M : Re.Matches (Re.Alt _ _) _ _ |- _ => invert M end.
  - match goal with M : Re.Matches (Re.Grp 3 _) _ _ |- _ => invert M end.
    match goal with M : Re.Matches unit_names _ _ |- _ =>
      pose proof (Matches_groupless _ _ _ M eq_refl) as C3;
      pose proof (words_sound _ _ _ _ words_unit_names M) as Hw end.
    rewrite !set_cap_caps. simpl.
    rewrite C3, C1. rewrite set_cap_caps. simpl. rewrite Hb.
    split; [eauto|]. right. eauto.
  - match goal with M : Re.Matches Re.Eps _ _ |- _ => invert M end.
    rewrite !set_cap_caps. simpl.
    rewrite !C1. rewrite !set_cap_caps. simpl. rewrite Hb, C2, C0, Hc.
    split; [eauto|]. now left.
Qed.

Lemma finditer_tokens subject : Forall token (Re.finditer dimension_re subject).
Proof.
  apply List.Forall_forall. intros m H.
  apply finditer_In in H as [s1 H]. eapply dimension_re_token; eauto.
Qed.

(** ** The measurement parser *)

Lemma prefix_head a w c t : a <> c -> String.prefix (String a w) (String c t) = false.
Proof. intros H. simpl. destruct (ascii_dec a c); [contradiction|reflexivity]. Qed.

Lemma replace_head a w new c t :
  a <> c ->
  Py.replace (String a w) new (String c t) = String c (Py.replace (String a w) new t).
Proof.
  intros H. unfold Py.replace. cbn [Py.replace_from].
  now rewrite (prefix_head a w c t H).
Qed.

Lemma digit_neq c a : Py.isdigit c = true -> Py.isdigit a = false -> a <> c.
Proof. intros Hc Ha ->. congruence. Qed.

(** On a text that starts with a digit the canonical value is the text
    after the replacements, unless a slash is left in it. *)
Lemma canonical_value_digit c t :
  Py.isdigit c = true ->
  exists t',
    substituted (String c t) = String c t'
    /\ _canonical_value (String c t)
       = if Py.contains "/" (String c t') then None else Some (String c t').
Proof.
  intros Hc.
  assert (Hcomma : ("," : ascii) <> c) by (apply (digit_neq c); [assumption|reflexivity]).
  assert (Hblank : (" " : ascii) <> c) by (apply (digit_neq c); [assumption|reflexivity]).
  assert (Hdot : ("." : ascii) <> c) by (apply (digit_neq c); [assumption|reflexivity]).
  unfold _canonical_value, substituted.
  rewrite (replace_head _ _ _ _ _ Hcomma).
  rewrite (replace_head _ _ _ _ _ Hblank).
  rewrite (replace_head _ _ _ _ _ Hblank).
  rewrite (replace_head _ _ _ _ _ Hblank).
  eexists. split; [reflexivity|].
  unfold Py.startswith. now rewrite (prefix_head _ _ _ _ Hdot).
Qed.

Lemma canonical_value_slash text :
  Py.contains "/" (substituted text) = true -> _canonical_value text = None.
Proof. unfold _canonical_value, substituted. now intros ->. Qed.

Lemma canonical_unit_range o : In (_canonical_unit o) canonical_units.
Proof.
  unfold _canonical_unit, canonical_units. destruct o as [v|]; [|simpl; tauto].
  repeat match goal with |- context [if ?b then _ else _] => destruct b end;
    simpl; tauto.
Qed.

Lemma canonical_which_total o :
  exists ws axis,
    _canonical_which o = (ws, Return axis) /\ In axis canonical_axes.
Proof.
  unfold _canonical_which, canonical_axes. destruct o as [[|c t]|]; unmonad;
    try (do 2 eexists; split; [reflexivity|simpl; tauto]).
  repeat match goal with |- context [if ?b then _ else _] => destruct b end;
    do 2 eexists; (split; [reflexivity|simpl; tauto]).
Qed.

Lemma canonical_which_warnings o ws r :
  _canonical_which o = (ws, r) ->
  forall x, In x ws -> exists v, x = Unknown_which v.
Proof.
  unfold _canonical_which. destruct o as [[|c t]|]; unmonad;
    try (intros [= <- _] x []).
  repeat match goal with |- context [if ?b then _ else _] => destruct b end;
    simpl; intros [= <- _] x Hx; try (destruct Hx).
  - eauto.
  - destruct H.
Qed.

(** [_canonical_which] returns its own results unchanged, without a
    warning. *)
Lemma canonical_which_idempotent axis :
  In axis canonical_axes -> _canonical_which axis = ([], Return axis).
Proof.
  unfold canonical_axes. simpl.
  intros [<-|[<-|[<-|[]]]]; vm_compute; reflexivity.
Qed.

(** One turn of the loop on a token whose value is canonical. *)
Lemma parse_loop_step m ms which dims0 text v ws1 axis :
  Re.group m 2 = Some text ->
  _canonical_value text = Some v -> v <> EmptyString ->
  (Re.group m 3 = None
   \/ exists w, Re.group m 3 = Some w /\ _canonical_unit (Some w) <> None) ->
  _canonical_which which = (ws1, Return axis) ->
  parse_loop (m :: ms) which dims0
  = (ws1 ++ fst (parse_loop ms axis
                   (dims0 ++ [Dimension.make v (_canonical_unit (Re.group m 3)) axis])),
     snd (parse_loop ms axis
            (dims0 ++ [Dimension.make v (_canonical_unit (Re.group m 3)) axis]))).
Proof.
  intros H2 Hv Hne H3 Hw. cbn [parse_loop]. rewrite H2, Hv.
  destruct v as [|vc vt]; [contradiction|].
  unmonad.
  assert (Hu : match Re.group m 3, _canonical_unit (Re.group m 3) with
               | Some (String _ _ as uv), None => ([Not_a_recognized_unit uv], Return tt)
               | _, _ => ([], Return tt)
               end = ([], Return tt)).
  { destruct H3 as [->|(w & -> & Hc)]; [reflexivity|].
    destruct (_canonical_unit (Some w)); [|contradiction].
    now destruct w. }
  rewrite (bind_eq _ _ _ _ Hu). rewrite (bind_eq _ _ _ _ Hw). reflexivity.
Qed.

Lemma token_unit m :
  token m ->
  Re.group m 3 = None
  \/ exists w, Re.group m 3 = Some w /\ _canonical_unit (Some w) <> None.
Proof.
  intros [_ [H|(w & H & Hin)]]; [now left|right].
  exists w. split; [assumption|].
  destruct (unit_aliases_canonical w Hin) as [Hc _].
  intros E. rewrite E in Hc.
  destruct Hc as [Hc|[Hc|[Hc|[]]]]; discriminate.
Qed.

(** Over tokens the loop never raises and never meets a unit text it does
    not recognize. *)
Lemma parse_loop_tokens ms : forall which dims0,
  Forall token ms ->
  exists ws r,
    parse_loop ms which dims0 = (ws, Return r)
    /\ forall u, ~ In (Not_a_recognized_unit u) ws.
Proof.
  induction ms as [|m ms IH]; intros which dims0 Hall.
  - simpl. destruct dims0; unmonad; do 2 eexists; (split; [reflexivity|intros u []]).
  - inversion Hall as [|? ? Hm Hrest]; subst.
    pose proof (token_unit m Hm) as H3.
    destruct Hm as [(c & t & H2 & Hc) _].
    destruct (canonical_value_digit c t Hc) as (t' & _ & Hv).
    destruct (canonical_which_total which) as (ws1 & axis & Hw & Hax).
    destruct (Py.contains "/" (String c t')) eqn:Hs.
    + cbn [parse_loop]. rewrite H2, Hv. unmonad. simpl.
      do 2 eexists. split; [reflexivity|].
      intros u [E|[]]. discriminate.
    + rewrite (parse_loop_step m ms which dims0 _ _ ws1 axis H2 Hv ltac:(discriminate) H3 Hw).
      destruct (IH axis (dims0 ++ [Dimension.make (String c t')
                                    (_canonical_unit (Re.group m 3)) axis]) Hrest)
        as (ws & r & -> & Hn).
      do 2 eexists. split; [reflexivity|]. simpl.
      intros u Hin. apply in_app_iff in Hin as [Hin|Hin]; [|now apply (Hn u)].
      destruct (canonical_which_warnings _ _ _ Hw _ Hin) as [v Hv']. discriminate.
Qed.

(** What the loop returns extends the measurements it started with by
    measurements with canonical units that share the canonical axis of
    the hint. *)
Lemma parse_loop_Some ms : forall which dims0 ws dims,
  parse_loop ms which dims0 = (ws, Return (Some dims)) ->
  dims <> []
  /\ exists tail,
       dims = dims0 ++ tail
       /\ Forall (fun d => In (Dimension.unit d) canonical_units) tail
       /\ forall axis, result_of (_canonical_which which) = Return axis ->
                       Forall (fun d => Dimension.which d = axis) tail.
Proof.
  induction ms as [|m ms IH]; intros which dims0 ws dims; cbn [parse_loop].
  - destruct dims0 as [|d0 dims0]; unmonad; [discriminate|].
    intros [= _ <-]. split; [discriminate|].
    exists []. rewrite app_nil_r. split; [reflexivity|]. split; constructor.
  - destruct (Re.group m 2) as [text|]; [|discriminate].
    destruct (_canonical_value text) as [[|vc vt]|]; unmonad;
      try (simpl; discriminate).
    intros H.
    apply bind_Return in H as (wsu & [] & ws' & _ & H & _).
    apply bind_Return in H as (ws1 & axis & ws2 & Hw & H & _).
    apply IH in H as (Hne & tail & -> & Hu & Hax).
    split; [assumption|].
    eexists. split; [now rewrite <- app_assoc|].
    destruct (canonical_which_total which) as (ws1' & axis' & Hw' & Hin).
    rewrite Hw' in Hw. injection Hw as -> ->.
    split.
    + constructor; [apply canonical_unit_range|assumption].
    + intros a Ha. rewrite Hw' in Ha. injection Ha as <-.
      constructor; [reflexivity|].
      apply Hax. now rewrite (canonical_which_idempotent _ Hin).
Qed.

(** A token whose number keeps a slash ends the loop with None; the
    warning, emitted last, names the number of such a token. *)
Lemma parse_loop_fails ms : forall which dims0,
  Forall token ms ->
  Exists (fun m => exists text, Re.group m 2 = Some text
                                /\ Py.contains "/" (substituted text) = true) ms ->
  exists ws m text,
    parse_loop ms which dims0 = (ws ++ [Failed_to_canonicalize text], Return None)
    /\ In m ms /\ Re.group m 2 = Some text
    /\ Py.contains "/" (substituted text) = true.
Proof.
  induction ms as [|m ms IH]; intros which dims0 Hall Hex; [inversion Hex|].
  inversion Hall as [|? ? Hm Hrest]; subst.
  pose proof (token_unit m Hm) as H3.
  destruct Hm as [(c & t & H2 & Hc) _].
  destruct (canonical_value_digit c t Hc) as (t' & Hsub & Hv).
  destruct (Py.contains "/" (String c t')) eqn:Hs.
  - cbn [parse_loop]. rewrite H2, Hv. unmonad. simpl.
    exists [], m, (String c t). simpl. rewrite Hsub. auto.
  - destruct (canonical_which_total which) as (ws1 & axis & Hw & _).
    rewrite (parse_loop_step m ms which dims0 _ _ ws1 axis H2 Hv ltac:(discriminate) H3 Hw).
    assert (Hex' : Exists (fun m => exists text, Re.group m 2 = Some text
                              /\ Py.contains "/" (substituted text) = true) ms).
    { inversion Hex as [? ? (text & E & Ht)|]; subst; [|assumption].
      rewrite H2 in E. injection E as <-. rewrite Hsub in Ht. congruence. }
    destruct (IH axis (dims0 ++ [Dimension.make (String c t')
                                  (_canonical_unit (Re.group m 3)) axis]) Hrest Hex')
      as (ws & m' & text & -> & Hin & Hg & Ht).
    exists (ws1 ++ ws), m', text. simpl. rewrite app_assoc. auto.
Qed.

(** [C6]  The value "1 1/2 in" parses to one measurement of value "1.5"
    in inches: the canonical value of a number replaces the comma by a
    dot and the quarter fractions by their decimals.  For every group text, if
    one of its tokens has a number that still contains a slash after these
    replacements, the parser returns None, and the last warning it emits
    names the number of such a token. *)
Theorem C6_canonical_value_and_unsupported_fractions :
  parse_simple_dimensions (Some "1 1/2 in") None
  = ([], Return (Some [Dimension.make "1.5" (Some "inches") None]))
  /\ _canonical_value "2,5" = Some "2.5"
  /\ _canonical_value "3 1/4" = Some "3.25"
  /\ _canonical_value "1 1/2" = Some "1.5"
  /\ _canonical_value "2 3/4" = Some "2.75"
  /\ (forall text,
        _canonical_value text
        = if Py.contains "/" (substituted text) then None
          else if Py.startswith (substituted text) "."
               then Some (String.append "0" (substituted text))
               else Some (substituted text))
  /\ (forall value which m text,
        In m (Re.finditer dimension_re (Py.strip value)) ->
        Re.group m 2 = Some text ->
        Py.contains "/" (substituted text) = true ->
        exists ws m' text',
          parse_simple_dimensions (Some value) which
          = (ws ++ [Failed_to_canonicalize text'], Return None)
          /\ In m' (Re.finditer dimension_re (Py.strip value))
          /\ Re.group m' 2 = Some text'
          /\ Py.contains "/" (substituted text') = true).
Proof.
  do 5 (split; [vm_compute; reflexivity|]).
  split; [reflexivity|].
  intros value which m text Hin Hg Hs. unfold parse_simple_dimensions.
  apply parse_loop_fails; [apply finditer_tokens|].
  apply List.Exists_exists. exists m. eauto.
Qed.

Lemma C6_witness :
  exists ws m' text',
    parse_simple_dimensions (Some "1 in 7 2/3 cm") (Some "h")
    = (ws ++ [Failed_to_canonicalize text'], Return None)
    /\ In m' (Re.finditer dimension_re (Py.strip "1 in 7 2/3 cm"))
    /\ Re.group m' 2 = Some text'
    /\ Py.contains "/" (substituted text') = true.
Proof.
  destruct C6_canonical_value_and_unsupported_fractions as (_ & _ & _ & _ & _ & _ & H).
  pose (m := Re.PyMatch 4 13
               (fun i => match i with
                         | 2%nat => Some "7 2/3"
                         | _ => None
                         end)).
  refine (H "1 in 7 2/3 cm" (Some "h")
            (nth 1 (Re.finditer dimension_re (Py.strip "1 in 7 2/3 cm")) m)
            "7 2/3" _ _ _).
  - vm_compute. right. left. reflexivity.
  - vm_compute. reflexivity.
  - vm_compute. reflexivity.
Defined.

(** ** Parsed groups in the normalizer *)

Lemma float_warnings text : warnings_of (float text) = [].
Proof. unfold float. now destruct (PyFloat.of_string text). Qed.

(** On canonical units the loop of [normalize_dimension] emits no warning
    and, unless [float] raises, runs to its end. *)
Lemma normalize_loop_canonical dims : forall l,
  Forall (fun d => In (Dimension.unit d) canonical_units) dims ->
  warnings_of (normalize_loop dims l) = []
  /\ forall ex l', result_of (normalize_loop dims l) = Return (ex, l') ->
                   ex = Completed.
Proof.
  induction dims as [|d dims IH]; intros l Hall.
  - simpl. split; [reflexivity|]. now intros ex l' [= <- _].
  - inversion Hall as [|? ? Hd Hrest]; subst.
    assert (Hstep : forall f : PyFloat.float -> locals,
      warnings_of (x ← float (Dimension.value d); normalize_loop dims (f x)) = []
      /\ forall ex l',
           result_of (x ← float (Dimension.value d); normalize_loop dims (f x))
           = Return (ex, l') -> ex = Completed).
    { intros f. unmonad. unfold float.
      destruct (PyFloat.of_string (Dimension.value d)) as [x|]; simpl.
      - destruct (IH (f x) Hrest) as [Hw Hr].
        destruct (normalize_loop dims (f x)) as [ws r]. simpl in *.
        subst ws. split; [reflexivity|exact Hr].
      - split; [reflexivity|discriminate]. }
    cbn [normalize_loop]. unfold canonical_units in Hd. simpl in Hd.
    destruct Hd as [E|[E|[E|[E|[]]]]]; rewrite <- E; apply Hstep.
Qed.

Lemma labels_loop_canonical dims : forall acc,
  Forall (fun d => In (Dimension.unit d) canonical_units) dims ->
  exists labels, labels_loop dims acc = ([], Return (Some labels)).
Proof.
  induction dims as [|d dims IH]; intros acc Hall.
  - simpl. eauto.
  - inversion Hall as [|? ? Hd Hrest]; subst.
    cbn [labels_loop]. unfold canonical_units in Hd. simpl in Hd.
    destruct Hd as [E|[E|[E|[E|[]]]]]; rewrite <- E; apply IH; assumption.
Qed.

Lemma normalize_dimension_canonical dims w :
  Forall (fun d => In (Dimension.unit d) canonical_units) dims ->
  In w (warnings_of (normalize_dimension dims)) ->
  w = Mixed_unit_systems dims.
Proof.
  intros Hall. destruct (normalize_loop_canonical dims initial Hall) as [Hw Hr].
  destruct (normalize_loop dims initial) as [ws [[ex l]|e]] eqn:Hloop;
    simpl in Hw; subst ws.
  - rewrite (normalize_dimension_of_loop _ _ _ _ Hloop).
    rewrite (Hr ex l eq_refl).
    repeat match goal with |- context [if ?b then _ else _] => destruct b end;
      simpl; intros Hin; repeat (destruct Hin as [Hin|Hin]); auto; contradiction.
  - unfold normalize_dimension. unmonad. rewrite Hloop. simpl. intros [].
Qed.

Lemma normalized_dimension_object_canonical dims w :
  Forall (fun d => In (Dimension.unit d) canonical_units) dims ->
  In w (warnings_of (normalized_dimension_object dims)) ->
  w = Mixed_unit_systems dims.
Proof.
  intros Hall Hin. unfold normalized_dimension_object in Hin. unmonad.
  apply bind_warnings in Hin as [Hin|(o & _ & Hin)].
  - eapply normalize_dimension_canonical; eauto.
  - destruct o as [nd|]; [|destruct Hin].
    apply bind_warnings in Hin as [Hin|(o & _ & Hin)].
    + destruct (labels_loop_canonical dims [] Hall) as [labels E].
      rewrite E in Hin. destruct Hin.
    + destruct o; destruct Hin.
Qed.

Lemma parse_simple_dimensions_Some value hint ws dims :
  parse_simple_dimensions value hint = (ws, Return (Some dims)) ->
  dims <> []
  /\ Forall (fun d => In (Dimension.unit d) canonical_units) dims
  /\ exists axis,
       In axis canonical_axes
       /\ result_of (_canonical_which hint) = Return axis
       /\ Forall (fun d => Dimension.which d = axis) dims.
Proof.
  unfold parse_simple_dimensions. destruct value as [value|]; [|discriminate].
  intros H. apply parse_loop_Some in H as (Hne & tail & -> & Hu & Hax).
  simpl. split; [assumption|]. split; [assumption|].
  destruct (canonical_which_total hint) as (ws1 & axis & Hw & Hin).
  exists axis. rewrite Hw. split; [assumption|]. split; [reflexivity|].
  apply Hax. now rewrite Hw.
Qed.

(** [C9]  Every measurement returned by the parser has the unit inches,
    feet, cm or None: each text the unit pattern admits is one of the
    unit names, each unit name is turned into inches, feet or cm, and so
    the parser never warns about an unrecognized unit text.  Hence on a
    group returned by the parser neither [normalize_dimension] nor the
    label loop of [normalized_dimension_object] reaches its
    unrecognized-unit branch: the loop of the first never leaves the
    function with None, and none of the two warnings is emitted. *)
Theorem C9_parsed_units_are_canonical :
  (forall value hint ws dims,
      parse_simple_dimensions value hint = (ws, Return (Some dims)) ->
      Forall (fun d => In (Dimension.unit d) canonical_units) dims
      /\ (forall l ws' l', normalize_loop dims l <> (ws', Return (Returned_None, l')))
      /\ (forall u, ~ In (Unrecognized_unit u) (warnings_of (normalize_dimension dims)))
      /\ (forall u, ~ In (Unrecognized_unit u)
                      (warnings_of (normalized_dimension_object dims)))
      /\ ~ In Unrecognized_unit_label (warnings_of (normalized_dimension_object dims)))
  /\ (forall g s s',
        Re.Matches (unit_pattern g) s s' ->
        exists w, Re.caps s' g = Some w /\ In w unit_aliases
                  /\ In (_canonical_unit (Some w)) [Some "inches"; Some "feet"; Some "cm"])
  /\ (forall value hint u,
        ~ In (Not_a_recognized_unit u)
            (warnings_of (parse_simple_dimensions value hint))).
Proof.
  split; [|split].
  - intros value hint ws dims H.
    apply parse_simple_dimensions_Some in H as (_ & Hu & _).
    split; [assumption|]. split; [|split; [|split]].
    + intros l ws' l' E.
      destruct (normalize_loop_canonical dims l Hu) as [_ Hr].
      rewrite E in Hr. specialize (Hr _ _ eq_refl). discriminate.
    + intros u Hin. apply (normalize_dimension_canonical _ _ Hu) in Hin. discriminate.
    + intros u Hin. apply (normalized_dimension_object_canonical _ _ Hu) in Hin.
      discriminate.
    + intros Hin. apply (normalized_dimension_object_canonical _ _ Hu) in Hin.
      discriminate.
  - intros g s s' H. unfold unit_pattern in H. invert H.
    match goal with M : Re.Matches unit_names _ _ |- _ =>
      pose proof (words_sound _ _ _ _ words_unit_names M) as Hw end.
    eexists. rewrite set_cap_caps, Nat.eqb_refl. split; [reflexivity|].
    split; [assumption|]. now apply unit_aliases_canonical.
  - intros value hint u. unfold parse_simple_dimensions.
    destruct value as [value|]; [|intros []].
    destruct (parse_loop_tokens (Re.finditer dimension_re (Py.strip value)) hint []
                (finditer_tokens _)) as (ws & r & -> & Hn).
    apply Hn.
Qed.

Lemma C9_witness :
  Forall (fun d => In (Dimension.unit d) canonical_units)
    [Dimension.make "1" (Some "feet") (Some "height");
     Dimension.make "2" None (Some "height")].
Proof.
  destruct C9_parsed_units_are_canonical as (H & _ & _).
  apply (H (Some "1' 2") (Some "h") []). vm_compute. reflexivity.
Defined.

(** The axis left in the locals by the loop is the axis of the last
    measurement. *)
Lemma normalize_loop_which dims : forall l ws ex l' axis,
  Forall (fun d => Dimension.which d = axis) dims ->
  which l = axis \/ dims <> [] ->
  normalize_loop dims l = (ws, Return (ex, l')) ->
  which l' = axis.
Proof.
  induction dims as [|d dims IH]; intros l ws ex l' axis Hall Hl.
  - simpl. intros [= _ _ <-]. destruct Hl as [H|H]; [assumption|contradiction].
  - inversion Hall as [|? ? Hd Hrest]; subst. cbn [normalize_loop].
    assert (Hstep : forall f : PyFloat.float -> locals,
      (forall x, which (f x) = Dimension.which d) ->
      (x ← float (Dimension.value d); normalize_loop dims (f x))
        = (ws, Return (ex, l')) -> which l' = Dimension.which d).
    { intros f Hf H. unmonad.
      apply bind_Return in H as (ws1 & x & ws2 & _ & H & _).
      eapply IH; eauto. }
    destruct (Py.is_str (Dimension.unit d) "inches"); [now apply Hstep|].
    destruct (Py.is_str (Dimension.unit d) "feet"); [now apply Hstep|].
    destruct (Py.is_str (Dimension.unit d) "cm"); [now apply Hstep|].
    destruct (Dimension.unit d); [|now apply Hstep].
    unmonad. simpl. now intros [= _ _ <-].
Qed.

(** [C10]  All measurements returned by one call of the parser carry the
    same axis, which is width, height or None: it is what
    [_canonical_which] makes of the hint, and [_canonical_which] returns
    its own results unchanged.  The axis that [normalize_dimension] gives
    its result, taken from the last measurement it visits, is therefore
    the axis of the whole group; and it does return a result with that
    axis whenever [float] accepts every value of the group and exactly one
    of the sums of the group is non-zero, as for the group parsed from
    "1 ft. 2 in." with the hint " H", which normalizes to 14.0 inches
    of height. *)
Theorem C10_parsed_group_shares_axis :
  (forall value hint ws dims,
      parse_simple_dimensions value hint = (ws, Return (Some dims)) ->
      exists axis,
        In axis canonical_axes
        /\ result_of (_canonical_which hint) = Return axis
        /\ _canonical_which axis = ([], Return axis)
        /\ Forall (fun d => Dimension.which d = axis) dims
        /\ (forall ws' nd,
              normalize_dimension dims = (ws', Return (Some nd)) ->
              Dimension.which nd = axis
              /\ exists d, List.last dims nd = d
                           /\ Dimension.which nd = Dimension.which d)
        /\ (Forall (fun d => is_Some (PyFloat.of_string (Dimension.value d))) dims ->
            used_systems (accumulated dims initial) = 1%nat ->
            exists nd, normalize_dimension dims = ([], Return (Some nd))
                       /\ Dimension.which nd = axis))
  /\ (let group := [Dimension.make "1" (Some "feet") (Some "height");
                    Dimension.make "2" (Some "inches") (Some "height")] in
      parse_simple_dimensions (Some "1 ft. 2 in.") (Some " H")
      = ([], Return (Some group))
      /\ normalize_dimension group
         = ([], Return (Some (Dimension.make "14.0" (Some "inches") (Some "height"))))).
Proof.
  split.
  - intros value hint ws dims H.
    apply parse_simple_dimensions_Some in H as (Hne & Hunits & axis & Hin & Hw & Hall).
    exists axis. split; [assumption|]. split; [assumption|].
    split; [now apply canonical_which_idempotent|]. split; [assumption|].
    assert (Hsome : forall ws' nd,
               normalize_dimension dims = (ws', Return (Some nd)) ->
               Dimension.which nd = axis).
    { intros ws' nd Hn.
      apply normalize_dimension_Some in Hn as (l & Hloop & _ & Hnd & _).
      rewrite Hnd. eapply normalize_loop_which; eauto. }
    split.
    + intros ws' nd Hn. pose proof (Hsome _ _ Hn) as Ha.
      split; [assumption|]. eexists. split; [reflexivity|].
      rewrite Ha. symmetry.
      assert (Hl : In (List.last dims nd) dims).
      { destruct dims as [|d0 dims]; [contradiction|].
        clear. revert d0. induction dims as [|d1 dims IH]; intros d0.
        - now left.
        - right. apply (IH d1). }
      rewrite List.Forall_forall in Hall. now apply Hall.
    + intros Hfloat Hused.
      assert (Hr : Forall readable dims).
      { rewrite List.Forall_forall in *. intros d Hd. split; auto. }
      pose proof (normalize_dimension_readable _ Hr) as E. cbv zeta in E.
      apply Nat.eqb_eq in Hused. rewrite Hused in E. cbn [negb] in E.
      destruct (PyNum.nonzero (inches (accumulated dims initial)));
        [|destruct (PyNum.nonzero (cm (accumulated dims initial)))];
        (eexists; split; [exact E|exact (Hsome _ _ E)]).
  - split; vm_compute; reflexivity.
Qed.

Lemma C10_witness :
  exists nd,
    normalize_dimension
      [Dimension.make "1" (Some "feet") (Some "height");
       Dimension.make "2" (Some "inches") (Some "height")]
    = ([], Return (Some nd))
    /\ Dimension.which nd = Some "height".
Proof.
  destruct C10_parsed_group_shares_axis as [H _].
  destruct (H (Some "1 ft. 2 in.") (Some " H") []
              [Dimension.make "1" (Some "feet") (Some "height");
               Dimension.make "2" (Some "inches") (Some "height")])
    as (axis & _ & Hw & _ & _ & _ & Hex).
  - vm_compute. reflexivity.
  - assert (Ha : axis = Some "height").
    { vm_compute in Hw. injection Hw as <-. reflexivity. }
    rewrite Ha in Hex. apply Hex.
    + constructor; [|constructor; [|constructor]].
      * exists (PyFloat.of_Z 1). vm_compute. reflexivity.
      * exists (PyFloat.of_Z 2). vm_compute. reflexivity.
    + vm_compute. reflexivity.
Defined.

(** ** The Dutch matcher *)

Lemma dutch_groupdict m :
  Re.groupdict dutch_dimensions_re m !! "d1w" = Some (Re.group m 1)
  /\ Re.groupdict dutch_dimensions_re m !! "d1" = Some (Re.group m 2)
  /\ Re.groupdict dutch_dimensions_re m !! "d2w" = Some (Re.group m 6)
  /\ Re.groupdict dutch_dimensions_re m !! "d2" = Some (Re.group m 7).
Proof. repeat split; reflexivity. Qed.

Lemma parse_axis value hint ws dims axis :
  parse_simple_dimensions value (Some hint) = (ws, Return (Some dims)) ->
  result_of (_canonical_which (Some hint)) = Return axis ->
  Forall (fun d => Dimension.which d = axis) dims.
Proof.
  intros H Hw. apply parse_simple_dimensions_Some in H as (_ & _ & a & _ & Ha & Hall).
  rewrite Hw in Ha. now injection Ha as ->.
Qed.

(** [C5]  For every input that the Dutch matcher turns into groups, there
    are two of them: when the first marker contains "breed" in lower case,
    every measurement of the first group has axis width and every
    measurement of the second has axis height, and otherwise the first
    group has height and the second width.  The input
    "Hoog. 1 v. 6 d., Breed 2 v. 3 d." reaches the Dutch matcher and gives
    a height group that normalizes to "18.0" inches and a width group that
    normalizes to "27.0" inches. *)
Theorem C5_dutch_axes :
  (forall value ws groups,
      dutch_dimensions_cleaner_x2 value = (ws, Return (Some groups)) ->
      exists m d1w g1 g2,
        Re.match_ (Re.tree dutch_dimensions_re) value = Some m
        /\ Re.group m 1 = Some d1w
        /\ groups = [g1; g2]
        /\ if Py.contains "breed" (Py.lower d1w)
           then Forall (fun d => Dimension.which d = Some "width") g1
                /\ Forall (fun d => Dimension.which d = Some "height") g2
           else Forall (fun d => Dimension.which d = Some "height") g1
                /\ Forall (fun d => Dimension.which d = Some "width") g2)
  /\ (let value := "Hoog. 1 v. 6 d., Breed 2 v. 3 d." in
      let g1 := [Dimension.make "1" (Some "feet") (Some "height");
                 Dimension.make "6" (Some "inches") (Some "height")] in
      let g2 := [Dimension.make "2" (Some "feet") (Some "width");
                 Dimension.make "3" (Some "inches") (Some "width")] in
      dutch_dimensions_cleaner_x2 value = ([], Return (Some [g1; g2]))
      /\ dimensions_cleaner (Some value) = ([], Return (Some [g1; g2]))
      /\ normalize_dimension g1
         = ([], Return (Some (Dimension.make "18.0" (Some "inches") (Some "height"))))
      /\ normalize_dimension g2
         = ([], Return (Some (Dimension.make "27.0" (Some "inches") (Some "width"))))).
Proof.
  split; [|repeat split; vm_compute; reflexivity].
  intros value ws groups H. unfold dutch_dimensions_cleaner_x2 in H.
  destruct (Re.match_ (Re.tree dutch_dimensions_re) value) as [m|]; [|discriminate].
  destruct (dutch_groupdict m) as (E1 & E2 & E3 & E4).
  unfold getitem in H. rewrite E1, E2, E4 in H. unmonad.
  apply bind_Return in H as (w0 & d1w & w1 & Hd & H & _).
  injection Hd as _ <-.
  destruct (Re.group m 1) as [d1w|] eqn:Hg1; [|discriminate].
  exists m, d1w.
  apply bind_Return in H as (w2 & [h w] & w3 & Hhw & H & _).
  apply bind_Return in H as (w4 & t1 & w5 & Ht1 & H & _). injection Ht1 as _ <-.
  apply bind_Return in H as (w6 & d1 & w7 & Hp1 & H & _).
  apply bind_Return in H as (w8 & t2 & w9 & Ht2 & H & _). injection Ht2 as _ <-.
  apply bind_Return in H as (w10 & d2 & w11 & Hp2 & H & _).
  destruct d1 as [[|a1 g1]|]; [discriminate| |discriminate].
  destruct d2 as [[|a2 g2]|]; [discriminate| |discriminate].
  injection H as _ <-. exists (a1 :: g1), (a2 :: g2).
  split; [reflexivity|]. split; [exact Hg1|]. split; [reflexivity|].
  destruct (Py.contains "breed" (Py.lower d1w)); injection Hhw as _ <- <-;
    split; eapply parse_axis; eauto.
Qed.

Lemma C5_witness :
  exists m d1w g1 g2,
    Re.match_ (Re.tree dutch_dimensions_re) "Breedt 6 v., hoog 3 v" = Some m
    /\ Re.group m 1 = Some d1w
    /\ [[Dimension.make "6" (Some "feet") (Some "width")];
        [Dimension.make "3" (Some "feet") (Some "height")]] = [g1; g2]
    /\ if Py.contains "breed" (Py.lower d1w)
       then Forall (fun d => Dimension.which d = Some "width") g1
            /\ Forall (fun d => Dimension.which d = Some "height") g2
       else Forall (fun d => Dimension.which d = Some "height") g1
            /\ Forall (fun d => Dimension.which d = Some "width") g2.
Proof.
  destruct C5_dutch_axes as [H _].
  apply (H "Breedt 6 v., hoog 3 v" []). vm_compute. reflexivity.
Defined.

(** ** Emission *)

Section Emission.

Context {instance : Type} (instances : gmap string instance).

Lemma emit_cons_Some g rest d label :
  normalized_dimension_object g = ([], Return (Some (d, label))) ->
  emit instances (g :: rest)
  = Run (warned (emit instances rest))
      (DimensionRecord
         (if Py.is_str (Dimension.which d) "height" then Height
          else if Py.is_str (Dimension.which d) "width" then Width
          else PhysicalDimension)
         label (Dimension.value d)
         (match Dimension.unit d with
          | Some u => instances !! u
          | None => None
          end)
         :: yielded (emit instances rest))
      (finished (emit instances rest)).
Proof. intros H. cbn [emit]. rewrite H. reflexivity. Qed.

Lemma extract_14_cm_x_10_cm :
  extract_physical_dimensions instances (Some "14 cm x 10 cm")
  = Run []
      [DimensionRecord PhysicalDimension "14 cm" "14.0" (instances !! "cm");
       DimensionRecord PhysicalDimension "10 cm" "10.0" (instances !! "cm")]
      (Return tt).
Proof.
  unfold extract_physical_dimensions.
  assert (Hc : dimensions_cleaner (Some "14 cm x 10 cm")
               = ([], Return (Some [[Dimension.make "14" (Some "cm") None];
                                    [Dimension.make "10" (Some "cm") None]])))
    by (vm_compute; reflexivity).
  rewrite Hc.
  assert (H1 : normalized_dimension_object [Dimension.make "14" (Some "cm") None]
               = ([], Return (Some (Dimension.make "14.0" (Some "cm") None, "14 cm"))))
    by (vm_compute; reflexivity).
  assert (H2 : normalized_dimension_object [Dimension.make "10" (Some "cm") None]
               = ([], Return (Some (Dimension.make "10.0" (Some "cm") None, "10 cm"))))
    by (vm_compute; reflexivity).
  rewrite (emit_cons_Some _ _ _ _ H1), (emit_cons_Some _ _ _ _ H2).
  reflexivity.
Qed.

End Emission.

(** [C4]  The input "14 cm x 10 cm" is split by the plain two-axis matcher
    into the measurements "14" cm and "10" cm without an axis, and the
    extraction yields exactly two records, without a warning: both of the
    unspecified-axis class, with the unit looked up under "cm", labelled
    "14 cm" and "10 cm", and with the values "14.0" and "10.0", the texts
    of the floats that the normalizer summed. *)
Theorem C4_two_cm_records :
  simple_dimensions_cleaner_x2 "14 cm x 10 cm"
  = ([], Return (Some [[Dimension.make "14" (Some "cm") None];
                       [Dimension.make "10" (Some "cm") None]]))
  /\ forall (instance : Type) (instances : gmap string instance),
       extract_physical_dimensions instances (Some "14 cm x 10 cm")
       = Run []
           [DimensionRecord PhysicalDimension "14 cm" "14.0" (instances !! "cm");
            DimensionRecord PhysicalDimension "10 cm" "10.0" (instances !! "cm")]
           (Return tt).
Proof.
  split; [vm_compute; reflexivity|].
  intros. apply extract_14_cm_x_10_cm.
Qed.

(** The statement of [C4] as written fails: the values of the two records
    are not "14" and "10". *)
Lemma C4_counterexample :
  ~ (forall (instance : Type) (instances : gmap string instance),
        List.map dim_value
          (yielded (extract_physical_dimensions instances (Some "14 cm x 10 cm")))
        = ["14"; "10"]).
Proof.
  intros H. specialize (H Datatypes.unit ∅).
  rewrite extract_14_cm_x_10_cm in H. discriminate.
Qed.

(** ** Monetary amounts *)

Section Monetary.

Context {instance : Type} (instances : gmap string instance).

(** The object returned has the class chosen with the fields. *)
Lemma extract_monetary_amount_class data ws a :
  extract_monetary_amount instances data = (ws, Return (Some a)) ->
  amount_class_of a = fst (fst (fst (fst (fields data)))).
Proof.
  unfold extract_monetary_amount.
  destruct (fields data) as [[[[cls pa] pc] note] cite]. simpl.
  destruct (truthy pa || truthy pc); [|discriminate].
  destruct pa as [[|c t]|]; [| destruct (PyFloat.of_string (cleaned (String c t))) |];
    cbv beta iota; unmonad; intros H;
    apply bind_Return in H as (ws1 & [pc' cur] & ws2 & _ & H & _);
    now injection H as _ <-.
Qed.

(** The amount text that [float] rejects: no value, and the text as it
    was read is the name. *)
Lemma extract_monetary_amount_not_float data cls text pc note cite :
  fields data = (cls, Some text, pc, note, cite) ->
  text <> EmptyString ->
  PyFloat.of_string (cleaned text) = None ->
  exists ws a,
    extract_monetary_amount instances data = (ws, Return (Some a))
    /\ amount_class_of a = cls /\ value a = None /\ identified_by a = [text].
Proof.
  intros Hf Hne Hfloat. unfold extract_monetary_amount. rewrite Hf.
  destruct text as [|c t]; [contradiction|]. cbn [truthy Py.nonempty orb].
  rewrite Hfloat. unmonad.
  match goal with
  | |- context [bind ?m _] => destruct m as [ws1 [[pc' cur]|e]] eqn:Hm
  end.
  - do 2 eexists. split; [reflexivity|]. repeat split; reflexivity.
  - destruct pc as [[|pc0 pct]|]; try discriminate.
    destruct (instances !! _); discriminate.
Qed.

Lemma extract_est_price_100_pounds :
  let data : gmap string string :=
    list_to_map [("est_price", "x"); ("est_price_amount", "100[?]");
                 ("est_price_currency", "pounds")] in
  exists ws a,
    extract_monetary_amount instances data = (ws, Return (Some a))
    /\ amount_class_of a = EstimatedPrice
    /\ value a = Some (PyFloat.of_Z 100)
    /\ currency a = instances !! "gb pounds".
Proof.
  intros data. unfold extract_monetary_amount.
  assert (Hf : fields data
               = (EstimatedPrice, Some "100[?]", Some "pounds", None, None))
    by (vm_compute; reflexivity).
  rewrite Hf. cbn [truthy Py.nonempty orb].
  assert (Hx : PyFloat.of_string (cleaned "100[?]") = Some (PyFloat.of_Z 100))
    by (vm_compute; reflexivity).
  rewrite Hx.
  assert (Hc : (if bool_decide (is_Some (MAPPING !! "pounds"))
                then match MAPPING !! Py.lower "pounds" with
                     | Some c' => c'
                     | None => "pounds"
                     end
                else "pounds") = "gb pounds")
    by (vm_compute; reflexivity).
  rewrite Hc. unmonad.
  destruct (instances !! "gb pounds") as [i|];
    do 2 eexists; (split; [reflexivity|]); repeat split; reflexivity.
Qed.

End Monetary.

Lemma fields_est_price data :
  is_Some (data !! "est_price") ->
  fst (fst (fst (fst (fields data)))) = EstimatedPrice.
Proof.
  intros H. unfold fields. now rewrite (bool_decide_eq_true_2 _ H).
Qed.

(** [C7]  Whenever the record has the key "est_price", the object returned
    is of the estimated-price class, whatever other keys are present.  For
    the record with "est_price", the amount "100[?]" and the currency
    "pounds", the amount text is cleaned to "100", the value is the float
    100.0, and the currency is what the registry holds under "gb pounds",
    the name the alias table gives for "pounds". *)
Theorem C7_estimated_price :
  (forall (instance : Type) (instances : gmap string instance) data ws a,
      is_Some (data !! "est_price") ->
      extract_monetary_amount instances data = (ws, Return (Some a)) ->
      amount_class_of a = EstimatedPrice)
  /\ cleaned "100[?]" = "100"
  /\ PyFloat.of_string "100" = Some (PyFloat.of_Z 100)
  /\ PyRepr.repr (PyFloat.of_Z 100) = "100.0"
  /\ MAPPING !! "pounds" = Some "gb pounds"
  /\ (forall (instance : Type) (instances : gmap string instance),
        let data : gmap string string :=
          list_to_map [("est_price", "x"); ("est_price_amount", "100[?]");
                       ("est_price_currency", "pounds")] in
        exists ws a,
          extract_monetary_amount instances data = (ws, Return (Some a))
          /\ amount_class_of a = EstimatedPrice
          /\ value a = Some (PyFloat.of_Z 100)
          /\ currency a = instances !! "gb pounds").
Proof.
  split; [|repeat (split; [vm_compute; reflexivity|])].
  - intros instance instances data ws a Hk H.
    rewrite (extract_monetary_amount_class _ _ _ _ H).
    now apply fields_est_price.
  - intros. apply extract_est_price_100_pounds.
Qed.

Lemma C7_witness :
  amount_class_of
    (Amount EstimatedPrice [] (Some (PyFloat.of_Z 100)) (Some "100.0 gb pounds")
       [] (Some 7%nat))
  = EstimatedPrice.
Proof.
  destruct C7_estimated_price as [H _].
  apply (H nat (<["gb pounds" := 7%nat]> ∅)
           (list_to_map [("est_price", "x"); ("est_price_amount", "100[?]");
                         ("est_price_currency", "pounds"); ("start_price", "y");
                         ("price", "z")])
           []).
  - vm_compute. eexists. reflexivity.
  - vm_compute. reflexivity.
Defined.

(** [C8]  When the amount text read from the record is not empty and,
    once the markers "[?]" and "?" and the surrounding blanks are
    removed, is no float literal, the extraction raises nothing and
    returns an object of the chosen class without a value, whose name is
    the amount text as it was read from the record, markers and blanks
    included.  The record with "price" and the amount "abc" gives a
    plain price without value named "abc". *)
Theorem C8_non_numeric_amount :
  (forall (instance : Type) (instances : gmap string instance)
          data cls text pc note cite,
      fields data = (cls, Some text, pc, note, cite) ->
      text <> EmptyString ->
      PyFloat.of_string (cleaned text) = None ->
      exists ws a,
        extract_monetary_amount instances data = (ws, Return (Some a))
        /\ amount_class_of a = cls /\ value a = None /\ identified_by a = [text])
  /\ (forall (instance : Type) (instances : gmap string instance),
        extract_monetary_amount instances
          (list_to_map [("price", "x"); ("price_amount", "abc")])
        = ([], Return (Some (Amount MonetaryAmount [] None (Some "abc") ["abc"] None)))).
Proof.
  split.
  - intros. eapply extract_monetary_amount_not_float; eauto.
  - intros. vm_compute. reflexivity.
Qed.

Lemma C8_witness :
  exists ws a,
    extract_monetary_amount (∅ : gmap string nat)
      (list_to_map [("start_price", " 12 or 13? ")])
    = (ws, Return (Some a))
    /\ amount_class_of a = StartingPrice /\ value a = None
    /\ identified_by a = [" 12 or 13? "].
Proof.
  destruct C8_non_numeric_amount as [H _].
  apply (H nat ∅ _ StartingPrice " 12 or 13? " None None None).
  - vm_compute. reflexivity.
  - discriminate.
  - vm_compute. reflexivity.
Defined.

(** The statement of [C8] as written fails: for the amount "abc?" the
    name is "abc?", not the cleaned text "abc". *)
Lemma C8_counterexample :
  ~ (forall (instance : Type) (instances : gmap string instance)
            data cls text pc note cite,
        fields data = (cls, Some text, pc, note, cite) ->
        text <> EmptyString ->
        PyFloat.of_string (cleaned text) = None ->
        exists ws a,
          extract_monetary_amount instances data = (ws, Return (Some a))
          /\ value a = None /\ identified_by a = [cleaned text]).
Proof.
  intros H.
  destruct (H nat ∅ (list_to_map [("price", "x"); ("price_amount", "abc?")])
              MonetaryAmount "abc?" None None None)
    as (ws & a & E & _ & Hn).
  - vm_compute. reflexivity.
  - discriminate.
  - vm_compute. reflexivity.
  - assert (E' : extract_monetary_amount (∅ : gmap string nat)
                   (list_to_map [("price", "x"); ("price_amount", "abc?")])
                 = ([], Return (Some (Amount MonetaryAmount [] None (Some "abc?")
                                        ["abc?"] None))))
      by (vm_compute; reflexivity).
    rewrite E' in E. injection E as _ <-. simpl in Hn.
    assert (Hc : cleaned "abc?" = "abc") by (vm_compute; reflexivity).
    rewrite Hc in Hn. discriminate.
Qed.

(** * Further properties *)

(** ** The parser on arbitrary input *)

Lemma parse_loop_warnings ms : forall which dims0,
  Forall token ms ->
  forall w, In w (warnings_of (parse_loop ms which dims0)) ->
            (exists v, w = Unknown_which v) \/ (exists t, w = Failed_to_canonicalize t).
Proof.
  induction ms as [|m ms IH]; intros which dims0 Hall w.
  - simpl. destruct dims0; intros [].
  - inversion Hall as [|? ? Hm Hrest]; subst.
    pose proof (token_unit m Hm) as H3.
    destruct Hm as [(c & t & H2 & Hc) _].
    destruct (canonical_value_digit c t Hc) as (t' & _ & Hv).
    destruct (canonical_which_total which) as (ws1 & axis & Hw & Hax).
    destruct (Py.contains "/" (String c t')) eqn:Hs.
    + cbn [parse_loop]. rewrite H2, Hv. unmonad. simpl.
      intros [<-|[]]. right. eauto.
    + rewrite (parse_loop_step m ms which dims0 _ _ ws1 axis H2 Hv ltac:(discriminate) H3 Hw).
      unfold warnings_of. cbn [fst]. intros Hin.
      apply in_app_iff in Hin as [Hin|Hin].
      * left. eapply canonical_which_warnings; eauto.
      * eapply IH; eauto.
Qed.

Lemma parse_total value hint :
  exists ws r,
    parse_simple_dimensions value hint = (ws, Return r)
    /\ (r = None \/ exists d dims, r = Some (d :: dims))
    /\ forall w, In w ws ->
                 (exists v, w = Unknown_which v)
                 \/ (exists t, w = Failed_to_canonicalize t).
Proof.
  destruct value as [value|];
    [|exists [], None; split; [reflexivity|split; [auto|intros w []]]].
  unfold parse_simple_dimensions.
  pose proof (finditer_tokens (Py.strip value)) as Htok.
  destruct (parse_loop_tokens _ hint [] Htok) as (ws & r & E & _).
  exists ws, r. split; [assumption|]. split.
  - destruct r as [dims|]; [|now left]. right.
    apply parse_loop_Some in E as [Hne _].
    destruct dims as [|d dims]; [contradiction|eauto].
  - intros w Hin. apply (parse_loop_warnings _ hint [] Htok w).
    rewrite E. exact Hin.
Qed.

(** [X1]  The parser never raises: on every text and every hint it
    returns None or a list that is not empty, and the only warnings it
    emits are the unknown-axis warning and the failed-canonicalization
    warning.  Without a text it returns None silently. *)
Theorem X1_parse_simple_dimensions_total :
  (forall value hint,
      exists ws r,
        parse_simple_dimensions value hint = (ws, Return r)
        /\ (r = None \/ exists d dims, r = Some (d :: dims))
        /\ forall w, In w ws ->
                     (exists v, w = Unknown_which v)
                     \/ (exists t, w = Failed_to_canonicalize t))
  /\ forall hint, parse_simple_dimensions None hint = ([], Return None).
Proof.
  split; [|reflexivity]. intros. apply parse_total.
Qed.

(** ** The normalizer on arbitrary groups *)

Lemma normalize_loop_Completed dims : forall l ws l',
  normalize_loop dims l = (ws, Return (Completed, l')) ->
  ws = [] /\ Forall (fun d => In (Dimension.unit d) canonical_units) dims
  /\ which l' = List.last (List.map Dimension.which dims) (which l).
Proof.
  induction dims as [|d dims IH]; intros l ws l'.
  - simpl. intros [= <- <-]. auto.
  - cbn [normalize_loop].
    assert (Hstep : forall f : PyFloat.float -> locals,
      (forall x, which (f x) = Dimension.which d) ->
      (x ← float (Dimension.value d); normalize_loop dims (f x))
        = (ws, Return (Completed, l')) ->
      ws = [] /\ Forall (fun d => In (Dimension.unit d) canonical_units) dims
      /\ which l' = List.last (List.map Dimension.which dims) (Dimension.which d)).
    { intros f Hf H. unmonad.
      apply bind_Return in H as (ws1 & x & ws2 & Hx & H & ->).
      apply float_Return in Hx as [-> _].
      apply IH in H as (-> & Hu & Hl). rewrite Hf in Hl. auto. }
    assert (Hlast : forall a b,
      List.last (List.map Dimension.which dims) (Dimension.which d) = a ->
      List.last (List.map Dimension.which (d :: dims)) b = a).
    { intros a b <-. simpl List.map. apply last_cons. }
    destruct (Py.is_str (Dimension.unit d) "inches") eqn:Hi.
    { intros H. apply Hstep in H as (-> & Hu & Hl); [|reflexivity].
      apply is_str_true in Hi.
      split; [reflexivity|]. split; [|symmetry; eapply Hlast; eauto].
      constructor; [rewrite Hi; simpl; tauto|assumption]. }
    destruct (Py.is_str (Dimension.unit d) "feet") eqn:Hf.
    { intros H. apply Hstep in H as (-> & Hu & Hl); [|reflexivity].
      apply is_str_true in Hf.
      split; [reflexivity|]. split; [|symmetry; eapply Hlast; eauto].
      constructor; [rewrite Hf; simpl; tauto|assumption]. }
    destruct (Py.is_str (Dimension.unit d) "cm") eqn:Hc.
    { intros H. apply Hstep in H as (-> & Hu & Hl); [|reflexivity].
      apply is_str_true in Hc.
      split; [reflexivity|]. split; [|symmetry; eapply Hlast; eauto].
      constructor; [rewrite Hc; simpl; tauto|assumption]. }
    destruct (Dimension.unit d) as [u|] eqn:Hu'.
    + unmonad. simpl. discriminate.
    + intros H. apply Hstep in H as (-> & Hu & Hl); [|reflexivity].
      split; [reflexivity|]. split; [|symmetry; eapply Hlast; eauto].
      constructor; [rewrite Hu'; simpl; tauto|assumption].
Qed.

Lemma normalize_dimension_result dims ws nd :
  normalize_dimension dims = (ws, Return (Some nd)) ->
  ws = []
  /\ dims <> []
  /\ Forall (fun d => In (Dimension.unit d) canonical_units) dims
  /\ In (Dimension.unit nd) [Some "inches"; Some "cm"; None]
  /\ Dimension.which nd = List.last (List.map Dimension.which dims) None.
Proof.
  intros H.
  apply normalize_dimension_Some in H as (l & Hloop & Hused & Hw & Hnd).
  pose proof (normalize_loop_Completed _ _ _ _ Hloop) as (-> & Hu & Hl).
  split; [reflexivity|]. split.
  - intros ->. simpl in Hloop. injection Hloop as <-. discriminate.
  - split; [assumption|]. split.
    + rewrite Hnd.
      destruct (PyNum.nonzero (inches l)); [|destruct (PyNum.nonzero (cm l))];
        simpl; tauto.
    + rewrite Hw, Hl. reflexivity.
Qed.

(** [X2]  What a successful normalization looks like, for any group: no
    warning was emitted, the group is not empty and all its units are
    among inches, feet, cm and None; the unit of the result is inches, cm
    or None, never feet; and its axis is the axis of the last measurement
    of the group, whatever the axes of the others. *)
Theorem X2_normalize_dimension_result :
  forall dims ws nd,
    normalize_dimension dims = (ws, Return (Some nd)) ->
    ws = []
    /\ dims <> []
    /\ Forall (fun d => In (Dimension.unit d) canonical_units) dims
    /\ In (Dimension.unit nd) [Some "inches"; Some "cm"; None]
    /\ Dimension.which nd = List.last (List.map Dimension.which dims) None.
Proof. intros. now apply normalize_dimension_result.
Qed.

Lemma X2_witness :
  [] = @nil warning
  /\ [Dimension.make "1" (Some "feet") (Some "height");
      Dimension.make "2" (Some "inches") (Some "width")] <> []
  /\ Forall (fun d => In (Dimension.unit d) canonical_units)
       [Dimension.make "1" (Some "feet") (Some "height");
        Dimension.make "2" (Some "inches") (Some "width")]
  /\ In (Dimension.unit (Dimension.make "14.0" (Some "inches") (Some "width")))
       [Some "inches"; Some "cm"; None]
  /\ Dimension.which (Dimension.make "14.0" (Some "inches") (Some "width"))
     = List.last
         (List.map Dimension.which
            [Dimension.make "1" (Some "feet") (Some "height");
             Dimension.make "2" (Some "inches") (Some "width")]) None.
Proof.
  apply (X2_normalize_dimension_result
           [Dimension.make "1" (Some "feet") (Some "height");
            Dimension.make "2" (Some "inches") (Some "width")] []).
  vm_compute. reflexivity.
Defined.

Lemma normalize_loop_warnings dims : forall l w,
  In w (warnings_of (normalize_loop dims l)) -> exists u, w = Unrecognized_unit u.
Proof.
  induction dims as [|d dims IH]; intros l w; [intros []|].
  cbn [normalize_loop].
  assert (Hstep : forall f : PyFloat.float -> locals,
    In w (warnings_of (x ← float (Dimension.value d); normalize_loop dims (f x))) ->
    exists u, w = Unrecognized_unit u).
  { intros f Hin. unmonad.
    apply bind_warnings in Hin as [Hin|(x & _ & Hin)].
    - rewrite float_warnings in Hin. destruct Hin.
    - eapply IH; eauto. }
  destruct (Py.is_str (Dimension.unit d) "inches"); [apply Hstep|].
  destruct (Py.is_str (Dimension.unit d) "feet"); [apply Hstep|].
  destruct (Py.is_str (Dimension.unit d) "cm"); [apply Hstep|].
  destruct (Dimension.unit d) as [u|]; [|apply Hstep].
  unmonad. simpl. intros [<-|[]]. eauto.
Qed.

Lemma normalize_dimension_warnings dims w :
  In w (warnings_of (normalize_dimension dims)) ->
  w = Mixed_unit_systems dims \/ exists u, w = Unrecognized_unit u.
Proof.
  unfold normalize_dimension. unmonad. intros Hin.
  apply bind_warnings in Hin as [Hin|([ex l] & _ & Hin)].
  - right. eapply normalize_loop_warnings; eauto.
  - destruct ex; [|destruct Hin].
    destruct (negb _); [|destruct (PyNum.nonzero (inches l));
                          [|destruct (PyNum.nonzero (cm l))]];
      simpl in Hin; try (destruct Hin).
    + now left.
    + destruct H.
Qed.

(** [X3]  The label loop of [normalized_dimension_object] cannot fail
    once [normalize_dimension] has succeeded: for every group, when
    [normalize_dimension] returns a dimension, the object is that
    dimension with the joined label, and the label loop's
    unrecognized-unit warning is never emitted, on any group. *)
Theorem X3_label_never_fails :
  (forall dims ws nd,
      normalize_dimension dims = (ws, Return (Some nd)) ->
      normalized_dimension_object dims
      = ([], Return (Some (nd, Py.join ", " (List.map measurement_text dims)))))
  /\ forall dims,
       ~ In Unrecognized_unit_label (warnings_of (normalized_dimension_object dims)).
Proof.
  assert (H1 : forall dims ws nd,
      normalize_dimension dims = (ws, Return (Some nd)) ->
      normalized_dimension_object dims
      = ([], Return (Some (nd, Py.join ", " (List.map measurement_text dims))))).
  { intros dims ws nd H.
    pose proof (normalize_dimension_result _ _ _ H) as (-> & _ & Hu & _).
    destruct (labels_loop_canonical dims [] Hu) as [labels Hl].
    pose proof (labels_loop_Some _ _ _ _ Hl) as ->.
    unfold normalized_dimension_object. unmonad. rewrite H. simpl.
    rewrite Hl. reflexivity. }
  split; [exact H1|].
  intros dims Hin.
  destruct (normalize_dimension dims) as [ws [[nd|]|e]] eqn:E.
  - rewrite (H1 _ _ _ E) in Hin. destruct Hin.
  - assert (Hw : In Unrecognized_unit_label (warnings_of (normalize_dimension dims))).
    { unfold normalized_dimension_object in Hin. unmonad. rewrite E in Hin.
      simpl in Hin. rewrite app_nil_r in Hin. rewrite E. exact Hin. }
    apply normalize_dimension_warnings in Hw as [Hw|[u Hw]]; discriminate.
  - assert (Hw : In Unrecognized_unit_label (warnings_of (normalize_dimension dims))).
    { unfold normalized_dimension_object in Hin. unmonad. rewrite E in Hin.
      simpl in Hin. rewrite E. exact Hin. }
    apply normalize_dimension_warnings in Hw as [Hw|[u Hw]]; discriminate.
Qed.

Lemma X3_witness :
  normalized_dimension_object
    [Dimension.make "2" (Some "feet") None; Dimension.make "0.5" (Some "feet") None]
  = ([], Return (Some (Dimension.make "30.0" (Some "inches") None,
                       Py.join ", "
                         (List.map measurement_text
                            [Dimension.make "2" (Some "feet") None;
                             Dimension.make "0.5" (Some "feet") None])))).
Proof.
  destruct X3_label_never_fails as [H _].
  apply (H _ []). vm_compute. reflexivity.
Defined.

(** Accumulators that count as false stay so when a zero is added. *)
Lemma iadd_zero n x :
  PyNum.nonzero n = false -> PyFloat.nonzero x = false ->
  PyNum.nonzero (PyNum.iadd n x) = false.
Proof.
  destruct x as [sx| | |]; try discriminate. intros Hn _.
  destruct n as [z|[sn| | |]]; try discriminate.
  - simpl in Hn. apply negb_false_iff, Z.eqb_eq in Hn. subst z.
    destruct sx; reflexivity.
  - destruct sn, sx; reflexivity.
Qed.

Lemma mul_12_zero x :
  PyFloat.nonzero x = false ->
  PyFloat.nonzero (PyFloat.mul (PyFloat.of_Z 12) x) = false.
Proof. destruct x as [sx| | |]; try discriminate. intros _. reflexivity. Qed.

Ltac zero_acc :=
  cbn [unknown inches cm];
  first [ assumption
        | apply iadd_zero;
          [assumption | first [assumption | apply mul_12_zero; assumption]] ].

Lemma normalize_loop_zero dims : forall l,
  Forall (fun d => In (Dimension.unit d) canonical_units
                   /\ exists x, PyFloat.of_string (Dimension.value d) = Some x
                                /\ PyFloat.nonzero x = false) dims ->
  PyNum.nonzero (unknown l) = false ->
  PyNum.nonzero (inches l) = false ->
  PyNum.nonzero (cm l) = false ->
  exists l', normalize_loop dims l = ([], Return (Completed, l'))
             /\ used_systems l' = 0%nat.
Proof.
  induction dims as [|d dims IH]; intros l Hall Hu Hi Hc.
  - exists l. split; [reflexivity|]. unfold used_systems. simpl.
    now rewrite Hu, Hi, Hc.
  - inversion Hall as [|? ? (Hd & x & Hx & Hz) Hrest]; subst.
    cbn [normalize_loop]. unfold float. rewrite Hx. unmonad.
    unfold canonical_units in Hd. simpl in Hd.
    destruct Hd as [E|[E|[E|[E|[]]]]]; rewrite <- E; simpl;
      match goal with
      | |- context [normalize_loop dims ?l0] =>
          destruct (IH l0 Hrest ltac:(zero_acc) ltac:(zero_acc) ltac:(zero_acc))
            as (l' & Hl & Hl');
          rewrite Hl; exists l'; split; [reflexivity|assumption]
      end.
Qed.

(** [X4]  A group whose values are all zero does not normalize: when every
    unit is among inches, feet, cm and None and every value is read by
    [float] as a zero, [normalize_dimension] returns None with the
    mixed-systems warning, since no accumulator counts as used.  The empty
    group is the least such group. *)
Theorem X4_zero_group_is_rejected :
  forall dims,
    Forall (fun d => In (Dimension.unit d) canonical_units
                     /\ exists x, PyFloat.of_string (Dimension.value d) = Some x
                                  /\ PyFloat.nonzero x = false) dims ->
    normalize_dimension dims = ([Mixed_unit_systems dims], Return None).
Proof.
  intros dims Hall.
  destruct (normalize_loop_zero dims initial Hall eq_refl eq_refl eq_refl)
    as (l' & Hloop & Hused).
  rewrite (normalize_dimension_of_loop _ _ _ _ Hloop). now rewrite Hused.
Qed.

Lemma X4_witness :
  normalize_dimension
    [Dimension.make "0" (Some "feet") None; Dimension.make "0.0" (Some "inches") None]
  = ([Mixed_unit_systems
        [Dimension.make "0" (Some "feet") None;
         Dimension.make "0.0" (Some "inches") None]], Return None).
Proof.
  apply X4_zero_group_is_rejected.
  repeat constructor; simpl; try tauto;
    eexists; (split; [vm_compute; reflexivity|reflexivity]).
Defined.

(** ** Monetary amounts: currency, label and keys *)

(** The keys of the alias table are in lower case: the lookup under
    [price_currency.lower()] finds what is stored under [price_currency],
    and the [KeyError] handler is never entered. *)
Lemma MAPPING_lower c v : MAPPING !! c = Some v -> MAPPING !! Py.lower c = Some v.
Proof.
  intros H. pose proof H as H'. unfold MAPPING in H'.
  apply elem_of_list_to_map_2 in H'.
  repeat (apply elem_of_cons in H' as [H'|H'];
          [injection H' as -> ->; vm_compute; reflexivity|]).
  apply elem_of_nil in H'. destruct H'.
Qed.

(** The name under which the currency is looked up in the registry. *)
Lemma currency_name c :
  (if bool_decide (is_Some (MAPPING !! c))
   then match MAPPING !! Py.lower c with
        | Some c' => c'
        | None => c
        end
   else c) = default c (MAPPING !! c).
Proof.
  destruct (MAPPING !! c) as [v|] eqn:E.
  - rewrite bool_decide_eq_true_2 by eauto.
    now rewrite (MAPPING_lower _ _ E).
  - rewrite bool_decide_eq_false_2; [reflexivity|].
    intros [v Hv]. discriminate.
Qed.

Lemma currency_name_truthy c0 ct :
  truthy (Some (default (String c0 ct) (MAPPING !! String c0 ct))) = true.
Proof.
  destruct (MAPPING !! String c0 ct) as [v|] eqn:E; [|reflexivity].
  unfold MAPPING in E. apply elem_of_list_to_map_2 in E.
  repeat (apply elem_of_cons in E as [E|E];
          [apply (f_equal snd) in E; simpl in E; subst v; reflexivity|]).
  apply elem_of_nil in E. destruct E.
Qed.

Section Monetary_more.

Context {instance : Type} (instances : gmap string instance).

(** The function in terms of the fields it reads. *)
Lemma extract_monetary_amount_fields data data' :
  fields data = fields data' ->
  extract_monetary_amount instances data = extract_monetary_amount instances data'.
Proof. intros H. unfold extract_monetary_amount. now rewrite H. Qed.

Lemma extract_currency data cls pa c note cite :
  fields data = (cls, pa, Some c, note, cite) ->
  c <> EmptyString ->
  exists ws a,
    extract_monetary_amount instances data = (ws, Return (Some a))
    /\ currency a = instances !! default c (MAPPING !! c)
    /\ ws = match instances !! default c (MAPPING !! c) with
            | Some _ => []
            | None => [No_currency_instance (default c (MAPPING !! c))]
            end.
Proof.
  intros Hf Hne. unfold extract_monetary_amount. rewrite Hf.
  destruct c as [|c0 ct]; [contradiction|].
  replace (truthy pa || truthy (Some (String c0 ct))) with true
    by (cbn [truthy Py.nonempty]; now rewrite orb_true_r).
  rewrite currency_name.
  destruct pa as [[|p0 pt]|];
    [|destruct (PyFloat.of_string (cleaned (String p0 pt)))|];
    cbv beta iota; unmonad;
    destruct (instances !! default (String c0 ct) (MAPPING !! String c0 ct));
    do 2 eexists; (split; [reflexivity|]); split; reflexivity.
Qed.

Lemma extract_float_amount data cls text pc note cite x :
  fields data = (cls, Some text, pc, note, cite) ->
  text <> EmptyString ->
  PyFloat.of_string (cleaned text) = Some x ->
  exists ws a,
    extract_monetary_amount instances data = (ws, Return (Some a))
    /\ value a = Some x
    /\ identified_by a = []
    /\ _label a
       = if PyFloat.nonzero x
         then match pc with
              | Some (String _ _ as c) =>
                  Some (String.append (PyRepr.repr x)
                          (String.append " " (default c (MAPPING !! c))))
              | _ => Some (PyRepr.repr x)
              end
         else None.
Proof.
  intros Hf Hne Hx. unfold extract_monetary_amount. rewrite Hf.
  destruct text as [|t0 tt]; [contradiction|]. cbn [truthy Py.nonempty orb].
  rewrite Hx. cbv beta iota.
  destruct pc as [[|c0 ct]|]; unmonad.
  - do 2 eexists. split; [reflexivity|].
    cbn [value identified_by _label price_truthy truthy Py.nonempty].
    rewrite andb_false_r. destruct (PyFloat.nonzero x); auto.
  - rewrite currency_name.
    destruct (instances !! default (String c0 ct) (MAPPING !! String c0 ct));
      do 2 eexists; (split; [reflexivity|]);
      cbn [value identified_by _label price_truthy default];
      rewrite currency_name_truthy, andb_true_r;
      destruct (PyFloat.nonzero x); auto.
  - do 2 eexists. split; [reflexivity|].
    cbn [value identified_by _label price_truthy truthy]. rewrite andb_false_r.
    destruct (PyFloat.nonzero x); auto.
Qed.

Lemma extract_nothing data cls pa pc note cite :
  fields data = (cls, pa, pc, note, cite) ->
  truthy pa = false -> truthy pc = false ->
  extract_monetary_amount instances data = ([], Return None).
Proof.
  intros Hf Ha Hc. unfold extract_monetary_amount. rewrite Hf, Ha, Hc. reflexivity.
Qed.

Lemma extract_referred_to_by data cls pa pc note cite ws a :
  fields data = (cls, pa, pc, note, cite) ->
  extract_monetary_amount instances data = (ws, Return (Some a)) ->
  referred_to_by a
  = (if truthy cite then [BibliographyStatement (default "" cite)] else [])
      ++ (if truthy note then [Note (default "" note)] else []).
Proof.
  intros Hf. unfold extract_monetary_amount. rewrite Hf.
  destruct (truthy pa || truthy pc); [|discriminate].
  destruct pa as [[|p0 pt]|];
    [|destruct (PyFloat.of_string (cleaned (String p0 pt)))|];
    cbv beta iota; unmonad; intros H;
    apply bind_Return in H as (ws1 & [pc' cur] & ws2 & _ & H & _);
    injection H as _ <-; cbn [referred_to_by];
    destruct cite as [[|? ?]|]; destruct note as [[|? ?]|]; reflexivity.
Qed.

End Monetary_more.

Lemma fields_insert_est data k v :
  is_Some (data !! "est_price") -> ~ In k (variant_keys "est_price") ->
  fields (<[k := v]> data) = fields data.
Proof.
  intros He Hk.
  assert (Hne : forall s, In s (variant_keys "est_price") -> k <> s)
    by (intros s Hs ->; contradiction).
  unfold fields.
  rewrite (lookup_insert_ne data k "est_price") by (apply Hne; vm_compute; tauto).
  rewrite (bool_decide_eq_true_2 _ He). unfold get2.
  rewrite !lookup_insert_ne by (apply Hne; vm_compute; tauto).
  reflexivity.
Qed.

Lemma fields_insert_start data k v :
  data !! "est_price" = None -> is_Some (data !! "start_price") ->
  k <> "est_price" -> ~ In k (variant_keys "start_price") ->
  fields (<[k := v]> data) = fields data.
Proof.
  intros He Hs Hk0 Hk.
  assert (Hne : forall s, In s (variant_keys "start_price") -> k <> s)
    by (intros s Hin ->; contradiction).
  unfold fields.
  rewrite (lookup_insert_ne data k "est_price") by assumption.
  rewrite He. rewrite bool_decide_eq_false_2 by (intros [? ?]; discriminate).
  rewrite (lookup_insert_ne data k "start_price") by (apply Hne; vm_compute; tauto).
  rewrite (bool_decide_eq_true_2 _ Hs). unfold get2.
  rewrite !lookup_insert_ne by (apply Hne; vm_compute; tauto).
  reflexivity.
Qed.

Lemma fields_insert_price data k v :
  data !! "est_price" = None -> data !! "start_price" = None ->
  k <> "est_price" -> k <> "start_price" -> ~ In k (variant_keys "price") ->
  fields (<[k := v]> data) = fields data.
Proof.
  intros He Hs Hk0 Hk1 Hk.
  assert (Hne : forall s, In s (variant_keys "price") -> k <> s)
    by (intros s Hin ->; contradiction).
  unfold fields.
  rewrite (lookup_insert_ne data k "est_price") by assumption.
  rewrite (lookup_insert_ne data k "start_price") by assumption.
  rewrite He, Hs. rewrite bool_decide_eq_false_2 by (intros [? ?]; discriminate).
  unfold get2.
  rewrite !lookup_insert_ne by (apply Hne; vm_compute; tauto).
  reflexivity.
Qed.

(** [X5]  The currency of a record.  When the currency text is not empty,
    the object is returned with the registry's instance for the alias of
    the text, or for the text itself when the alias table does not list
    it; when the registry has no such instance the object has no currency
    and the only warning names the looked-up name, and otherwise there is
    no warning.  The keys of the alias table are their own lower-case
    form, so the lookup under the lower-cased text always finds the
    alias. *)
Theorem X5_currency_resolution :
  (forall (instance : Type) (instances : gmap string instance)
          data cls pa c note cite,
      fields data = (cls, pa, Some c, note, cite) ->
      c <> EmptyString ->
      exists ws a,
        extract_monetary_amount instances data = (ws, Return (Some a))
        /\ currency a = instances !! default c (MAPPING !! c)
        /\ ws = match instances !! default c (MAPPING !! c) with
                | Some _ => []
                | None => [No_currency_instance (default c (MAPPING !! c))]
                end)
  /\ forall c v, MAPPING !! c = Some v -> MAPPING !! Py.lower c = Some v.
Proof.
  split.
  - intros. eapply extract_currency; eauto.
  - apply MAPPING_lower.
Qed.

Lemma X5_witness :
  exists ws a,
    extract_monetary_amount (<["de florins" := 3%nat]> ∅)
      (list_to_map [("start_price", "12"); ("start_price_curr", "fl.")])
    = (ws, Return (Some a))
    /\ currency a = (<["de florins" := 3%nat]> ∅ : gmap string nat)
                      !! default "fl." (MAPPING !! "fl.")
    /\ ws = match (<["de florins" := 3%nat]> ∅ : gmap string nat)
                  !! default "fl." (MAPPING !! "fl.") with
            | Some _ => []
            | None => [No_currency_instance (default "fl." (MAPPING !! "fl."))]
            end.
Proof.
  destruct X5_currency_resolution as [H _].
  apply (H nat _ _ StartingPrice (Some "12") "fl." None None).
  - vm_compute. reflexivity.
  - discriminate.
Defined.

(** [X6]  A numeric amount.  When the amount text is not empty and, once
    cleaned, is read by [float] as [x], the object has the value [x] and no
    name.  Its label is the text of [x], followed by a blank and the
    looked-up currency name when there is a currency text; but when [x] is
    a zero the object gets no label at all, with or without a currency. *)
Theorem X6_numeric_amount_label :
  forall (instance : Type) (instances : gmap string instance)
         data cls text pc note cite x,
    fields data = (cls, Some text, pc, note, cite) ->
    text <> EmptyString ->
    PyFloat.of_string (cleaned text) = Some x ->
    exists ws a,
      extract_monetary_amount instances data = (ws, Return (Some a))
      /\ value a = Some x
      /\ identified_by a = []
      /\ _label a
         = if PyFloat.nonzero x
           then match pc with
                | Some (String _ _ as c) =>
                    Some (String.append (PyRepr.repr x)
                            (String.append " " (default c (MAPPING !! c))))
                | _ => Some (PyRepr.repr x)
                end
           else None.
Proof. intros. eapply extract_float_amount; eauto. Qed.

Lemma X6_witness :
  exists ws a,
    extract_monetary_amount (∅ : gmap string nat)
      (list_to_map [("price", " 0? "); ("price_currency", "pounds")])
    = (ws, Return (Some a))
    /\ value a = Some (S754_zero false)
    /\ identified_by a = []
    /\ _label a
       = if PyFloat.nonzero (S754_zero false)
         then match Some "pounds" with
              | Some (String _ _ as c) =>
                  Some (String.append (PyRepr.repr (S754_zero false))
                          (String.append " " (default c (MAPPING !! c))))
              | _ => Some (PyRepr.repr (S754_zero false))
              end
         else None.
Proof.
  apply (X6_numeric_amount_label nat ∅ _ MonetaryAmount " 0? " (Some "pounds")
           None None (S754_zero false)).
  - vm_compute. reflexivity.
  - discriminate.
  - vm_compute. reflexivity.
Defined.

(** [X7]  The function reads only the keys of the variant it selects.
    With "est_price" present, adding or changing any key other than the
    seven "est_price..." keys leaves the result unchanged; with
    "est_price" absent and "start_price" present the same holds for keys
    other than "est_price" and the seven "start_price..." keys; and with
    both absent for keys other than these two and the seven "price..."
    keys. *)
Theorem X7_reads_only_variant_keys :
  forall (instance : Type) (instances : gmap string instance) data k v,
    (is_Some (data !! "est_price") /\ ~ In k (variant_keys "est_price"))
    \/ (data !! "est_price" = None /\ is_Some (data !! "start_price")
        /\ k <> "est_price" /\ ~ In k (variant_keys "start_price"))
    \/ (data !! "est_price" = None /\ data !! "start_price" = None
        /\ k <> "est_price" /\ k <> "start_price"
        /\ ~ In k (variant_keys "price")) ->
    extract_monetary_amount instances (<[k := v]> data)
    = extract_monetary_amount instances data.
Proof.
  intros instance instances data k v H.
  apply extract_monetary_amount_fields.
  destruct H as [[He Hk]|[(He & Hs & Hk0 & Hk)|(He & Hs & Hk0 & Hk1 & Hk)]].
  - now apply fields_insert_est.
  - now apply fields_insert_start.
  - now apply fields_insert_price.
Qed.

Lemma X7_witness :
  extract_monetary_amount (∅ : gmap string nat)
    (<["price_amount" := "99"]>
       (list_to_map [("est_price", "5"); ("est_price_curr", "livres")]))
  = extract_monetary_amount (∅ : gmap string nat)
      (list_to_map [("est_price", "5"); ("est_price_curr", "livres")]).
Proof.
  apply X7_reads_only_variant_keys. left. split.
  - vm_compute. eexists. reflexivity.
  - vm_compute. intros H. repeat (destruct H as [H|H]; [discriminate|]). exact H.
Defined.

(** [X8]  Notes and citations.  A record whose amount and currency are
    both absent or empty gives None without a warning, even when it has a
    note or a citation.  Whenever an object is returned, what it refers to
    is the citation, if not empty, as a bibliography statement, followed
    by the note, if not empty, as a note. *)
Theorem X8_notes_and_citations :
  forall (instance : Type) (instances : gmap string instance)
         data cls pa pc note cite,
    fields data = (cls, pa, pc, note, cite) ->
    (truthy pa = false -> truthy pc = false ->
     extract_monetary_amount instances data = ([], Return None))
    /\ forall ws a,
         extract_monetary_amount instances data = (ws, Return (Some a)) ->
         referred_to_by a
         = (if truthy cite then [BibliographyStatement (default "" cite)] else [])
             ++ (if truthy note then [Note (default "" note)] else []).
Proof.
  intros instance instances data cls pa pc note cite Hf. split.
  - intros. eapply extract_nothing; eauto.
  - intros. eapply extract_referred_to_by; eauto.
Qed.

Lemma X8_witness :
  (truthy (Some "") = false -> truthy None = false ->
   extract_monetary_amount (∅ : gmap string nat)
     (list_to_map [("price", ""); ("price_note", "sold"); ("price_citation", "p. 3")])
   = ([], Return None))
  /\ forall ws a,
       extract_monetary_amount (∅ : gmap string nat)
         (list_to_map [("price", ""); ("price_note", "sold"); ("price_citation", "p. 3")])
       = (ws, Return (Some a)) ->
       referred_to_by a
       = (if truthy (Some "p. 3")
          then [BibliographyStatement (default "" (Some "p. 3"))] else [])
           ++ (if truthy (Some "sold") then [Note (default "" (Some "sold"))] else []).
Proof.
  apply (X8_notes_and_citations nat ∅ _ MonetaryAmount (Some "") None
           (Some "sold") (Some "p. 3")).
  vm_compute. reflexivity.
Defined.

(** ** The canonical value *)

Lemma contains_nil_r sub : Py.contains sub EmptyString = String.prefix sub EmptyString.
Proof. simpl. apply orb_false_r. Qed.

Lemma contains_cons sub a t :
  Py.contains sub (String a t) = String.prefix sub (String a t) || Py.contains sub t.
Proof. reflexivity. Qed.

Lemma prefix_char ch a t :
  String.prefix (String ch EmptyString) (String a t) = Ascii.eqb ch a.
Proof.
  simpl. destruct (ascii_dec ch a) as [->|Hne].
  - rewrite Ascii.eqb_refl. now destruct t.
  - symmetry. now apply Ascii.eqb_neq.
Qed.

Lemma contains_char_cons ch a t :
  Py.contains (String ch EmptyString) (String a t)
  = Ascii.eqb ch a || Py.contains (String ch EmptyString) t.
Proof.
  rewrite contains_cons. now rewrite prefix_char.
Qed.

Lemma contains_char_append ch x y :
  Py.contains (String ch EmptyString) (String.append x y)
  = Py.contains (String ch EmptyString) x || Py.contains (String ch EmptyString) y.
Proof.
  induction x as [|a x IH]; [reflexivity|].
  rewrite append_cons, !contains_char_cons, IH. now rewrite orb_assoc.
Qed.

(** Replacing a text that does not occur changes nothing. *)
Lemma replace_absent old new s :
  Py.contains old s = false -> Py.replace old new s = s.
Proof.
  unfold Py.replace. induction s as [|a t IH]; [reflexivity|].
  rewrite contains_cons. intros H. apply orb_false_elim in H as [Hp Hc].
  cbn [Py.replace_from]. rewrite Hp. now rewrite IH.
Qed.

(** A character that is neither in the subject nor in the replacement
    text is not in the result. *)
Lemma replace_from_keeps_absent ch old new s : forall skip,
  Py.contains (String ch EmptyString) s = false ->
  Py.contains (String ch EmptyString) new = false ->
  Py.contains (String ch EmptyString) (Py.replace_from old new skip s) = false.
Proof.
  induction s as [|a t IH]; intros skip Hs Hn; [reflexivity|].
  rewrite contains_char_cons in Hs. apply orb_false_elim in Hs as [Ha Ht].
  cbn [Py.replace_from]. destruct skip as [|k]; [|now apply IH].
  destruct (String.prefix old (String a t)).
  - rewrite contains_char_append, Hn. now apply IH.
  - rewrite contains_char_cons, Ha. now apply IH.
Qed.

(** After every comma is replaced by a dot no comma is left. *)
Lemma replace_comma s :
  Py.contains "," (Py.replace "," "." s) = false.
Proof.
  unfold Py.replace. induction s as [|a t IH]; [reflexivity|].
  cbn [Py.replace_from].
  rewrite (prefix_char "," a t).
  destruct (Ascii.eqb "," a) eqn:E.
  - change (String.append "." (Py.replace_from "," "." (Nat.pred (String.length ",")) t))
      with (String "." (Py.replace_from "," "." 0 t)).
    now rewrite contains_char_cons, IH.
  - now rewrite contains_char_cons, IH, E.
Qed.

(** A text that holds a character the subject lacks does not occur in the
    subject. *)
Lemma contains_absent ch old s :
  Py.contains (String ch EmptyString) old = true ->
  Py.contains (String ch EmptyString) s = false ->
  Py.contains old s = false.
Proof.
  intros Ho. induction s as [|a t IH]; intros Hs.
  - rewrite contains_nil_r. destruct old as [|o old']; [discriminate|].
    reflexivity.
  - rewrite contains_cons.
    destruct (String.prefix old (String a t)) eqn:Hp.
    + apply prefix_append in Hp as [u Hu]. rewrite Hu in Hs.
      rewrite contains_char_append, Ho in Hs. discriminate.
    + rewrite contains_char_cons in Hs. apply orb_false_elim in Hs as [_ Ht].
      now apply IH.
Qed.

Lemma substituted_no_comma text : Py.contains "," (substituted text) = false.
Proof.
  unfold substituted, Py.replace.
  do 3 (apply replace_from_keeps_absent; [|reflexivity]).
  apply replace_comma.
Qed.

(** [X9]  Every canonical value is free of slashes and of commas and does
    not start with a dot, and canonicalizing it again gives it back
    unchanged. *)
Theorem X9_canonical_value_is_canonical :
  forall text v,
    _canonical_value text = Some v ->
    Py.contains "/" v = false
    /\ Py.contains "," v = false
    /\ Py.startswith v "." = false
    /\ _canonical_value v = Some v.
Proof.
  intros text v H.
  assert (Hv : Py.contains "/" v = false /\ Py.contains "," v = false
               /\ Py.startswith v "." = false).
  { unfold _canonical_value in H. fold (substituted text) in H.
    pose proof (substituted_no_comma text) as Hc.
    destruct (Py.contains "/" (substituted text)) eqn:Hs; [discriminate|].
    destruct (Py.startswith (substituted text) ".") eqn:Hd; injection H as <-.
    - change (String.append "0" (substituted text))
        with (String "0" (substituted text)).
      rewrite !contains_char_cons, Hs, Hc. auto.
    - auto. }
  destruct Hv as (Hs & Hc & Hd). split; [assumption|].
  split; [assumption|]. split; [assumption|].
  unfold _canonical_value.
  rewrite (replace_absent "," "." v Hc).
  rewrite (replace_absent " 1/4" ".25" v)
    by (apply (contains_absent "/"); [reflexivity|assumption]).
  rewrite (replace_absent " 1/2" ".5" v)
    by (apply (contains_absent "/"); [reflexivity|assumption]).
  rewrite (replace_absent " 3/4" ".75" v)
    by (apply (contains_absent "/"); [reflexivity|assumption]).
  now rewrite Hs, Hd.
Qed.

Lemma X9_witness :
  Py.contains "/" "0.5" = false
  /\ Py.contains "," "0.5" = false
  /\ Py.startswith "0.5" "." = false
  /\ _canonical_value "0.5" = Some "0.5".
Proof.
  apply (X9_canonical_value_is_canonical ",5"). vm_compute. reflexivity.
Defined.

(** ** The matchers *)

(** A pattern changes only the groups it holds. *)
Lemma Matches_captures r s s' n :
  Re.Matches r s s' -> ~ In n (captures r) -> Re.caps s' n = Re.caps s n.
Proof.
  induction 1 as [s|w s Hp|p s c t Hr Hc|r1 r2 s s1 s2 _ IH1 _ IH2
                 |r1 r2 s s1 _ IH|r1 r2 s s1 _ IH|r s
                 |r s s1 s2 _ IH1 _ IH2|k r s s1 _ IH|p s Hp];
    simpl; intros Hn; try reflexivity.
  - apply prefix_append in Hp as [t Ht].
    destruct (consumed_advance w s t Ht) as (_ & _ & E). now rewrite E.
  - unfold Re.step. now rewrite Hr.
  - rewrite in_app_iff in Hn. rewrite IH2, IH1; tauto.
  - rewrite in_app_iff in Hn. apply IH. tauto.
  - rewrite in_app_iff in Hn. apply IH. tauto.
  - simpl in IH2. rewrite IH2, IH1; auto.
  - destruct (Nat.eqb n k) eqn:E.
    + apply Nat.eqb_eq in E. subst. tauto.
    + apply IH. tauto.
Qed.

Lemma match_at_exact r s m :
  Re.match_at r s = Some m ->
  exists s',
    Re.Matches r (Re.MState (Re.pos s) (Re.prev s) (Re.rest s) (fun _ => None)) s'
    /\ forall i, Re.group m (S i) = Re.caps s' (S i).
Proof.
  unfold Re.match_at. intros H.
  match type of H with
  | match ?e with _ => _ end = _ => destruct e as [s'|] eqn:E
  end; [|discriminate].
  injection H as <-. apply rmatch_sound in E as (s1 & H1 & [= ->]).
  exists s'. split; [exact H1|]. reflexivity.
Qed.

Lemma all_ascii_complete c : In c all_ascii.
Proof.
  unfold all_ascii. rewrite <- (ascii_nat_embedding c).
  apply in_map, in_seq. pose proof (nat_ascii_bounded c). lia.
Qed.

(** What a pattern matches starts with a character of the class it
    starts in. *)
Lemma starts_in_sound p r s s' :
  starts_in p r = true -> Re.Matches r s s' ->
  exists c t, Re.rest s = String c t /\ p c = true.
Proof.
  intros Hp HM. revert Hp.
  induction HM as [s|w s Hw|q s c t Hr Hc|r1 r2 s s1 s2 _ IH1 _ _
                  |r1 r2 s s1 _ IH|r1 r2 s s1 _ IH|r s
                  |r s s1 s2 _ _ _ _|k r s s1 _ IH|q s Hq];
    cbn [starts_in]; intros Hp; try discriminate.
  - destruct w as [|a w]; [discriminate|].
    apply prefix_append in Hw as [t Ht]. rewrite Ht. eauto.
  - exists c, t. split; [assumption|].
    rewrite List.forallb_forall in Hp. specialize (Hp c (all_ascii_complete c)).
    rewrite Hc in Hp. exact Hp.
  - auto.
  - apply andb_prop in Hp as [H1 _]. auto.
  - apply andb_prop in Hp as [_ H2]. auto.
  - auto.
Qed.

(** An anchored match needs a first character of that class. *)
Lemma match_starts_in p r value :
  starts_in p r = true ->
  match value with
  | String c _ => p c = false
  | EmptyString => True
  end ->
  Re.match_ r value = None.
Proof.
  intros Hp Hv. destruct (Re.match_ r value) as [m|] eqn:E; [|reflexivity].
  apply match_at_exact in E as (s' & HM & _).
  destruct (starts_in_sound _ _ _ _ Hp HM) as (c & t & Hr & Hc).
  simpl in Hr. subst value. congruence.
Qed.

Lemma french_groupdict m :
  Re.groupdict french_dimensions_re m !! "d1" = Some (Re.group m 1)
  /\ Re.groupdict french_dimensions_re m !! "d2" = Some (Re.group m 5).
Proof. split; reflexivity. Qed.

Lemma x1_groupdict m :
  Re.groupdict simple_dimensions_re_x1 m !! "d1" = Some (Re.group m 1)
  /\ Re.groupdict simple_dimensions_re_x1 m !! "d1w" = Some (Re.group m 5).
Proof. split; reflexivity. Qed.

Lemma x2_groupdict m :
  Re.groupdict simple_dimensions_re_x2 m !! "d1" = Some (Re.group m 1)
  /\ Re.groupdict simple_dimensions_re_x2 m !! "d1w" = Some (Re.group m 5)
  /\ Re.groupdict simple_dimensions_re_x2 m !! "d2" = Some (Re.group m 8)
  /\ Re.groupdict simple_dimensions_re_x2 m !! "d2w" = Some (Re.group m 12).
Proof. repeat split; reflexivity. Qed.

(** A Dutch match always holds its first marker. *)
Lemma dutch_first_marker value m :
  Re.match_ (Re.tree dutch_dimensions_re) value = Some m ->
  exists d1w, Re.group m 1 = Some d1w.
Proof.
  intros H. apply match_at_exact in H as (s' & HM & Hg). rewrite Hg.
  unfold dutch_dimensions_re in HM. cbn [Re.tree Re.seq] in HM.
  invert HM.
  match goal with M : Re.Matches (Re.Grp 1 _) _ _ |- _ => invert M end.
  match goal with M : Re.Matches (Re.Seq _ _) _ _ |- _ =>
    rewrite (Matches_captures _ _ _ 1 M) end.
  - rewrite set_cap_caps. simpl. eauto.
  - vm_compute. intros H. repeat (destruct H as [H|H]; [discriminate|]). exact H.
Qed.

Lemma parse_group_ok value hint ws d dims :
  parse_simple_dimensions value hint = (ws, Return (Some (d :: dims))) ->
  group_ok (d :: dims).
Proof.
  intros H. apply parse_simple_dimensions_Some in H as (Hne & Hu & axis & Hin & _ & Ha).
  split; [assumption|]. split; [assumption|]. eauto.
Qed.

Lemma french_cleaner_ok value :
  exists ws r, french_dimensions_cleaner_x2 value = (ws, Return r) /\ groups_ok r.
Proof.
  unfold french_dimensions_cleaner_x2, getitem.
  destruct (Re.match_ (Re.tree french_dimensions_re) value) as [m|];
    [|exists [], None; split; [reflexivity|exact I]].
  destruct (french_groupdict m) as (E1 & E2). rewrite E1, E2.
  destruct (parse_total (Re.group m 1) (Some "h")) as (ws1 & d1 & Hp1 & _).
  destruct (parse_total (Re.group m 5) (Some "w")) as (ws2 & d2 & Hp2 & _).
  unmonad. cbn [bind]. rewrite Hp1. cbn [bind]. rewrite Hp2.
  destruct d1 as [[|a1 g1]|]; destruct d2 as [[|a2 g2]|]; cbn [bind];
    do 2 eexists; (split; [reflexivity|]); try exact I.
  split; [now right|].
  constructor; [eapply parse_group_ok; eauto|].
  constructor; [eapply parse_group_ok; eauto|constructor].
Qed.

Lemma dutch_cleaner_ok value :
  exists ws r, dutch_dimensions_cleaner_x2 value = (ws, Return r) /\ groups_ok r.
Proof.
  unfold dutch_dimensions_cleaner_x2, getitem.
  destruct (Re.match_ (Re.tree dutch_dimensions_re) value) as [m|] eqn:Hm;
    [|exists [], None; split; [reflexivity|exact I]].
  destruct (dutch_groupdict m) as (E1 & E2 & _ & E4). rewrite E1, E2, E4.
  destruct (dutch_first_marker _ _ Hm) as [d1w Hd]. rewrite Hd.
  unmonad. cbn [bind].
  destruct (Py.contains "breed" (Py.lower d1w)); cbn [bind];
    match goal with
    | |- context [parse_simple_dimensions (Re.group m 2) (Some ?h)] =>
        destruct (parse_total (Re.group m 2) (Some h)) as (ws1 & d1 & Hp1 & _)
    end;
    match goal with
    | |- context [parse_simple_dimensions (Re.group m 7) (Some ?w)] =>
        destruct (parse_total (Re.group m 7) (Some w)) as (ws2 & d2 & Hp2 & _)
    end;
    rewrite Hp1; cbn [bind]; rewrite Hp2;
    destruct d1 as [[|a1 g1]|]; destruct d2 as [[|a2 g2]|]; cbn [bind];
    do 2 eexists; (split; [reflexivity|]); try exact I;
    (split; [now right|]);
    (constructor; [eapply parse_group_ok; eauto|]);
    (constructor; [eapply parse_group_ok; eauto|constructor]).
Qed.

Lemma x1_cleaner_ok value :
  exists ws r, simple_dimensions_cleaner_x1 value = (ws, Return r) /\ groups_ok r.
Proof.
  unfold simple_dimensions_cleaner_x1, getitem.
  destruct (Re.match_ (Re.tree simple_dimensions_re_x1) value) as [m|];
    [|exists [], None; split; [reflexivity|exact I]].
  destruct (x1_groupdict m) as (E1 & E2). rewrite E1, E2.
  destruct (parse_total (Re.group m 1) (Re.group m 5)) as (ws1 & d1 & Hp1 & _).
  unmonad. cbn [bind]. rewrite Hp1.
  destruct d1 as [[|a1 g1]|]; cbn [bind];
    do 2 eexists; (split; [reflexivity|]); try exact I.
  split; [now left|].
  constructor; [eapply parse_group_ok; eauto|constructor].
Qed.

Lemma x2_cleaner_ok value :
  exists ws r, simple_dimensions_cleaner_x2 value = (ws, Return r) /\ groups_ok r.
Proof.
  unfold simple_dimensions_cleaner_x2, getitem.
  destruct (Re.match_ (Re.tree simple_dimensions_re_x2) value) as [m|];
    [|exists [], None; split; [reflexivity|exact I]].
  destruct (x2_groupdict m) as (E1 & E2 & E3 & E4). rewrite E1, E2, E3, E4.
  destruct (parse_total (Re.group m 1) (Re.group m 5)) as (ws1 & d1 & Hp1 & _).
  destruct (parse_total (Re.group m 8) (Re.group m 12)) as (ws2 & d2 & Hp2 & _).
  unmonad. cbn [bind]. rewrite Hp1. cbn [bind]. rewrite Hp2.
  destruct d1 as [[|a1 g1]|]; destruct d2 as [[|a2 g2]|]; cbn [bind];
    do 2 eexists; (split; [reflexivity|]); try exact I.
  split; [now right|].
  constructor; [eapply parse_group_ok; eauto|].
  constructor; [eapply parse_group_ok; eauto|constructor].
Qed.

Lemma first_cleaner_ok fs value :
  Forall (fun f => forall value,
            exists ws r, f value = (ws, Return r) /\ groups_ok r) fs ->
  exists ws r, first_cleaner fs value = (ws, Return r) /\ groups_ok r.
Proof.
  induction 1 as [|f fs Hf _ IH].
  - exists [], None. split; [reflexivity|exact I].
  - cbn [first_cleaner]. destruct (Hf value) as (ws1 & r1 & E & Hr).
    destruct IH as (ws2 & r2 & E2 & Hr2).
    unmonad. rewrite (bind_eq _ _ _ _ E).
    destruct r1 as [[|g groups]|]; try (rewrite E2; eauto).
    do 2 eexists. split; [reflexivity|]. exact Hr.
Qed.

Lemma dimensions_cleaner_ok value :
  exists ws r, dimensions_cleaner value = (ws, Return r) /\ groups_ok r.
Proof.
  destruct value as [value|]; [|exists [], None; split; [reflexivity|exact I]].
  apply first_cleaner_ok. unfold cleaners.
  repeat constructor; intros v;
    [apply x2_cleaner_ok|apply french_cleaner_ok
    |apply dutch_cleaner_ok|apply x1_cleaner_ok].
Qed.

(** [X10]  The cascade of matchers never raises.  On every input it
    returns None or a tuple of one or two groups; every group is
    non-empty, its units are among inches, feet, cm and None, and all its
    measurements carry one and the same axis among width, height and
    None. *)
Theorem X10_dimensions_cleaner_groups :
  forall value,
    exists ws r,
      dimensions_cleaner value = (ws, Return r)
      /\ match r with
         | None => True
         | Some groups =>
             (length groups = 1%nat \/ length groups = 2%nat)
             /\ Forall (fun g =>
                          g <> []
                          /\ Forall (fun d => In (Dimension.unit d) canonical_units) g
                          /\ exists axis,
                               In axis canonical_axes
                               /\ Forall (fun d => Dimension.which d = axis) g)
                  groups
         end.
Proof. intros value. apply dimensions_cleaner_ok. Qed.

(** [X11]  For every input that the French matcher turns into groups,
    there are two of them: every measurement of the first has axis height
    and every measurement of the second has axis width. *)
Theorem X11_french_axes :
  forall value ws groups,
    french_dimensions_cleaner_x2 value = (ws, Return (Some groups)) ->
    exists g1 g2,
      groups = [g1; g2]
      /\ Forall (fun d => Dimension.which d = Some "height") g1
      /\ Forall (fun d => Dimension.which d = Some "width") g2.
Proof.
  intros value ws groups H. unfold french_dimensions_cleaner_x2, getitem in H.
  destruct (Re.match_ (Re.tree french_dimensions_re) value) as [m|]; [|discriminate].
  destruct (french_groupdict m) as (E1 & E2). rewrite E1, E2 in H. unmonad.
  apply bind_Return in H as (w0 & t1 & w1 & Ht1 & H & _). injection Ht1 as _ <-.
  apply bind_Return in H as (w2 & d1 & w3 & Hp1 & H & _).
  apply bind_Return in H as (w4 & t2 & w5 & Ht2 & H & _). injection Ht2 as _ <-.
  apply bind_Return in H as (w6 & d2 & w7 & Hp2 & H & _).
  destruct d1 as [[|a1 g1]|]; [discriminate| |discriminate].
  destruct d2 as [[|a2 g2]|]; [discriminate| |discriminate].
  injection H as _ <-. exists (a1 :: g1), (a2 :: g2).
  split; [reflexivity|]. split; eapply parse_axis; eauto.
Qed.

Lemma X11_witness :
  exists g1 g2,
    [[Dimension.make "14" (Some "inches") (Some "height")];
     [Dimension.make "10" (Some "inches") (Some "width")]] = [g1; g2]
    /\ Forall (fun d => Dimension.which d = Some "height") g1
    /\ Forall (fun d => Dimension.which d = Some "width") g2.
Proof.
  apply (X11_french_axes "Haut 14 pouces, large 10 pouces" []).
  vm_compute. reflexivity.
Defined.

(** ** Inputs that no matcher accepts *)

Lemma cleaner_None_x2 value :
  Re.match_ (Re.tree simple_dimensions_re_x2) value = None ->
  simple_dimensions_cleaner_x2 value = ([], Return None).
Proof. intros H. unfold simple_dimensions_cleaner_x2. now rewrite H. Qed.

Lemma cleaner_None_x1 value :
  Re.match_ (Re.tree simple_dimensions_re_x1) value = None ->
  simple_dimensions_cleaner_x1 value = ([], Return None).
Proof. intros H. unfold simple_dimensions_cleaner_x1. now rewrite H. Qed.

Lemma cleaner_None_french value :
  Re.match_ (Re.tree french_dimensions_re) value = None ->
  french_dimensions_cleaner_x2 value = ([], Return None).
Proof. intros H. unfold french_dimensions_cleaner_x2. now rewrite H. Qed.

Lemma cleaner_None_dutch value :
  Re.match_ (Re.tree dutch_dimensions_re) value = None ->
  dutch_dimensions_cleaner_x2 value = ([], Return None).
Proof. intros H. unfold dutch_dimensions_cleaner_x2. now rewrite H. Qed.

Lemma dimensions_cleaner_first_char value :
  match value with
  | String c _ =>
      Py.isdigit c = false /\ Py.contains (String c EmptyString) "HhBb" = false
  | EmptyString => True
  end ->
  dimensions_cleaner (Some value) = ([], Return None).
Proof.
  intros Hv.
  assert (Hd : match value with
               | String c _ => Py.isdigit c = false
               | EmptyString => True
               end) by (destruct value; tauto).
  assert (Hl : match value with
               | String c _ => Py.contains (String c EmptyString) "HhBb" = false
               | EmptyString => True
               end) by (destruct value; tauto).
  unfold dimensions_cleaner, cleaners. cbn [first_cleaner]. unmonad.
  rewrite (cleaner_None_x2 value)
    by (apply (match_starts_in Py.isdigit); [vm_compute; reflexivity|exact Hd]).
  cbn [bind].
  rewrite (cleaner_None_french value)
    by (apply (match_starts_in (fun c => Py.contains (String c EmptyString) "HhBb"));
        [vm_compute; reflexivity|exact Hl]).
  cbn [bind].
  rewrite (cleaner_None_dutch value)
    by (apply (match_starts_in (fun c => Py.contains (String c EmptyString) "HhBb"));
        [vm_compute; reflexivity|exact Hl]).
  cbn [bind].
  rewrite (cleaner_None_x1 value)
    by (apply (match_starts_in Py.isdigit); [vm_compute; reflexivity|exact Hd]).
  reflexivity.
Qed.

(** [X12]  The matchers are anchored at the first character and skip
    nothing before it: an input that is empty, or whose first character
    is neither a digit nor one of H, h, B and b (a leading blank, for
    one), is matched by none of them, and the extraction yields nothing,
    without a warning. *)
Theorem X12_first_character_decides :
  forall value,
    match value with
    | String c _ =>
        Py.isdigit c = false /\ Py.contains (String c EmptyString) "HhBb" = false
    | EmptyString => True
    end ->
    dimensions_cleaner (Some value) = ([], Return None)
    /\ forall (instance : Type) (instances : gmap string instance),
         extract_physical_dimensions instances (Some value) = Run [] [] (Return tt).
Proof.
  intros value Hv.
  pose proof (dimensions_cleaner_first_char value Hv) as H.
  split; [exact H|]. intros. unfold extract_physical_dimensions. now rewrite H.
Qed.

Lemma X12_witness :
  dimensions_cleaner (Some " 14 cm x 10 cm") = ([], Return None)
  /\ forall (instance : Type) (instances : gmap string instance),
       extract_physical_dimensions instances (Some " 14 cm x 10 cm")
       = Run [] [] (Return tt).
Proof.
  apply (X12_first_character_decides " 14 cm x 10 cm").
  split; reflexivity.
Defined.

(** ** What the extraction yields *)

Lemma normalize_loop_Raise dims : forall l ws e,
  normalize_loop dims l = (ws, Raise e) -> exists t, e = ValueError t.
Proof.
  induction dims as [|d dims IH]; intros l ws e; [discriminate|].
  cbn [normalize_loop].
  assert (Hstep : forall f : PyFloat.float -> locals,
    (x ← float (Dimension.value d); normalize_loop dims (f x)) = (ws, Raise e) ->
    exists t, e = ValueError t).
  { intros f. unfold float. unmonad.
    destruct (PyFloat.of_string (Dimension.value d)) as [x|]; cbn [bind].
    - destruct (normalize_loop dims (f x)) as [ws' [r|e']] eqn:E;
        cbv beta iota; [discriminate|].
      intros [= _ <-]. eapply IH; eauto.
    - intros [= _ <-]. eauto. }
  destruct (Py.is_str (Dimension.unit d) "inches"); [apply Hstep|].
  destruct (Py.is_str (Dimension.unit d) "feet"); [apply Hstep|].
  destruct (Py.is_str (Dimension.unit d) "cm"); [apply Hstep|].
  destruct (Dimension.unit d); [|apply Hstep].
  unmonad. simpl. discriminate.
Qed.

Lemma labels_loop_no_Raise dims : forall acc ws e,
  labels_loop dims acc <> (ws, Raise e).
Proof.
  induction dims as [|d dims IH]; intros acc ws e; [discriminate|].
  cbn [labels_loop].
  destruct (Py.is_str (Dimension.unit d) "inches"); [apply IH|].
  destruct (Py.is_str (Dimension.unit d) "feet"); [apply IH|].
  destruct (Py.is_str (Dimension.unit d) "cm"); [apply IH|].
  destruct (Dimension.unit d); [|apply IH].
  unmonad. simpl. discriminate.
Qed.

Lemma normalized_dimension_object_Raise dims ws e :
  normalized_dimension_object dims = (ws, Raise e) -> exists t, e = ValueError t.
Proof.
  unfold normalized_dimension_object, normalize_dimension. unmonad.
  destruct (normalize_loop dims initial) as [ws0 [[ex l]|e0]] eqn:Hloop.
  - cbn [bind]. intros H.
    destruct ex;
      [destruct (negb (Nat.eqb (used_systems l) 1));
       [|destruct (PyNum.nonzero (inches l)); [|destruct (PyNum.nonzero (cm l))]]|];
      cbn [bind] in H; try discriminate;
      destruct (labels_loop dims []) as [wl [[labels|]|el]] eqn:El;
      try discriminate; exfalso; eapply labels_loop_no_Raise; eauto.
  - cbn [bind]. intros [= _ <-]. eapply normalize_loop_Raise; eauto.
Qed.

Section Yield.

Context {instance : Type} (instances : gmap string instance).

Lemma emit_yield groups :
  (length (yielded (emit instances groups)) <= length groups)%nat
  /\ (finished (emit instances groups) = Return tt
      \/ exists t, finished (emit instances groups) = Raise (ValueError t))
  /\ Forall (fun rec =>
               In (dim_unit rec) [instances !! "inches"; instances !! "cm"; None])
       (yielded (emit instances groups)).
Proof.
  induction groups as [|g groups (IH1 & IH2 & IH3)].
  - simpl. split; [lia|]. split; [now left|constructor].
  - cbn [emit].
    destruct (normalized_dimension_object g) as [ws [[[d label]|]|e]] eqn:E;
      cbn [yielded finished length].
    + split; [lia|]. split; [assumption|]. constructor; [|assumption].
      cbn [dim_unit].
      unfold normalized_dimension_object in E. unmonad.
      apply bind_Return in E as (w1 & [nd|] & w2 & Hn & E & _); [|discriminate].
      apply bind_Return in E as (w3 & [labels|] & w4 & _ & E & _); [|discriminate].
      injection E as _ <- _.
      apply normalize_dimension_result in Hn as (_ & _ & _ & Hu & _).
      simpl in Hu. destruct Hu as [<-|[<-|[<-|[]]]]; simpl; tauto.
    + split; [lia|]. split; assumption.
    + split; [lia|]. split; [|constructor].
      right. apply normalized_dimension_object_Raise in E as [t ->]. eauto.
Qed.

Lemma extract_yield dimstr :
  (length (yielded (extract_physical_dimensions instances dimstr)) <= 2)%nat
  /\ (finished (extract_physical_dimensions instances dimstr) = Return tt
      \/ exists t, finished (extract_physical_dimensions instances dimstr)
                   = Raise (ValueError t))
  /\ Forall (fun rec =>
               In (dim_unit rec) [instances !! "inches"; instances !! "cm"; None])
       (yielded (extract_physical_dimensions instances dimstr)).
Proof.
  unfold extract_physical_dimensions.
  destruct (dimensions_cleaner_ok dimstr) as (ws & r & -> & Hr).
  destruct r as [[|g groups]|]; cbn [yielded finished length];
    try (split; [lia|]; split; [now left|constructor]).
  destruct Hr as [Hlen _].
  destruct (emit_yield (g :: groups)) as (H1 & H2 & H3).
  split; [|split; assumption].
  destruct Hlen as [Hlen|Hlen]; rewrite Hlen in H1; lia.
Qed.

End Yield.

(** [X13]  What the extraction yields, on every input: at most two
    records; it runs to its end or raises the [ValueError] of [float], and
    nothing else; and the unit of each record is what the registry holds
    under "inches" or under "cm", or is absent, so that no record carries
    feet. *)
Theorem X13_extraction_yields :
  forall (instance : Type) (instances : gmap string instance) dimstr,
    (length (yielded (extract_physical_dimensions instances dimstr)) <= 2)%nat
    /\ (finished (extract_physical_dimensions instances dimstr) = Return tt
        \/ exists t, finished (extract_physical_dimensions instances dimstr)
                     = Raise (ValueError t))
    /\ Forall (fun rec =>
                 In (dim_unit rec) [instances !! "inches"; instances !! "cm"; None])
         (yielded (extract_physical_dimensions instances dimstr)).
Proof. intros. apply extract_yield. Qed.

(** ** The warnings of the extraction *)

(** Blanks matched by [\s*] are stripped from the left of what follows. *)
Lemma Matches_star_space_lstrip s s' :
  Re.Matches (Re.Star space) s s' ->
  exists w, consumed s s' w
            /\ forall x, Py.lstrip_by Py.isspace (String.append w x)
                         = Py.lstrip_by Py.isspace x.
Proof.
  intros H. remember (Re.Star space) as r eqn:Hr.
  induction H as [| | | | | |r0 s|r0 s s1 s2 H1 _ _ IH2| |]; try discriminate.
  - exists EmptyString. split; [apply consumed_refl|reflexivity].
  - injection Hr as ->. destruct (IH2 eq_refl) as (w2 & C2 & L2).
    unfold space in H1. invert H1.
    match goal with E : Re.rest s = String ?c ?t |- _ =>
      pose proof (consumed_step _ _ _ E) as C1 end.
    eexists. split; [eapply consumed_trans; eauto|].
    intros x. rewrite append_assoc. rewrite append_cons. cbn [Py.lstrip_by].
    match goal with E : Py.isspace ?c = true |- _ => rewrite E end.
    apply L2.
Qed.

Lemma rstrip_head p c t :
  p c = false -> exists t', Py.rstrip_by p (String c t) = String c t'.
Proof.
  intros H. cbn [Py.rstrip_by]. destruct (Py.rstrip_by p t).
  - rewrite H. eauto.
  - eauto.
Qed.

(** A marker after blanks is read as an axis without a warning. *)
Lemma canonical_which_marker w c t :
  (forall x, Py.lstrip_by Py.isspace (String.append w x) = Py.lstrip_by Py.isspace x) ->
  In c ["w"; "h"]%char ->
  warnings_of (_canonical_which (Some (String.append w (String c t)))) = [].
Proof.
  intros Hw Hc.
  assert (Hsp : Py.isspace c = false)
    by (destruct Hc as [<-|[<-|[]]]; reflexivity).
  unfold _canonical_which.
  destruct (String.append w (String c t)) as [|a u] eqn:E; [reflexivity|].
  rewrite <- E. unfold Py.strip. rewrite Hw. cbn [Py.lstrip_by]. rewrite Hsp.
  destruct (rstrip_head Py.isspace c t Hsp) as [t' ->].
  cbn [Py.lower]. unfold Py.startswith. rewrite !prefix_char.
  destruct Hc as [<-|[<-|[]]]; reflexivity.
Qed.

(** The text of the optional width/height marker is empty or a marker
    after blanks. *)
Lemma width_height_text g s s' :
  Re.Matches (simple_width_height_pattern g) s s' ->
  warnings_of (_canonical_which (Some (Re.between s s'))) = [].
Proof.
  intros H. unfold simple_width_height_pattern, Re.Opt in H.
  cbn [Re.alt] in H. invert H.
  - match goal with M : Re.Matches (Re.Seq _ _) _ _ |- _ => invert M end.
    match goal with M : Re.Matches (Re.Star space) _ _ |- _ =>
      apply Matches_star_space_lstrip in M as (w & Cw & Lw) end.
    match goal with M : Re.Matches (Re.Grp g _) _ _ |- _ =>
      pose proof (Matches_consumed _ _ _ M) as [x Cx]; invert M end.
    assert (Hx : exists c t, x = String c t /\ In c ["w"; "h"]%char).
    { match goal with M : Re.Matches (Re.Alt _ _) _ _ |- _ => invert M end.
      - match goal with M : Re.Matches (Re.Seq _ _) _ _ |- _ => invert M end.
        match goal with M : Re.Matches (Re.NotBehind _) _ _ |- _ => invert M end.
        match goal with M : Re.Matches (one_of _) _ _ |- _ =>
          unfold one_of in M; invert M end.
        match goal with E : Re.rest _ = String ?c ?t |- _ =>
          pose proof (consumed_step _ _ _ E) as C1 end.
        pose proof (consumed_between _ _ _ C1) as B1.
        assert (Cx' := Cx). destruct Cx' as [Cr Cp].
        cbn [Re.rest Re.pos Re.set_cap] in Cr, Cp.
        pose proof (consumed_between _ _ _ (conj Cr Cp)) as B2.
        rewrite B1 in B2. subst x. do 2 eexists. split; [reflexivity|].
        match goal with E : _ || _ = true |- In ?c _ =>
          destruct (ascii_dec c "w") as [->|_]; [now left|];
          destruct (ascii_dec c "h") as [->|_]; [now right; left|];
          discriminate E
        end.
      - match goal with M : Re.Matches (Re.Alt _ _) _ _ |- _ => invert M end;
          match goal with M : Re.Matches (Re.Lit ?l) _ _ |- _ =>
            pose proof (words_sound (Re.Lit l) _ _ _ eq_refl M) as Hin end;
          destruct Cx as [Cr Cp]; cbn [Re.rest Re.pos Re.set_cap] in Cr, Cp;
          pose proof (consumed_between _ _ _ (conj Cr Cp)) as B2;
          rewrite B2 in Hin; destruct Hin as [<-|[]];
          do 2 eexists; (split; [reflexivity|]); simpl; tauto. }
    destruct Hx as (c & t & -> & Hc).
    rewrite (consumed_between _ _ _ (consumed_trans _ _ _ _ _ Cw Cx)).
    now apply canonical_which_marker.
  - match goal with M : Re.Matches Re.Eps _ _ |- _ => invert M end.
    rewrite (consumed_between _ _ _ (consumed_refl s')). reflexivity.
Qed.

Lemma x1_marker value m :
  Re.match_ (Re.tree simple_dimensions_re_x1) value = Some m ->
  warnings_of (_canonical_which (Re.group m 5)) = [].
Proof.
  intros H. apply match_at_exact in H as (s' & HM & Hg). rewrite Hg.
  unfold simple_dimensions_re_x1 in HM. cbn [Re.tree Re.seq] in HM.
  invert HM.
  match goal with M : Re.Matches (Re.Grp 5 _) _ _ |- _ => invert M end.
  rewrite set_cap_caps. simpl Nat.eqb. cbv iota.
  eapply width_height_text; eauto.
Qed.

Lemma x2_markers value m :
  Re.match_ (Re.tree simple_dimensions_re_x2) value = Some m ->
  warnings_of (_canonical_which (Re.group m 5)) = []
  /\ warnings_of (_canonical_which (Re.group m 12)) = [].
Proof.
  intros H. apply match_at_exact in H as (s' & HM & Hg). rewrite !Hg.
  unfold simple_dimensions_re_x2 in HM. cbn [Re.tree Re.seq] in HM.
  invert HM.
  match goal with M : Re.Matches (Re.Seq (Re.Grp 5 _) _) _ _ |- _ => invert M end.
  match goal with M : Re.Matches (Re.Grp 5 _) _ _ |- _ => invert M end.
  match goal with M : Re.Matches (simple_width_height_pattern 6) _ _ |- _ =>
    apply width_height_text in M; rename M into W5 end.
  split.
  - match goal with M : Re.Matches (Re.Seq _ _) _ _ |- _ =>
      rewrite (Matches_captures _ _ _ 5 M) end.
    + rewrite set_cap_caps. simpl Nat.eqb. cbv iota. exact W5.
    + vm_compute. intros H. repeat (destruct H as [H|H]; [discriminate|]). exact H.
  - repeat match goal with M : Re.Matches (Re.Seq _ _) _ _ |- _ => invert M end.
    match goal with M : Re.Matches (Re.Grp 12 _) _ _ |- _ => invert M end.
    rewrite set_cap_caps. simpl Nat.eqb. cbv iota.
    eapply width_height_text; eauto.
Qed.

Lemma parse_loop_warnings_hint ms : forall which dims0,
  Forall token ms ->
  warnings_of (_canonical_which which) = [] ->
  forall w, In w (warnings_of (parse_loop ms which dims0)) ->
            exists t, w = Failed_to_canonicalize t.
Proof.
  induction ms as [|m ms IH]; intros which dims0 Hall Hh w.
  - simpl. destruct dims0; intros [].
  - inversion Hall as [|? ? Hm Hrest]; subst.
    pose proof (token_unit m Hm) as H3.
    destruct Hm as [(c & t & H2 & Hc) _].
    destruct (canonical_value_digit c t Hc) as (t' & _ & Hv).
    destruct (canonical_which_total which) as (ws1 & axis & Hw & Hax).
    rewrite Hw in Hh. simpl in Hh. subst ws1.
    destruct (Py.contains "/" (String c t')) eqn:Hs.
    + cbn [parse_loop]. rewrite H2, Hv. unmonad. simpl.
      intros [<-|[]]. eauto.
    + rewrite (parse_loop_step m ms which dims0 _ _ [] axis H2 Hv ltac:(discriminate) H3 Hw).
      unfold warnings_of. cbn [fst app]. apply IH; [assumption|].
      now rewrite (canonical_which_idempotent _ Hax).
Qed.

Lemma parse_warnings_hint value hint w :
  warnings_of (_canonical_which hint) = [] ->
  In w (warnings_of (parse_simple_dimensions value hint)) ->
  exists t, w = Failed_to_canonicalize t.
Proof.
  intros Hh. destruct value as [value|]; [|intros []].
  unfold parse_simple_dimensions.
  apply parse_loop_warnings_hint; [apply finditer_tokens|assumption].
Qed.

Lemma parse_cleaner_warning value hint w :
  warnings_of (_canonical_which hint) = [] ->
  In w (warnings_of (parse_simple_dimensions value hint)) ->
  cleaner_warning w.
Proof.
  intros Hh Hin. destruct (parse_warnings_hint _ _ _ Hh Hin) as [t ->]. exact I.
Qed.

Ltac step_warn Hin :=
  let a := fresh "a" in
  let Ha := fresh "Ha" in
  apply bind_warnings in Hin as [Hin|(a & Ha & Hin)];
  [try (destruct Hin; fail)|try (injection Ha as <-)].

Lemma two_groups_warning (d1 d2 : option (list Dimension.t)) t1 t2 h1 h2 value w :
  In w (warnings_of
          (match d1, d2 with
           | Some ((_ :: _) as g1), Some ((_ :: _) as g2) => mret (Some [g1; g2])
           | _, _ =>
               warn (Cleaner_group "d1" d1 t1 h1);;
               warn (Cleaner_group "d2" d2 t2 h2);;
               warn (Failed_to_parse value);;
               mret None
           end)) ->
  cleaner_warning w.
Proof.
  destruct d1 as [[|a1 g1]|]; destruct d2 as [[|a2 g2]|]; unmonad; simpl;
    intros H; repeat (destruct H as [<-|H]; [exact I|]); destruct H.
Qed.

Lemma french_cleaner_warnings value w :
  In w (warnings_of (french_dimensions_cleaner_x2 value)) -> cleaner_warning w.
Proof.
  unfold french_dimensions_cleaner_x2, getitem.
  destruct (Re.match_ (Re.tree french_dimensions_re) value) as [m|]; [|intros []].
  destruct (french_groupdict m) as (E1 & E2). rewrite E1, E2.
  intros Hin. unmonad.
  step_warn Hin.
  step_warn Hin; [eapply parse_cleaner_warning; [|exact Hin]; reflexivity|].
  step_warn Hin.
  step_warn Hin; [eapply parse_cleaner_warning; [|exact Hin]; reflexivity|].
  eapply two_groups_warning; eauto.
Qed.

Lemma x1_cleaner_warnings value w :
  In w (warnings_of (simple_dimensions_cleaner_x1 value)) -> cleaner_warning w.
Proof.
  unfold simple_dimensions_cleaner_x1, getitem.
  destruct (Re.match_ (Re.tree simple_dimensions_re_x1) value) as [m|] eqn:Hm;
    [|intros []].
  destruct (x1_groupdict m) as (E1 & E2). rewrite E1, E2.
  pose proof (x1_marker _ _ Hm) as W5.
  intros Hin. unmonad.
  step_warn Hin. step_warn Hin.
  step_warn Hin; [eapply parse_cleaner_warning; [|exact Hin]; assumption|].
  destruct a as [[|? ?]|]; destruct Hin.
Qed.

Lemma x2_cleaner_warnings value w :
  In w (warnings_of (simple_dimensions_cleaner_x2 value)) -> cleaner_warning w.
Proof.
  unfold simple_dimensions_cleaner_x2, getitem.
  destruct (Re.match_ (Re.tree simple_dimensions_re_x2) value) as [m|] eqn:Hm;
    [|intros []].
  destruct (x2_groupdict m) as (E1 & E2 & E3 & E4). rewrite E1, E2, E3, E4.
  destruct (x2_markers _ _ Hm) as (W5 & W12).
  intros Hin. unmonad.
  step_warn Hin. step_warn Hin.
  step_warn Hin; [eapply parse_cleaner_warning; [|exact Hin]; assumption|].
  step_warn Hin. step_warn Hin.
  step_warn Hin; [eapply parse_cleaner_warning; [|exact Hin]; assumption|].
  eapply two_groups_warning; eauto.
Qed.

Lemma dutch_cleaner_warnings value w :
  In w (warnings_of (dutch_dimensions_cleaner_x2 value)) -> cleaner_warning w.
Proof.
  unfold dutch_dimensions_cleaner_x2, getitem.
  destruct (Re.match_ (Re.tree dutch_dimensions_re) value) as [m|] eqn:Hm;
    [|intros []].
  destruct (dutch_groupdict m) as (E1 & E2 & _ & E4). rewrite E1, E2, E4.
  destruct (dutch_first_marker _ _ Hm) as (t & Ht). rewrite Ht.
  intros Hin. unmonad.
  step_warn Hin.
  destruct (Py.contains "breed" (Py.lower t)); unmonad;
    (step_warn Hin;
     step_warn Hin;
     step_warn Hin; [eapply parse_cleaner_warning; [|exact Hin]; reflexivity|];
     step_warn Hin;
     step_warn Hin; [eapply parse_cleaner_warning; [|exact Hin]; reflexivity|];
     eapply two_groups_warning; eauto).
Qed.

Lemma first_cleaner_warnings fs value w :
  Forall (fun f => forall value w,
            In w (warnings_of (f value)) -> cleaner_warning w) fs ->
  In w (warnings_of (first_cleaner fs value)) -> cleaner_warning w.
Proof.
  induction 1 as [|f fs Hf _ IH]; cbn [first_cleaner]; [intros []|].
  intros Hin. unmonad.
  apply bind_warnings in Hin as [Hin|(r & _ & Hin)]; [eapply Hf; eauto|].
  destruct r as [[|g groups]|]; auto. destruct Hin.
Qed.

Lemma dimensions_cleaner_warnings value w :
  In w (warnings_of (dimensions_cleaner value)) -> cleaner_warning w.
Proof.
  destruct value as [value|]; [|intros []].
  apply first_cleaner_warnings. unfold cleaners.
  repeat constructor; intros v w'.
  - apply x2_cleaner_warnings.
  - apply french_cleaner_warnings.
  - apply dutch_cleaner_warnings.
  - apply x1_cleaner_warnings.
Qed.

Section Warnings.

Context {instance : Type} (instances : gmap string instance).

Lemma emit_warnings groups w :
  Forall group_ok groups ->
  In w (warned (emit instances groups)) -> extraction_warning w.
Proof.
  induction 1 as [|g groups (_ & Hu & _) _ IH]; [intros []|].
  cbn [emit].
  pose proof (normalized_dimension_object_canonical g w Hu) as Hn.
  destruct (normalized_dimension_object g) as [ws [[[d label]|]|e]];
    cbn [warned]; intros Hin;
    try apply in_app_or in Hin as [Hin|Hin]; auto;
    rewrite (Hn Hin); exact I.
Qed.

Lemma extract_warnings dimstr w :
  In w (warned (extract_physical_dimensions instances dimstr)) ->
  extraction_warning w.
Proof.
  unfold extract_physical_dimensions.
  pose proof (dimensions_cleaner_warnings dimstr w) as Hc.
  destruct (dimensions_cleaner_ok dimstr) as (ws & r & E & Hr).
  rewrite E in Hc |- *. 
  assert (Hws : In w ws -> extraction_warning w).
  { intros Hin. specialize (Hc Hin). destruct w; try destruct Hc; exact I. }
  destruct r as [[|g groups]|]; cbn [warned]; auto.
  intros Hin. apply in_app_or in Hin as [Hin|Hin]; auto.
  destruct Hr as [_ Hr]. eapply emit_warnings; eauto.
Qed.

End Warnings.

(** [X14]  The warnings an extraction can emit, on every input.  The
    cascade of matchers warns only that a number could not be
    canonicalized, or with the three messages of a two-group matcher
    whose groups did not both parse; the extraction adds only the
    mixed-unit-systems warning of the normalizer.  So the warnings about an
    unknown axis or an unrecognized unit are never emitted on this path:
    every axis marker and every unit text that the patterns let through is
    known to the canonicalizers. *)
Theorem X14_extraction_warnings :
  forall (instance : Type) (instances : gmap string instance) dimstr,
    Forall cleaner_warning (warnings_of (dimensions_cleaner dimstr))
    /\ Forall extraction_warning
         (warned (extract_physical_dimensions instances dimstr)).
Proof.
  intros. split; apply List.Forall_forall; intros w.
  - apply dimensions_cleaner_warnings.
  - apply extract_warnings.
Qed.
